(** * Ph_Care subdomain-takeover scanner: the scan pipeline and its classifier

    A shallow embedding of [lib/scanner] (the engine file holding
    [identifyProvider], [checkFingerprint], [classifyRisk],
    [determineSecurityIssue], [dnsLookup], [httpProbe], [scanSubdomain] and
    [parseDomainsFromText]) together with the properties its specification
    states about it.

    Conventions of the embedding:
    - a JavaScript string is a [string]; a character stands for the UTF-16
      code unit of the same number (U+0000 to U+00FF);
    - a JavaScript number holding an HTTP or DNS status is a [Z];
    - the two catalogs [FINGERPRINTS] and [PROVIDER_MAP] are objects iterated
      with [Object.entries]: they are association lists in insertion order;
      a property read [PROVIDER_MAP[key]] finds the own entry of the key, and
      without one the member of [Object.prototype] of that name;
    - the network is an explicit environment: what each [fetch] resolves to
      or rejects with is an input of the functions that await it. *)

From Stdlib Require Import Bool Ascii String List ZArith NArith Lia DecimalString.
From Stdlib Require Import Permutation Sorted.
Import ListNotations.
Open Scope string_scope.

Set Implicit Arguments.

(** ** JavaScript string primitives *)

Module JS.

(** [c.toLowerCase()] on one code unit: A-Z and the Latin-1 capitals
    U+00C0..U+00DE (the multiplication sign U+00D7 apart) move up by 32. *)
Definition lowerChar (c : ascii) : ascii :=
  let n := N_of_ascii c in
  if ((65 <=? n) && (n <=? 90) ||
      (192 <=? n) && (n <=? 222) && negb (n =? 215))%N
  then ascii_of_N (n + 32) else c.

Fixpoint toLowerCase (s : string) : string :=
  match s with
  | EmptyString => EmptyString
  | String c s' => String (lowerChar c) (toLowerCase s')
  end.

(** [s.startsWith(p)] *)
Definition startsWith (s p : string) : bool := prefix p s.

(** [s.includes(needle)]: [needle] occurs at some position of [s]. *)
Fixpoint includes (s needle : string) : bool :=
  startsWith s needle ||
  match s with
  | EmptyString => false
  | String _ s' => includes s' needle
  end.

(** [xs.includes(x)] on an array of strings. *)
Definition arrayIncludes (xs : list string) (x : string) : bool :=
  existsb (String.eqb x) xs.

(** [s.replace(/c$/, "")] for a literal character [c]: one trailing [c]
    is removed. *)
Fixpoint stripTrailing (c : ascii) (s : string) : string :=
  match s with
  | EmptyString => EmptyString
  | String a EmptyString => if Ascii.eqb a c then EmptyString else s
  | String a s' => String a (stripTrailing c s')
  end.

(** [s.replace(/^p/, "")] for a literal prefix [p]. *)
Fixpoint stripPrefix (p s : string) : option string :=
  match p, s with
  | EmptyString, _ => Some s
  | String a p', String b s' =>
      if Ascii.eqb a b then stripPrefix p' s' else None
  | String _ _, EmptyString => None
  end.

(** A value is falsy as a string exactly when it is empty: [a || b]. *)
Definition orElse (a b : string) : string :=
  match a with EmptyString => b | _ => a end.

Definition truthy (s : string) : bool :=
  match s with EmptyString => false | _ => true end.

(** [String(n)] for an integer [n]. *)
Definition numberToString (n : Z) : string :=
  NilZero.string_of_int (Z.to_int n).

End JS.

(** ** Data model *)

Inductive DnsStatus : Set := CNAME | A | NXDOMAIN.

Inductive RiskLevel : Set := CRITICAL | HIGH | MEDIUM | INFO | LOW.

(** The unions are string literal types: these are the strings they are at
    run time, which is what the [string]-typed parameters of [classifyRisk]
    and [determineSecurityIssue] receive. *)
Definition dnsStatusString (d : DnsStatus) : string :=
  match d with CNAME => "CNAME" | A => "A" | NXDOMAIN => "NXDOMAIN" end.

Definition riskLevelString (r : RiskLevel) : string :=
  match r with
  | CRITICAL => "CRITICAL" | HIGH => "HIGH" | MEDIUM => "MEDIUM"
  | INFO => "INFO" | LOW => "LOW"
  end.

Record ScanResult : Set := mkScanResult {
  subdomain : string;
  cname : string;
  dnsStatus : DnsStatus;
  httpStatus : string;
  provider : string;
  signature : string;
  dnsLookupResult : string;
  securityIssue : string;
  riskLevel : RiskLevel;
  riskLabel : string;
  serverHeader : string;
  scannedAt : string
}.

(** The result object of [checkFingerprint]. *)
Module Fingerprint.
Record t : Set := mk { isVulnerable : bool; matchedSignature : string }.
End Fingerprint.

(** The result object of [classifyRisk]. *)
Module Verdict.
Record t : Set := mk { riskLevel : RiskLevel; riskLabel : string }.
End Verdict.

(** The result object of [dnsLookup]. *)
Module Lookup.
Record t : Set := mk {
  dnsStatus : DnsStatus;
  cnameTarget : string;
  dnsLookupText : string
}.
End Lookup.

(** The mutable [result] object of [httpProbe]. *)
Module Probe.
Record t : Set := mk {
  status : Z;
  body : string;
  error : string;
  serverHeader : string
}.
End Probe.

(** What a [catch (err)] clause receives: an [Error] instance with its
    [name] and [message], or some other thrown value. *)
Inductive Thrown : Set :=
| ErrorObject (name message : string)
| OtherValue.

(** The catalogs, as [Object.entries] enumerates them. *)
Definition FingerprintCatalog : Set := list (string * list string).
Definition ProviderCatalog : Set := list (string * string).

(** The own entry of a key in a list of entries, if there is one. *)
Fixpoint lookup (V : Set) (m : list (string * V)) (key : string) : option V :=
  match m with
  | [] => None
  | (k, v) :: m' => if String.eqb k key then Some v else lookup m' key
  end.

(** A catalog is a plain object: a key it has no entry for is looked up in
    [Object.prototype]. These are the members found there, each with the text
    a template literal gives it on the runtime of the scanner (Node): a
    built-in function reads [function name() { [native code] }], and
    [__proto__] is the prototype object itself. *)
Definition builtinFunction (name : string) : string :=
  "function " ++ name ++ "() { [native code] }".

Definition OBJECT_PROTOTYPE : list (string * string) :=
  [ ("constructor", builtinFunction "Object");
    ("__defineGetter__", builtinFunction "__defineGetter__");
    ("__defineSetter__", builtinFunction "__defineSetter__");
    ("hasOwnProperty", builtinFunction "hasOwnProperty");
    ("__lookupGetter__", builtinFunction "__lookupGetter__");
    ("__lookupSetter__", builtinFunction "__lookupSetter__");
    ("isPrototypeOf", builtinFunction "isPrototypeOf");
    ("propertyIsEnumerable", builtinFunction "propertyIsEnumerable");
    ("toString", builtinFunction "toString");
    ("valueOf", builtinFunction "valueOf");
    ("__proto__", "[object Object]");
    ("toLocaleString", builtinFunction "toLocaleString") ].

(** What [PROVIDER_MAP[key]] evaluates to: the string of the catalog's own
    entry, or a member inherited from [Object.prototype], a function or an
    object, given by its text. *)
Inductive PropertyValue : Set :=
| OwnString (value : string)
| Inherited (text : string).

(** [obj[key]] on a provider catalog: the own entry first, then the
    prototype; [None] is [undefined]. *)
Definition getProperty (obj : ProviderCatalog) (key : string)
  : option PropertyValue :=
  match lookup obj key with
  | Some value => Some (OwnString value)
  | None =>
      match lookup OBJECT_PROTOTYPE key with
      | Some text => Some (Inherited text)
      | None => None
      end
  end.

(** The sentinels of the fingerprint matcher and of the provider identifier. *)
Definition UNKNOWN_PROVIDER : string := "Unknown Provider".
Definition SERVICE_PROTECTED : string := "Service protected or active".
Definition NO_KNOWN_SIGNATURE : string := "No known signature".

(** [ISSUE_TYPES] of the evidence table. *)
Definition ISSUE_TYPES : list string :=
  [ "Subdomain Takeover";
    "Dangling DNS Record";
    "DNS Hygiene Misconfiguration";
    "Potential Misconfiguration";
    "None - Active Service";
    "None - NXDOMAIN" ].

(** ** The matchers and the classifier *)

Section Scanner.

Variable FINGERPRINTS : FingerprintCatalog.
Variable PROVIDER_MAP : ProviderCatalog.

(** [for (const [domain, provider] of entries) if (lower.includes(domain))
    return provider] *)
Fixpoint firstProvider (entries : ProviderCatalog) (lower : string)
  : option string :=
  match entries with
  | [] => None
  | (domain, prov) :: rest =>
      if JS.includes lower domain then Some prov
      else firstProvider rest lower
  end.

Definition identifyProvider (cnameTarget : string) : string :=
  let lower := JS.toLowerCase cnameTarget in
  match firstProvider PROVIDER_MAP lower with
  | Some prov => prov
  | None => UNKNOWN_PROVIDER
  end.

(** [for (const sig of signatures) if (responseBody.includes(sig)) return sig] *)
Fixpoint firstSignature (signatures : list string) (responseBody : string)
  : option string :=
  match signatures with
  | [] => None
  | sig :: rest =>
      if JS.includes responseBody sig then Some sig
      else firstSignature rest responseBody
  end.

(** The first loop of [checkFingerprint]: the first catalog key the
    lower-cased target contains decides, whether one of its signatures is
    in the body or not. [None] when the loop runs to its end. *)
Fixpoint scopedPass (entries : FingerprintCatalog) (lower responseBody : string)
  : option Fingerprint.t :=
  match entries with
  | [] => None
  | (providerDomain, signatures) :: rest =>
      if JS.includes lower providerDomain then
        match firstSignature signatures responseBody with
        | Some sig => Some (Fingerprint.mk true sig)
        | None => Some (Fingerprint.mk false SERVICE_PROTECTED)
        end
      else scopedPass rest lower responseBody
  end.

(** [PROVIDER_MAP[providerDomain] || providerDomain], as the template
    literal prints it: the display name of the key in the provider catalog;
    the key itself when the catalog has an empty name for it; without an
    entry, the text of the member of [Object.prototype] of that name (a
    function or an object, so never falsy), and the key itself when there
    is none. *)
Definition annotation (providerDomain : string) : string :=
  match getProperty PROVIDER_MAP providerDomain with
  | Some (OwnString name) => JS.orElse name providerDomain
  | Some (Inherited text) => text
  | None => providerDomain
  end.

(** The second loop: every signature of every entry, in order; the hit is
    annotated with the owner of the signature. *)
Fixpoint fallbackPass (entries : FingerprintCatalog) (responseBody : string)
  : option Fingerprint.t :=
  match entries with
  | [] => None
  | (providerDomain, signatures) :: rest =>
      match firstSignature signatures responseBody with
      | Some sig =>
          let prov := annotation providerDomain in
          Some (Fingerprint.mk true (sig ++ " (matched " ++ prov ++ ")"))
      | None => fallbackPass rest responseBody
      end
  end.

Definition checkFingerprint (cnameTarget responseBody : string)
  : Fingerprint.t :=
  let lower := JS.toLowerCase cnameTarget in
  match scopedPass FINGERPRINTS lower responseBody with
  | Some r => r
  | None =>
      match fallbackPass FINGERPRINTS responseBody with
      | Some r => r
      | None => Fingerprint.mk false NO_KNOWN_SIGNATURE
      end
  end.

End Scanner.

(** [cnameTarget.toLowerCase().replace(/\.$/, "")] *)
Definition cleanCname (cnameTarget : string) : string :=
  JS.stripTrailing "." (JS.toLowerCase cnameTarget).

Definition GOOGLE_MAIN : list string :=
  ["google.com"; "www.google.com"; "maps.google.com"].

Definition NOT_A_FINGERPRINT : list string :=
  [""; NO_KNOWN_SIGNATURE; SERVICE_PROTECTED].

Definition isThirdParty (provider : string) : bool :=
  negb (String.eqb provider UNKNOWN_PROVIDER).

Definition isBroken (httpStatus : Z) : bool :=
  (httpStatus =? 0)%Z || (httpStatus >=? 400)%Z.

Definition hasFingerprint (fingerprint : string) : bool :=
  negb (JS.arrayIncludes NOT_A_FINGERPRINT fingerprint).

Definition classifyRisk (dnsStatus : string) (httpStatus : Z)
    (fingerprint httpError provider cnameTarget : string) : Verdict.t :=
  let clean := cleanCname cnameTarget in
  if JS.arrayIncludes GOOGLE_MAIN clean then
    Verdict.mk LOW "Pointed to Google Main (Safe/Not Exploitable)"
  else if String.eqb provider UNKNOWN_PROVIDER && JS.includes clean "google.com" then
    Verdict.mk LOW "Pointed to Generic Google (Safe)"
  else
    let isThirdParty := isThirdParty provider in
    let isBroken := isBroken httpStatus in
    let hasFingerprint := hasFingerprint fingerprint in
    if String.eqb dnsStatus "CNAME" && isBroken && negb isThirdParty then
      Verdict.mk MEDIUM "DNS Hygiene: Self-Pointing or Misconfigured CNAME (Low Likelihood, Some Potential)"
    else if String.eqb dnsStatus "A" && isBroken && negb isThirdParty then
      Verdict.mk MEDIUM "DNS Hygiene: Misconfigured/Dead A Record (Low Likelihood, Some Potential)"
    else if isThirdParty && isBroken && hasFingerprint then
      Verdict.mk CRITICAL "Confirmed Subdomain Takeover (All 3 Conditions Met)"
    else if isThirdParty && (httpStatus =? 200)%Z && hasFingerprint then
      Verdict.mk CRITICAL "Subdomain Takeover (Service Responding 200 with Fingerprint)"
    else if isThirdParty && isBroken then
      Verdict.mk HIGH "Dangling Pointer to 3rd Party (No Fingerprint)"
    else if negb isThirdParty && hasFingerprint && isBroken then
      Verdict.mk HIGH "Suspicious Content (Fingerprint Found but Provider Unknown)"
    else if String.eqb dnsStatus "NXDOMAIN" then
      Verdict.mk LOW "No DNS Record - Not Exploitable"
    else if (String.eqb dnsStatus "CNAME" || String.eqb dnsStatus "A")
            && (httpStatus =? 200)%Z then
      Verdict.mk INFO "Active Subdomain - Verify Ownership"
    else
      Verdict.mk INFO "Orphaned or Misconfigured Subdomain".

Definition determineSecurityIssue (dnsStatus : string) (httpStatus : Z)
    (fingerprint riskLevel : string) : string :=
  let hasPointer := String.eqb dnsStatus "CNAME" || String.eqb dnsStatus "A" in
  let isVulnerableFp := negb (JS.arrayIncludes NOT_A_FINGERPRINT fingerprint) in
  if String.eqb riskLevel "CRITICAL" then "Subdomain Takeover"
  else if String.eqb riskLevel "HIGH" then "Dangling DNS Record"
  else if String.eqb riskLevel "MEDIUM" then "DNS Hygiene Misconfiguration"
  else if hasPointer && (httpStatus =? 200)%Z && negb isVulnerableFp then
    "None - Active Service"
  else if String.eqb dnsStatus "NXDOMAIN" then "None - NXDOMAIN"
  else if hasPointer && ((httpStatus >=? 400)%Z || (httpStatus =? 0)%Z) then
    "Potential Misconfiguration"
  else "Potential Misconfiguration".

(** ** The network, as the pipeline sees it *)

(** One record of the [Answer] array of a dns.google JSON reply. *)
Module DnsRecord.
Record t : Set := mk { type : Z; data : string }.
End DnsRecord.

(** A dns.google JSON reply: [Status] and the optional [Answer] array. *)
Module DnsReply.
Record t : Set := mk { Status : Z; Answer : option (list DnsRecord.t) }.
End DnsReply.

Inductive QueryType : Set := TypeCNAME | TypeA.

(** What [fetch(url, ...)] resolves to: the status line, the [server] header
    ([null] when absent) and what [await resp.text()] gives, which can still
    throw once the headers have arrived. *)
Module Response.
Record t : Set := mk {
  status : Z;
  server : option string;
  text : Thrown + string
}.
End Response.

(** [await fetch(...)] followed by [await res.json()] for a DNS query of a
    name and a record type, and [await fetch(url, ...)] for a probe: each
    either throws or gives its value. [now] is [new Date().toISOString()]. *)
Record Network : Type := mkNetwork {
  resolve : string -> QueryType -> Thrown + DnsReply.t;
  fetch : string -> Thrown + Response.t;
  now : string
}.

(** [text.slice(0, 50000)] *)
Definition BODY_LIMIT : nat := N.to_nat 50000.

Definition sliceBody (text : string) : string := substring 0 BODY_LIMIT text.

Definition NOTE_TARGET_NXDOMAIN : string := " [CNAME target NXDOMAIN]".

Section Pipeline.

Variable FINGERPRINTS : FingerprintCatalog.
Variable PROVIDER_MAP : ProviderCatalog.
Variable net : Network.

(** *** Name resolver *)

(** The outer [catch (err)] of [dnsLookup]. *)
Definition dnsError (err : Thrown) : Lookup.t :=
  Lookup.mk NXDOMAIN ""
    ("DNS Error: " ++
     match err with ErrorObject _ message => message | OtherValue => "Unknown" end).

Definition isType (n : Z) (a : DnsRecord.t) : bool := (DnsRecord.type a =? n)%Z.

(** The inner [try]/[catch] of the CNAME branch: whether the CNAME target
    resolves. *)
Definition cnameResolves (cname : string) : bool :=
  match resolve net cname TypeA with
  | inr aData => negb (DnsReply.Status aData =? 3)%Z
  | inl _ => false
  end.

(** The tail of [dnsLookup], reached when the A reply names no record. *)
Definition noRecord (aData : DnsReply.t) : Lookup.t :=
  match DnsReply.Answer aData with
  | None =>
      if (DnsReply.Status aData =? 0)%Z
      then Lookup.mk NXDOMAIN "" "No DNS Answer"
      else Lookup.mk NXDOMAIN ""
             ("DNS Status: " ++ JS.numberToString (DnsReply.Status aData))
  | Some _ =>
      Lookup.mk NXDOMAIN ""
        ("DNS Status: " ++ JS.numberToString (DnsReply.Status aData))
  end.

(** The A query of [dnsLookup], tried when the CNAME query names no CNAME. *)
Definition lookupA (subdomain : string) : Lookup.t :=
  match resolve net subdomain TypeA with
  | inl err => dnsError err
  | inr aData =>
      if (DnsReply.Status aData =? 3)%Z then Lookup.mk NXDOMAIN "" "NXDOMAIN"
      else
        match DnsReply.Answer aData with
        | Some answer =>
            let aRecords := filter (isType 1) answer in
            match aRecords with
            | first :: _ =>
                let ips := map DnsRecord.data aRecords in
                Lookup.mk A (DnsRecord.data first)
                  ("A -> " ++ String.concat ", " ips)
            | [] =>
                match find (isType 5) answer with
                | Some cnameInA =>
                    let cname := JS.stripTrailing "." (DnsRecord.data cnameInA) in
                    Lookup.mk CNAME cname ("CNAME -> " ++ cname)
                | None => noRecord aData
                end
            end
        | None => noRecord aData
        end
  end.

(** [data.Answer && data.Answer.find(a => a.type === 5)] *)
Definition cnameAnswer (data : DnsReply.t) : option DnsRecord.t :=
  match DnsReply.Answer data with
  | Some answer => find (isType 5) answer
  | None => None
  end.

Definition dnsLookup (subdomain : string) : Lookup.t :=
  match resolve net subdomain TypeCNAME with
  | inl err => dnsError err
  | inr data =>
      match cnameAnswer data with
      | Some cnameRecord =>
          let cname := JS.stripTrailing "." (DnsRecord.data cnameRecord) in
          let note := if cnameResolves cname then "" else NOTE_TARGET_NXDOMAIN in
          Lookup.mk CNAME cname ("CNAME -> " ++ cname ++ note)
      | None => lookupA subdomain
      end
  end.

(** *** Availability probe *)

Definition setStatus (result : Probe.t) (s : Z) : Probe.t :=
  Probe.mk s (Probe.body result) (Probe.error result) (Probe.serverHeader result).

Definition setError (result : Probe.t) (e : string) : Probe.t :=
  Probe.mk (Probe.status result) (Probe.body result) e (Probe.serverHeader result).

(** The [try] block of one attempt: the [result] object as the block leaves
    it, and what it threw, if it threw. [result.status] is assigned before
    the body is read. *)
Definition tryAttempt (url : string) (result : Probe.t)
  : Probe.t * option Thrown :=
  match fetch net url with
  | inl err => (result, Some err)
  | inr resp =>
      let result := setStatus result (Response.status resp) in
      match Response.text resp with
      | inl err => (result, Some err)
      | inr text =>
          (Probe.mk (Probe.status result) (sliceBody text) ""
             (match Response.server resp with
              | Some h => JS.orElse h ""
              | None => ""
              end),
           None)
      end
  end.

(** The [catch] block: the [result] object as it leaves it, and whether it
    returns ([true]) or falls through to the next scheme. *)
Definition catchAttempt (scheme : string) (err : Thrown) (result : Probe.t)
  : Probe.t * bool :=
  match err with
  | ErrorObject name _ =>
      if String.eqb name "AbortError" then (setError result "Timeout", true)
      else
        let result :=
          setError result
            (if String.eqb scheme "http" then "Connection Failed" else "") in
        (result, String.eqb scheme "http")
  | OtherValue => (result, String.eqb scheme "http")
  end.

(** [for (const scheme of schemes) { try ... catch ... }] and the two
    statements after the loop. *)
Fixpoint probeLoop (schemes : list string) (subdomain : string)
    (result : Probe.t) : Probe.t :=
  match schemes with
  | [] =>
      if JS.truthy (Probe.error result) then result
      else setError result "Connection Failed"
  | scheme :: rest =>
      let url := scheme ++ "://" ++ subdomain in
      match tryAttempt url result with
      | (result, None) => result
      | (result, Some err) =>
          match catchAttempt scheme err result with
          | (result, true) => result
          | (result, false) => probeLoop rest subdomain result
          end
      end
  end.

Definition httpProbe (subdomain : string) : Probe.t :=
  probeLoop ["https"; "http"] subdomain (Probe.mk 0 "" "" "").

(** *** One pipeline run *)

Definition scanSubdomain (subdomain : string) : ScanResult :=
  let lookup := dnsLookup subdomain in
  let dnsStatus := Lookup.dnsStatus lookup in
  let effectiveCname := JS.orElse (Lookup.cnameTarget lookup) subdomain in
  let probe := httpProbe subdomain in
  let httpStatusNum := Probe.status probe in
  let provider := identifyProvider PROVIDER_MAP effectiveCname in
  let fp := checkFingerprint FINGERPRINTS PROVIDER_MAP effectiveCname (Probe.body probe) in
  let isVulnerable := Fingerprint.isVulnerable fp in
  let fingerprint := Fingerprint.matchedSignature fp in
  let verdict :=
    classifyRisk (dnsStatusString dnsStatus) httpStatusNum fingerprint
      (Probe.error probe) provider effectiveCname in
  let securityIssue :=
    determineSecurityIssue (dnsStatusString dnsStatus) httpStatusNum fingerprint
      (riskLevelString (Verdict.riskLevel verdict)) in
  let signature :=
    if isVulnerable && JS.truthy fingerprint then provider ++ " - " ++ fingerprint
    else if JS.truthy (Probe.error probe) && (httpStatusNum =? 0)%Z then
      provider ++ " - " ++ Probe.error probe
    else if (httpStatusNum >? 0)%Z then
      provider ++ " - HTTP " ++ JS.numberToString httpStatusNum
    else provider ++ " - No Response" in
  let httpDisplay :=
    if (httpStatusNum =? 0)%Z
    then "0 (" ++ JS.orElse (Probe.error probe) "No Response" ++ ")"
    else JS.numberToString httpStatusNum in
  mkScanResult subdomain effectiveCname dnsStatus httpDisplay provider
    signature (Lookup.dnsLookupText lookup) securityIssue
    (Verdict.riskLevel verdict) (Verdict.riskLabel verdict)
    (Probe.serverHeader probe) (now net).

End Pipeline.

(** ** Input parsing *)

Definition LF : ascii := "010"%char.
Definition CR : ascii := "013"%char.
Definition DQUOTE : ascii := "034"%char.
Definition SQUOTE : ascii := "039"%char.

(** Puts a character in front of the first line of a split. *)
Definition consHead (c : ascii) (ls : list string) : list string :=
  match ls with
  | [] => [String c EmptyString]
  | l :: ls' => String c l :: ls'
  end.

(** [text.split(/\r?\n/)]: a line feed ends a line, and takes a carriage
    return just before it with it. *)
Fixpoint splitLines (text : string) : list string :=
  match text with
  | EmptyString => [EmptyString]
  | String c rest =>
      if Ascii.eqb c LF then EmptyString :: splitLines rest
      else if Ascii.eqb c CR && JS.startsWith rest (String LF EmptyString)
      then splitLines rest
      else consHead c (splitLines rest)
  end.

(** [line.split(",")[0]] *)
Fixpoint firstColumn (line : string) : string :=
  match line with
  | EmptyString => EmptyString
  | String c rest =>
      if Ascii.eqb c ","%char then EmptyString else String c (firstColumn rest)
  end.

(** White space and line terminators of [String.prototype.trim] below
    U+0100: tab, line feed, vertical tab, form feed, carriage return, space
    and no-break space. *)
Definition isWhiteSpace (c : ascii) : bool :=
  let n := N_of_ascii c in
  ((9 <=? n) && (n <=? 13) || (n =? 32) || (n =? 160))%N.

Fixpoint trimStart (s : string) : string :=
  match s with
  | EmptyString => EmptyString
  | String c rest => if isWhiteSpace c then trimStart rest else s
  end.

Fixpoint trimEnd (s : string) : string :=
  match s with
  | EmptyString => EmptyString
  | String c rest =>
      match trimEnd rest with
      | EmptyString => if isWhiteSpace c then EmptyString else String c EmptyString
      | kept => String c kept
      end
  end.

Definition trim (s : string) : string := trimEnd (trimStart s).

Definition isQuote (c : ascii) : bool := Ascii.eqb c DQUOTE || Ascii.eqb c SQUOTE.

(** The [$] alternative of [/^["']|["']$/g]: one trailing quote. *)
Fixpoint stripTrailingQuote (s : string) : string :=
  match s with
  | EmptyString => EmptyString
  | String a EmptyString => if isQuote a then EmptyString else s
  | String a s' => String a (stripTrailingQuote s')
  end.

(** [val.replace(/^["']|["']$/g, "")]: a quote at the start and a quote at
    the end are removed, each when there. *)
Definition stripQuotes (val : string) : string :=
  match val with
  | EmptyString => EmptyString
  | String a rest =>
      if isQuote a then stripTrailingQuote rest else stripTrailingQuote val
  end.

(** [val.replace(/^https?:\/\//, "")] *)
Definition stripProtocol (val : string) : string :=
  match JS.stripPrefix "http://" val with
  | Some rest => rest
  | None =>
      match JS.stripPrefix "https://" val with
      | Some rest => rest
      | None => val
      end
  end.

(** The body of the loop of [parseDomainsFromText] for one line: the value
    pushed, if one is. *)
Definition parseLine (line : string) : option string :=
  let val := trim (firstColumn line) in
  let val := stripQuotes val in
  let val := JS.stripTrailing "/" (stripProtocol val) in
  if JS.truthy val && JS.includes val "." then Some val else None.

(** [for (let i = 0; i < lines.length; i++)], from index [i] on. *)
Fixpoint parseLoop (i : nat) (skipHeader : bool) (lines : list string)
  : list string :=
  match lines with
  | [] => []
  | line :: rest =>
      if Nat.eqb i 0 && skipHeader then parseLoop (S i) skipHeader rest
      else
        match parseLine line with
        | Some val => val :: parseLoop (S i) skipHeader rest
        | None => parseLoop (S i) skipHeader rest
        end
  end.

(** [[...new Set(domains)]]: the values in order of first insertion; [seen]
    holds the values inserted so far. *)
Fixpoint setValues (seen domains : list string) : list string :=
  match domains with
  | [] => []
  | d :: rest =>
      if JS.arrayIncludes seen d then setValues seen rest
      else d :: setValues (d :: seen) rest
  end.

Definition parseDomainsFromText (text : string) : list string :=
  let lines := splitLines text in
  let firstLine := JS.toLowerCase (hd EmptyString lines) in
  let skipHeader :=
    JS.includes firstLine "subdomain" || JS.includes firstLine "domain" in
  setValues [] (parseLoop 0 skipHeader lines).

(** ** Statements of the specification *)

(** Two hostnames that differ at most in letter case. *)
Definition equalIgnoringCase (a b : string) : Prop :=
  JS.toLowerCase a = JS.toLowerCase b.


(** The error kinds of a probe outcome. *)
Definition ERROR_KINDS : list string := [""; "Timeout"; "Connection Failed"].

(** A thrown value that the [catch] block of [httpProbe] takes for a
    timeout. *)
Definition isAbort (err : Thrown) : bool :=
  match err with
  | ErrorObject name _ => String.eqb name "AbortError"
  | OtherValue => false
  end.

(** What a completed attempt leaves in the [result] object. *)
Definition fetched (resp : Response.t) (text : string) : Probe.t :=
  Probe.mk (Response.status resp) (sliceBody text) ""
    (match Response.server resp with Some h => JS.orElse h "" | None => "" end).

(** The secondary query for a CNAME target reports that there is no such
    domain: it is answered, with status 3. *)
Definition reportsNoSuchDomain (net : Network) (cnameTarget : string) : Prop :=
  exists aData,
    resolve net cnameTarget TypeA = inr aData /\ DnsReply.Status aData = 3%Z.

(** The conditions of the [if]s of [classifyRisk] that stand before its
    NXDOMAIN rule and do not ask for a CNAME or an A status: the two Google
    rules, the two CRITICAL rules and the two HIGH rules. *)
Definition ruleGoogleMain (cnameTarget : string) : bool :=
  JS.arrayIncludes GOOGLE_MAIN (cleanCname cnameTarget).

Definition ruleGenericGoogle (provider cnameTarget : string) : bool :=
  String.eqb provider UNKNOWN_PROVIDER &&
  JS.includes (cleanCname cnameTarget) "google.com".

Definition ruleConfirmedTakeover (httpStatus : Z) (fingerprint provider : string) : bool :=
  isThirdParty provider && isBroken httpStatus && hasFingerprint fingerprint.

Definition ruleRespondingTakeover (httpStatus : Z) (fingerprint provider : string) : bool :=
  isThirdParty provider && (httpStatus =? 200)%Z && hasFingerprint fingerprint.

Definition ruleDanglingPointer (httpStatus : Z) (provider : string) : bool :=
  isThirdParty provider && isBroken httpStatus.

Definition ruleSuspiciousContent (httpStatus : Z) (fingerprint provider : string) : bool :=
  negb (isThirdParty provider) && hasFingerprint fingerprint && isBroken httpStatus.

Definition earlierRuleFires (httpStatus : Z) (fingerprint provider cnameTarget : string)
  : bool :=
  ruleGoogleMain cnameTarget
  || ruleGenericGoogle provider cnameTarget
  || ruleConfirmedTakeover httpStatus fingerprint provider
  || ruleRespondingTakeover httpStatus fingerprint provider
  || ruleDanglingPointer httpStatus provider
  || ruleSuspiciousContent httpStatus fingerprint provider.

(** ** Inputs of the examples *)

Module Sample.

Definition newline : string := String LF EmptyString.
Definition quote : string := String DQUOTE EmptyString.

(** The text of the specification's parsing example. *)
Definition headerText : string :=
  "Subdomain" ++ newline ++
  "https://foo.example.com/" ++ newline ++
  quote ++ "bar.example.com" ++ quote ++ newline ++
  "bar.example.com".

Definition mixedCaseText : string :=
  "Shop.Example.com" ++ newline ++ "shop.example.com".

(** Two catalogs of the shape of [fingerprints.ts] and [providers.ts], and
    the provider catalog as it is once the configuration editor has saved
    it without its S3 entry. *)
Definition fingerprints : FingerprintCatalog :=
  [ ("github.io", ["There isn't a GitHub Pages site here."]);
    ("s3.amazonaws.com", ["NoSuchBucket"; "The specified bucket does not exist"]) ].

Definition providers : ProviderCatalog :=
  [ ("github.io", "GitHub Pages"); ("s3.amazonaws.com", "AWS S3") ].


(** A fingerprint catalog with two keys of which one contains the other, and
    one whose key is the name of a member of [Object.prototype]; the
    configuration editor accepts any text as a key. *)
Definition overlappingFingerprints : FingerprintCatalog :=
  [ ("amazonaws.com", ["NoSuchBucket"]);
    ("s3.amazonaws.com", ["The specified bucket does not exist"]) ].

Definition constructorFingerprints : FingerprintCatalog :=
  [ ("constructor", ["NoSuchBucket"]) ].

Definition s3ErrorPage : string :=
  "<Error><Code>NoSuchBucket</Code><Message>The bucket is gone</Message></Error>".

Definition timestamp : string := "2024-05-01T09:30:00.000Z".

Definition fetchFailed : Thrown := ErrorObject "TypeError" "fetch failed".

(** The resolver answers every query with status 3 (no such domain), and
    nothing listens on either port. *)
Definition noSuchDomain : Network :=
  mkNetwork (fun _ _ => inr (DnsReply.mk 3 None)) (fun _ => inl fetchFailed)
    timestamp.

(** The CNAME query names [ghost.example.net.]; the A query for that target
    times out. *)
Definition secondaryTimesOut : Network :=
  mkNetwork
    (fun _ qtype =>
       match qtype with
       | TypeCNAME =>
           inr (DnsReply.mk 0 (Some [DnsRecord.mk 5 "ghost.example.net."]))
       | TypeA =>
           inl (ErrorObject "TimeoutError" "The operation was aborted due to timeout")
       end)
    (fun _ => inl fetchFailed) timestamp.

(** The same CNAME answer; the A query for the target answers status 3. *)
Definition secondaryNoSuchDomain : Network :=
  mkNetwork
    (fun _ qtype =>
       match qtype with
       | TypeCNAME =>
           inr (DnsReply.mk 0 (Some [DnsRecord.mk 5 "ghost.example.net."]))
       | TypeA => inr (DnsReply.mk 3 None)
       end)
    (fun _ => inl fetchFailed) timestamp.

(** Over https the headers of a 200 arrive and the connection drops while
    the body is read; over http nothing listens. *)
Definition bodyReadFails : Network :=
  mkNetwork (fun _ _ => inr (DnsReply.mk 3 None))
    (fun url =>
       if JS.startsWith url "https://"
       then inr (Response.mk 200 (Some "nginx")
                   (inl (ErrorObject "TypeError" "terminated")))
       else inl fetchFailed)
    timestamp.

(** The same https attempt; the http attempt runs into the 15 s timer. *)
Definition bodyReadFailsThenTimeout : Network :=
  mkNetwork (fun _ _ => inr (DnsReply.mk 3 None))
    (fun url =>
       if JS.startsWith url "https://"
       then inr (Response.mk 200 (Some "nginx")
                   (inl (ErrorObject "TypeError" "terminated")))
       else inl (ErrorObject "AbortError" "This operation was aborted"))
    timestamp.

End Sample.

(** What holds of the [result] object whenever [httpProbe] returns it. *)
Definition probeOutcomeOk (result : Probe.t) : Prop :=
  (String.length (Probe.body result) <= BODY_LIMIT)%nat
  /\ (Probe.error result <> "" ->
      Probe.body result = "" /\ Probe.serverHeader result = "").

(** * The dashboard and the export, over scan results *)

(** ** lib/scanner/types.ts *)

Module RiskConfig.
Record t : Set := mk {
  label : string;
  color : string;
  bgClass : string;
  textClass : string;
  borderClass : string;
  dotClass : string
}.
End RiskConfig.

Definition RISK_CONFIG (level : RiskLevel) : RiskConfig.t :=
  match level with
  | CRITICAL =>
      RiskConfig.mk "Critical" "hsl(0, 72%, 51%)" "bg-critical/15"
        "text-critical" "border-critical/30" "bg-critical"
  | HIGH =>
      RiskConfig.mk "High" "hsl(25, 95%, 53%)" "bg-high/15"
        "text-high" "border-high/30" "bg-high"
  | MEDIUM =>
      RiskConfig.mk "Medium" "hsl(45, 93%, 47%)" "bg-warning/15"
        "text-warning" "border-warning/30" "bg-warning"
  | INFO =>
      RiskConfig.mk "Info" "hsl(199, 89%, 48%)" "bg-info/15"
        "text-info" "border-info/30" "bg-info"
  | LOW =>
      RiskConfig.mk "Low" "hsl(215, 15%, 55%)" "bg-low/15"
        "text-low" "border-low/30" "bg-low"
  end.

(** [a === b] on two risk levels. *)
Definition riskLevelEqb (a b : RiskLevel) : bool :=
  match a, b with
  | CRITICAL, CRITICAL | HIGH, HIGH | MEDIUM, MEDIUM | INFO, INFO | LOW, LOW => true
  | _, _ => false
  end.

(** [RISK_ORDER] of the two charts and [RISK_LEVELS] of the table. *)
Definition RISK_ORDER : list RiskLevel := [CRITICAL; HIGH; MEDIUM; INFO; LOW].

(** A [Record<RiskLevel, number>] of counters, and [counts[level]++]. *)
Definition RiskCounts : Set := RiskLevel -> nat.

Definition noCounts : RiskCounts := fun _ => 0%nat.

Definition increment (counts : RiskCounts) (level : RiskLevel) : RiskCounts :=
  fun l => if riskLevelEqb l level then S (counts l) else counts l.

(** ** RiskDonut *)

Module DonutSlice.
Record t : Set := mk {
  name : string;
  value : nat;
  color : string;
  level : RiskLevel
}.
End DonutSlice.

(** [for (const r of results) counts[r.riskLevel]++] *)
Definition donutCounts (results : list ScanResult) : RiskCounts :=
  fold_left (fun counts r => increment counts (riskLevel r)) results noCounts.

(** The [data] of [RiskDonut]: one slice for each level that occurs, in
    [RISK_ORDER]. *)
Definition donutData (results : list ScanResult) : list DonutSlice.t :=
  let counts := donutCounts results in
  map (fun level =>
         DonutSlice.mk (RiskConfig.label (RISK_CONFIG level)) (counts level)
           (RiskConfig.color (RISK_CONFIG level)) level)
      (filter (fun level => (0 <? counts level)%nat) RISK_ORDER).

(** ** StatsCards *)

(** [results.filter((r) => r.riskLevel === level).length] *)
Definition cardCount (results : list ScanResult) (level : RiskLevel) : nat :=
  List.length (filter (fun r => riskLevelEqb (riskLevel r) level) results).

Module StatsCounts.
Record t : Set := mk {
  TOTAL : nat;
  CRITICAL : nat;
  HIGH : nat;
  MEDIUM : nat;
  INFO : nat;
  LOW : nat
}.
End StatsCounts.

Definition statsCounts (results : list ScanResult) : StatsCounts.t :=
  StatsCounts.mk (List.length results)
    (cardCount results CRITICAL) (cardCount results HIGH)
    (cardCount results MEDIUM) (cardCount results INFO)
    (cardCount results LOW).

(** ** Sets and sorting of the table and the charts *)

(** [Array.prototype.sort(cmp)]: the sort is stable, and for a consistent
    comparator the stable ordering is the only outcome; it is the outcome of
    inserting each element, from the last to the first, before the first
    element it does not compare greater than. *)
Fixpoint insertSorted (T : Type) (cmp : T -> T -> Z) (x : T) (sorted : list T)
  : list T :=
  match sorted with
  | [] => [x]
  | y :: rest =>
      if (cmp x y <=? 0)%Z then x :: sorted
      else y :: insertSorted cmp x rest
  end.

Definition arraySort (T : Type) (cmp : T -> T -> Z) (l : list T) : list T :=
  fold_right (insertSorted cmp) [] l.

(** A [Set] of values compared by [eqb]: its values in insertion order. *)
Section JsSet.

Variable T : Type.
Variable eqb : T -> T -> bool.

Definition setHas (s : list T) (x : T) : bool := existsb (eqb x) s.

Definition setDelete (s : list T) (x : T) : list T :=
  filter (fun y => negb (eqb x y)) s.

Definition setAdd (s : list T) (x : T) : list T :=
  if setHas s x then s else s ++ [x].

(** [const next = new Set(prev); if (next.has(x)) next.delete(x) else
    next.add(x); return next]: the updater of [toggleRiskFilter],
    [toggleIssueFilter] and [handleToggleRow]. *)
Definition toggle (x : T) (prev : list T) : list T :=
  let next := prev in
  if setHas next x then setDelete next x else setAdd next x.

End JsSet.

(** ** EvidenceTable *)

Inductive SortKey : Set :=
| KeySubdomain | KeyRiskLevel | KeyProvider | KeyDnsStatus | KeyHttpStatus
| KeySecurityIssue.

Inductive SortDir : Set := Asc | Desc.

Definition RISK_SORT_ORDER (level : RiskLevel) : Z :=
  match level with
  | CRITICAL => 0 | HIGH => 1 | MEDIUM => 2 | INFO => 3 | LOW => 4
  end.

Section EvidenceTable.

(** [a.localeCompare(b)], which the collation of the host decides. *)
Variable localeCompare : string -> string -> Z.

(** The comparator handed to [data.sort]. *)
Definition compareRows (sortKey : SortKey) (sortDir : SortDir)
    (a b : ScanResult) : Z :=
  let cmp :=
    match sortKey with
    | KeyRiskLevel =>
        (RISK_SORT_ORDER (riskLevel a) - RISK_SORT_ORDER (riskLevel b))%Z
    | KeySubdomain => localeCompare (subdomain a) (subdomain b)
    | KeyProvider => localeCompare (provider a) (provider b)
    | KeyDnsStatus =>
        localeCompare (dnsStatusString (dnsStatus a)) (dnsStatusString (dnsStatus b))
    | KeyHttpStatus => localeCompare (httpStatus a) (httpStatus b)
    | KeySecurityIssue => localeCompare (securityIssue a) (securityIssue b)
    end in
  match sortDir with Asc => cmp | Desc => (- cmp)%Z end.

(** The row test of the search box, for the lower-cased query [q]. *)
Definition matchesSearch (q : string) (r : ScanResult) : bool :=
  JS.includes (JS.toLowerCase (subdomain r)) q
  || JS.includes (JS.toLowerCase (cname r)) q
  || JS.includes (JS.toLowerCase (provider r)) q
  || JS.includes (JS.toLowerCase (securityIssue r)) q.

(** The three filters of [filtered], before the sort. *)
Definition filterRows (results : list ScanResult) (search : string)
    (riskFilters : list RiskLevel) (issueFilters : list string)
  : list ScanResult :=
  let data := results in
  let data :=
    if JS.truthy search
    then filter (matchesSearch (JS.toLowerCase search)) data
    else data in
  let data :=
    if (0 <? List.length riskFilters)%nat
    then filter (fun r => setHas riskLevelEqb riskFilters (riskLevel r)) data
    else data in
  let data :=
    if (0 <? List.length issueFilters)%nat
    then filter (fun r => setHas String.eqb issueFilters (securityIssue r)) data
    else data in
  data.

(** The [filtered] rows of [EvidenceTable]. *)
Definition filtered (results : list ScanResult) (search : string)
    (riskFilters : list RiskLevel) (issueFilters : list string)
    (sortKey : SortKey) (sortDir : SortDir) : list ScanResult :=
  arraySort (compareRows sortKey sortDir)
    (filterRows results search riskFilters issueFilters).

End EvidenceTable.

(** ** The dashboard page *)

(** The updater of [handleToggleAll]: [prev] is the selection, [results] the
    rows. *)
Definition handleToggleAll (results : list ScanResult) (prev : list string)
  : list string :=
  if Nat.eqb (List.length prev) (List.length results)
     && (0 <? List.length results)%nat
  then []
  else setValues [] (map subdomain results).

(** ** ProviderChart *)

Module Bar.
Record t : Set := mk {
  provider : string;
  count : nat;
  riskCounts : RiskCounts;
  worstRisk : RiskLevel
}.
End Bar.

(** [providerMap.get(p)] is defined. *)
Definition barsHave (bars : list Bar.t) (p : string) : bool :=
  existsb (fun e => String.eqb (Bar.provider e) p) bars.

(** [existing.count++; existing.riskCounts[level]++] on the entry of [p]. *)
Fixpoint bumpBar (bars : list Bar.t) (p : string) (level : RiskLevel)
  : list Bar.t :=
  match bars with
  | [] => []
  | e :: rest =>
      if String.eqb (Bar.provider e) p
      then Bar.mk (Bar.provider e) (S (Bar.count e))
             (increment (Bar.riskCounts e) level) (Bar.worstRisk e) :: rest
      else e :: bumpBar rest p level
  end.

(** The body of the first loop of [ProviderChart]; the map keeps its keys in
    insertion order. *)
Definition addToBars (bars : list Bar.t) (r : ScanResult) : list Bar.t :=
  if String.eqb (provider r) UNKNOWN_PROVIDER then bars
  else if barsHave bars (provider r)
  then bumpBar bars (provider r) (riskLevel r)
  else bars ++ [Bar.mk (provider r) 1 (increment noCounts (riskLevel r))
                  (riskLevel r)].

(** The second loop: the first level of [RISK_ORDER] with a count. *)
Definition setWorstRisk (e : Bar.t) : Bar.t :=
  match find (fun risk => (0 <? Bar.riskCounts e risk)%nat) RISK_ORDER with
  | Some risk => Bar.mk (Bar.provider e) (Bar.count e) (Bar.riskCounts e) risk
  | None => e
  end.

(** [RISK_ORDER.indexOf(level)] *)
Fixpoint indexOf (levels : list RiskLevel) (level : RiskLevel) : Z :=
  match levels with
  | [] => (-1)%Z
  | l :: rest =>
      if riskLevelEqb l level then 0%Z
      else
        let i := indexOf rest level in
        if (i <? 0)%Z then (-1)%Z else (i + 1)%Z
  end.

Definition compareBars (a b : Bar.t) : Z :=
  let aIdx := indexOf RISK_ORDER (Bar.worstRisk a) in
  let bIdx := indexOf RISK_ORDER (Bar.worstRisk b) in
  if negb (aIdx =? bIdx)%Z then (aIdx - bIdx)%Z
  else (Z.of_nat (Bar.count b) - Z.of_nat (Bar.count a))%Z.

Definition collectBars (results : list ScanResult) : list Bar.t :=
  map setWorstRisk (fold_left addToBars results []).

(** The [data] of [ProviderChart]. *)
Definition providerData (results : list ScanResult) : list Bar.t :=
  firstn 10 (arraySort compareBars (collectBars results)).

(** A bar that counts the results seen so far of its provider, by level
    too, and a map of bars that has one bar for each provider seen. *)
Definition barCounts (seen : list ScanResult) (e : Bar.t) : Prop :=
  Bar.provider e <> UNKNOWN_PROVIDER
  /\ (0 < Bar.count e)%nat
  /\ Bar.count e
     = List.length (filter (fun r => String.eqb (provider r) (Bar.provider e)) seen)
  /\ forall level,
       Bar.riskCounts e level
       = List.length
           (filter (fun r => String.eqb (provider r) (Bar.provider e)
                             && riskLevelEqb (riskLevel r) level) seen).

Definition barsCount (seen : list ScanResult) (bars : list Bar.t) : Prop :=
  NoDup (map Bar.provider bars)
  /\ Forall (barCounts seen) bars
  /\ forall r, In r seen -> provider r <> UNKNOWN_PROVIDER ->
               In (provider r) (map Bar.provider bars).

(** The order of the bars: by worst risk, then by count, the larger first. *)
Definition barBefore (a b : Bar.t) : Prop :=
  (RISK_SORT_ORDER (Bar.worstRisk a) < RISK_SORT_ORDER (Bar.worstRisk b))%Z
  \/ (Bar.worstRisk a = Bar.worstRisk b /\ (Bar.count b <= Bar.count a)%nat).

(** ** DetailDrawer *)

Definition QUOTE : string := String DQUOTE EmptyString.

Definition getRemediationGuidance (result : ScanResult) : string :=
  match riskLevel result with
  | CRITICAL =>
      "IMMEDIATE ACTION REQUIRED: This subdomain has a confirmed takeover fingerprint. An attacker can claim the underlying service and serve content on your domain. Remove the DNS record or reclaim the third-party resource immediately."
  | HIGH =>
      "HIGH PRIORITY: The DNS record points to a third-party service that appears unclaimed or broken. While no takeover fingerprint was confirmed, this is a strong indicator of a dangling pointer. Remove the DNS record or verify the service is properly configured."
  | MEDIUM =>
      "REVIEW RECOMMENDED: This DNS record appears misconfigured or self-pointing. While the likelihood of exploitation is lower, broken DNS records create hygiene issues and may indicate orphaned infrastructure. Clean up the record or verify it is intentional."
  | INFO =>
      "INFORMATIONAL: This subdomain appears active. Verify that the service is intentionally configured and that your organization owns the target resource."
  | LOW =>
      "LOW PRIORITY: This record resolved to NXDOMAIN or a known-safe target. No immediate risk, but consider cleaning up stale DNS entries."
  end.

Definition MARKER_SOUGHT : string := "[CNAME target NXDOMAIN]".

Definition getDnsExplanation (result : ScanResult) : string :=
  match dnsStatus result with
  | CNAME =>
      let nxdomain := JS.includes (dnsLookupResult result) MARKER_SOUGHT in
      if nxdomain then
        "The subdomain has a CNAME record pointing to " ++ QUOTE ++ cname result
        ++ QUOTE ++ ", but the CNAME target does not resolve (NXDOMAIN). This is a dangling CNAME."
      else
        "The subdomain has a CNAME record pointing to " ++ QUOTE ++ cname result
        ++ QUOTE ++ ". The CNAME target resolves successfully."
  | A => "The subdomain has an A record pointing to IP address " ++ cname result ++ "."
  | NXDOMAIN => "The subdomain has no DNS record (NXDOMAIN). It does not resolve at all."
  end.

(** ** ExportActions *)

(** [s.replace(/c/g, by)] for a literal character [c]. *)
Fixpoint replaceAllChar (c : ascii) (by_ : string) (s : string) : string :=
  match s with
  | EmptyString => EmptyString
  | String a rest =>
      if Ascii.eqb a c then by_ ++ replaceAllChar c by_ rest
      else String a (replaceAllChar c by_ rest)
  end.

(** The quoting of one CSV value: every quote doubled, quotes around. *)
Definition csvCell (val : string) : string :=
  QUOTE ++ replaceAllChar DQUOTE (QUOTE ++ QUOTE) val ++ QUOTE.

Definition csvRow (vals : list string) : string :=
  String.concat "," (map csvCell vals).

Definition CSV_HEADERS : list string :=
  [ "Subdomain"; "CNAME (Pointed To)"; "DNS Status"; "HTTP Status"; "Provider";
    "Signature"; "DNS Lookup Result"; "Security Issue"; "Risk Level";
    "Risk Label"; "Server Header"; "Scanned At" ].

Definition csvFields (r : ScanResult) : list string :=
  [ subdomain r; cname r; dnsStatusString (dnsStatus r); httpStatus r;
    provider r; signature r; dnsLookupResult r; securityIssue r;
    riskLevelString (riskLevel r); riskLabel r; serverHeader r; scannedAt r ].

Definition generateCsv (results : list ScanResult) : string :=
  let rows := map (fun r => csvRow (csvFields r)) results in
  String.concat Sample.newline (String.concat "," CSV_HEADERS :: rows).







(** ** The configuration endpoint: the generators of the two catalog files *)

Definition BACKSLASH : ascii := "092"%char.

(** [v.replace(/\\/g, "\\\\").replace(/"/g, '\\"')] *)
Definition escapeTs (v : string) : string :=
  replaceAllChar DQUOTE (String BACKSLASH QUOTE)
    (replaceAllChar BACKSLASH (String BACKSLASH (String BACKSLASH EmptyString)) v).

Definition generateFingerprintTs (data : FingerprintCatalog) : string :=
  let lines := ["export const FINGERPRINTS: Record<string, string[]> = {"] in
  let lines :=
    List.app lines
      (map (fun entry =>
              let escaped := map (fun v => QUOTE ++ escapeTs v ++ QUOTE) (snd entry) in
              "  " ++ QUOTE ++ fst entry ++ QUOTE ++ ": [" ++
              String.concat ", " escaped ++ "],")
           data) in
  let lines := List.app lines ["}" ++ Sample.newline] in
  String.concat Sample.newline lines.

Definition generateProviderTs (data : ProviderCatalog) : string :=
  let lines := ["export const PROVIDER_MAP: Record<string, string> = {"] in
  let lines :=
    List.app lines
      (map (fun entry =>
              "  " ++ QUOTE ++ fst entry ++ QUOTE ++ ": " ++ QUOTE ++
              escapeTs (snd entry) ++ QUOTE ++ ",")
           data) in
  let lines := List.app lines ["}" ++ Sample.newline] in
  String.concat Sample.newline lines.

(** ** The dashboard page: reading the result stream *)

(** [buffer.split("\n")] *)
Fixpoint splitNewline (buffer : string) : list string :=
  match buffer with
  | EmptyString => [EmptyString]
  | String c rest =>
      if Ascii.eqb c LF then EmptyString :: splitNewline rest
      else consHead c (splitNewline rest)
  end.

(** The progress state: [current] and [total]; a result event carries no
    total, so that a progress made from one has none. *)
Module Progress.
Record t : Set := mk { current : Z; total : option Z }.
End Progress.

(** The events of the stream, as [JSON.parse] gives them: init, result,
    error, and any other value that parses. *)
Inductive StreamEvent : Set :=
| EventInit (total : Z)
| EventResult (index : Z) (data : ScanResult)
| EventError (index : Z)
| EventOther.

(** The state that [handleScan] updates while it reads. *)
Module Page.
Record t : Set := mk {
  results : list ScanResult;
  progress : option Progress.t
}.
End Page.

Definition handleEvent (page : Page.t) (msg : StreamEvent) : Page.t :=
  match msg with
  | EventInit total =>
      Page.mk (Page.results page) (Some (Progress.mk 0 (Some total)))
  | EventResult index data =>
      Page.mk (Page.results page ++ [data])
        (match Page.progress page with
         | Some prev => Some (Progress.mk (index + 1) (Progress.total prev))
         | None => Some (Progress.mk (index + 1) None)
         end)
  | EventError index =>
      Page.mk (Page.results page)
        (match Page.progress page with
         | Some prev => Some (Progress.mk (index + 1) (Progress.total prev))
         | None => None
         end)
  | EventOther => page
  end.

Section ResultStream.

(** [JSON.parse(line)] followed by the reading of [msg.type] and of the
    fields: [None] when any of it throws. *)
Variable parseJson : string -> option StreamEvent.

(** The body of [for (const line of lines)]. *)
Definition handleLine (page : Page.t) (line : string) : Page.t :=
  if negb (JS.truthy (trim line)) then page
  else
    match parseJson line with
    | Some msg => handleEvent page msg
    | None => page
    end.

(** One turn of the reading loop, for a decoded chunk: the page state and
    the buffer after it. *)
Definition readChunk (state : Page.t * string) (chunk : string)
  : Page.t * string :=
  let (page, buffer) := state in
  let buffer := buffer ++ chunk in
  let lines := splitNewline buffer in
  let buffer := JS.orElse (last lines EmptyString) EmptyString in
  let lines := removelast lines in
  (fold_left handleLine lines page, buffer).

(** The loop, from the state that [handleScan] starts with, until the stream
    is done. *)
Definition readStream (chunks : list string) : Page.t * string :=
  fold_left readChunk chunks (Page.mk [] None, EmptyString).

End ResultStream.

(** ** Reading back what the export and the generators write *)

(** The reading of a row of quoted values: a value starts at a quote, a
    doubled quote inside stands for one quote, and a single quote ends the
    value, before a comma or the end of the row. *)
Inductive CsvState : Set := AtValueStart | InValue | AfterQuote.

Fixpoint readCsvRow (row : string) (state : CsvState) (current : string)
    (done : list string) : option (list string) :=
  match row with
  | EmptyString =>
      match state with
      | AfterQuote => Some (done ++ [current])%list
      | AtValueStart => match done with [] => Some [] | _ => None end
      | InValue => None
      end
  | String c rest =>
      match state with
      | AtValueStart =>
          if Ascii.eqb c DQUOTE then readCsvRow rest InValue EmptyString done
          else None
      | InValue =>
          if Ascii.eqb c DQUOTE then readCsvRow rest AfterQuote current done
          else readCsvRow rest InValue (current ++ String c EmptyString) done
      | AfterQuote =>
          if Ascii.eqb c DQUOTE
          then readCsvRow rest InValue (current ++ String DQUOTE EmptyString) done
          else if Ascii.eqb c ","%char
               then readCsvRow rest AtValueStart EmptyString (done ++ [current])%list
               else None
      end
  end.

(** The reading of the inside of a string literal: a backslash stands for
    the character after it. [escaped] tells that a backslash was just read. *)
Fixpoint readTsLiteral (text : string) (escaped : bool) : string :=
  match text with
  | EmptyString => EmptyString
  | String c rest =>
      if escaped then String c (readTsLiteral rest false)
      else if Ascii.eqb c BACKSLASH then readTsLiteral rest true
           else String c (readTsLiteral rest false)
  end.

(** * Properties *)

(** ** Arrays of strings *)

Lemma arrayIncludes_In (xs : list string) (x : string) :
  JS.arrayIncludes xs x = true <-> In x xs.
Proof.
  unfold JS.arrayIncludes. rewrite existsb_exists. split.
  - intros [y [Hy Heq]]. apply String.eqb_eq in Heq. now subst.
  - intros Hin. exists x. split; [assumption | apply String.eqb_refl].
Qed.

Lemma arrayIncludes_not_In (xs : list string) (x : string) :
  JS.arrayIncludes xs x = false <-> ~ In x xs.
Proof.
  rewrite <- arrayIncludes_In. destruct (JS.arrayIncludes xs x); split;
    congruence || (intros H; exfalso; now apply H).
Qed.

(** ** The classifier's three signals *)

Lemma isThirdParty_true (provider : string) :
  provider <> UNKNOWN_PROVIDER -> isThirdParty provider = true.
Proof.
  intros H. unfold isThirdParty. apply String.eqb_neq in H. now rewrite H.
Qed.

Lemma isBroken_true (httpStatus : Z) :
  (httpStatus = 0 \/ httpStatus >= 400)%Z <-> isBroken httpStatus = true.
Proof. unfold isBroken. lia. Qed.

Lemma hasFingerprint_true (fingerprint : string) :
  fingerprint <> "" /\ fingerprint <> NO_KNOWN_SIGNATURE /\
  fingerprint <> SERVICE_PROTECTED <->
  hasFingerprint fingerprint = true.
Proof.
  unfold hasFingerprint. rewrite negb_true_iff, arrayIncludes_not_In.
  unfold NOT_A_FINGERPRINT. simpl. intuition congruence.
Qed.

(** ** The security-issue tag *)

Lemma determineSecurityIssue_CRITICAL dnsStatus httpStatus fingerprint :
  determineSecurityIssue dnsStatus httpStatus fingerprint
    (riskLevelString CRITICAL) = "Subdomain Takeover".
Proof. reflexivity. Qed.

(** C10. Whatever the DNS status, HTTP status, fingerprint and risk level
    handed to [determineSecurityIssue], the tag it returns is one of the six
    strings of [ISSUE_TYPES]: "Subdomain Takeover", "Dangling DNS Record",
    "DNS Hygiene Misconfiguration", "Potential Misconfiguration",
    "None - Active Service" and "None - NXDOMAIN". *)
Theorem securityIssue_one_of_six :
  forall (dnsStatus : string) (httpStatus : Z) (fingerprint riskLevel : string),
    In (determineSecurityIssue dnsStatus httpStatus fingerprint riskLevel)
       ISSUE_TYPES.
Proof.
  intros dnsStatus httpStatus fingerprint riskLevel.
  unfold determineSecurityIssue, ISSUE_TYPES.
  repeat match goal with
         | |- context [if ?b then _ else _] => destruct b
         end; simpl; tauto.
Qed.

(** Each of the six tags is returned on some input: the six are exactly the
    range of [determineSecurityIssue]. *)
Lemma securityIssue_each_reached :
  forall issue, In issue ISSUE_TYPES ->
    exists dnsStatus httpStatus fingerprint riskLevel,
      determineSecurityIssue (dnsStatusString dnsStatus) httpStatus fingerprint
        (riskLevelString riskLevel) = issue.
Proof.
  intros issue Hin. unfold ISSUE_TYPES in Hin. simpl in Hin.
  destruct Hin as [<-|[<-|[<-|[<-|[<-|[<-|[]]]]]]].
  - now exists CNAME, 0%Z, "", CRITICAL.
  - now exists CNAME, 0%Z, "", HIGH.
  - now exists CNAME, 0%Z, "", MEDIUM.
  - now exists CNAME, 302%Z, "", INFO.
  - now exists CNAME, 200%Z, "", INFO.
  - now exists NXDOMAIN, 0%Z, "", LOW.
Qed.

(** ** Rule 6 of the classifier *)

(** C2. When rule 1 does not fire (the resolved name, lower-cased and with
    one trailing dot removed, is none of the three Google names), the
    provider is recognised (which also rules rule 2 out), the HTTP status is
    0 or at least 400, and the matched signature is neither empty nor one of
    the two sentinels, [classifyRisk] returns CRITICAL with the
    confirmed-takeover label, and the security issue derived from that level
    is "Subdomain Takeover". *)
Theorem classifyRisk_confirmed_takeover :
  forall (dnsStatus : string) (httpStatus : Z)
         (fingerprint httpError provider cnameTarget : string),
    ~ In (cleanCname cnameTarget) GOOGLE_MAIN ->
    provider <> UNKNOWN_PROVIDER ->
    (httpStatus = 0 \/ httpStatus >= 400)%Z ->
    fingerprint <> "" ->
    fingerprint <> NO_KNOWN_SIGNATURE ->
    fingerprint <> SERVICE_PROTECTED ->
    let verdict :=
      classifyRisk dnsStatus httpStatus fingerprint httpError provider cnameTarget in
    verdict = Verdict.mk CRITICAL "Confirmed Subdomain Takeover (All 3 Conditions Met)"
    /\ determineSecurityIssue dnsStatus httpStatus fingerprint
         (riskLevelString (Verdict.riskLevel verdict)) = "Subdomain Takeover".
Proof.
  intros dnsStatus httpStatus fingerprint httpError provider cnameTarget
         Hgoogle Hprov Hhttp Hfp1 Hfp2 Hfp3 verdict.
  assert (Hv : verdict =
               Verdict.mk CRITICAL "Confirmed Subdomain Takeover (All 3 Conditions Met)").
  { subst verdict. unfold classifyRisk.
    apply arrayIncludes_not_In in Hgoogle. rewrite Hgoogle.
    rewrite (isThirdParty_true Hprov).
    apply String.eqb_neq in Hprov. rewrite Hprov.
    apply isBroken_true in Hhttp. rewrite Hhttp.
    rewrite (proj1 (hasFingerprint_true fingerprint) (conj Hfp1 (conj Hfp2 Hfp3))).
    cbn [andb negb]. now rewrite !andb_false_r. }
  split; [exact Hv|]. rewrite Hv. apply determineSecurityIssue_CRITICAL.
Qed.

Lemma classifyRisk_confirmed_takeover_witness :
  let verdict :=
    classifyRisk "CNAME" 404 "NoSuchBucket" "" "AWS S3" "assets.s3.amazonaws.com." in
  verdict = Verdict.mk CRITICAL "Confirmed Subdomain Takeover (All 3 Conditions Met)"
  /\ determineSecurityIssue "CNAME" 404 "NoSuchBucket"
       (riskLevelString (Verdict.riskLevel verdict)) = "Subdomain Takeover".
Proof.
  apply classifyRisk_confirmed_takeover.
  - vm_compute. intuition discriminate.
  - discriminate.
  - lia.
  - discriminate.
  - discriminate.
  - discriminate.
Defined.

(** ** The fingerprint matcher *)

Section Matcher.

Variable FINGERPRINTS : FingerprintCatalog.
Variable PROVIDER_MAP : ProviderCatalog.

Lemma firstSignature_none (signatures : list string) (responseBody : string) :
  firstSignature signatures responseBody = None <->
  (forall sig, In sig signatures -> JS.includes responseBody sig = false).
Proof.
  induction signatures as [|s rest IH]; simpl.
  - split; [intros _ sig [] | reflexivity].
  - destruct (JS.includes responseBody s) eqn:Hs.
    + split; [discriminate|]. intros H. specialize (H s (or_introl eq_refl)).
      congruence.
    + rewrite IH. split.
      * intros H sig [<-|Hin]; auto.
      * intros H sig Hin. apply H. now right.
Qed.

Lemma firstSignature_some (signatures : list string) (responseBody sig : string) :
  firstSignature signatures responseBody = Some sig ->
  In sig signatures /\ JS.includes responseBody sig = true.
Proof.
  induction signatures as [|s rest IH]; simpl; [discriminate|].
  destruct (JS.includes responseBody s) eqn:Hs.
  - intros [= <-]. auto.
  - intros H. destruct (IH H). auto.
Qed.


(** The scoped pass is decided by the first entry whose key the target
    contains. *)
Lemma scopedPass_first (entries : FingerprintCatalog)
      (lower responseBody key : string) (sigs : list string) :
  find (fun entry => JS.includes lower (fst entry)) entries = Some (key, sigs) ->
  scopedPass entries lower responseBody =
  Some match firstSignature sigs responseBody with
       | Some sig => Fingerprint.mk true sig
       | None => Fingerprint.mk false SERVICE_PROTECTED
       end.
Proof.
  induction entries as [|[k s] rest IH]; simpl; [discriminate|].
  destruct (JS.includes lower k).
  - intros [= <- <-]. now destruct (firstSignature s responseBody).
  - exact IH.
Qed.


Lemma fallbackPass_some (entries : FingerprintCatalog) (responseBody : string)
      (r : Fingerprint.t) :
  fallbackPass PROVIDER_MAP entries responseBody = Some r ->
  exists key sigs sig,
    In (key, sigs) entries /\ In sig sigs /\
    JS.includes responseBody sig = true /\
    r = Fingerprint.mk true
          (sig ++ " (matched " ++ annotation PROVIDER_MAP key ++ ")").
Proof.
  induction entries as [|[k s] rest IH]; simpl; [discriminate|].
  destruct (firstSignature s responseBody) as [hit|] eqn:Hs.
  - intros [= <-]. apply firstSignature_some in Hs. destruct Hs as [Hin Hinc].
    exists k, s, hit. auto.
  - intros H. destruct (IH H) as (key & sigs & sig & Hin & Hsig & Hinc & Hr).
    exists key, sigs, sig. auto.
Qed.

End Matcher.

(** C3, as the code has it. When the first catalog key, in catalog order,
    that the lower-cased target contains has no signature in the response
    body, [checkFingerprint] answers not vulnerable with the "Service
    protected or active" sentinel. Nothing is asked of the other entries:
    their signatures may be in the body. *)
Theorem checkFingerprint_scoped_no_fallthrough :
  forall (FINGERPRINTS : FingerprintCatalog) (PROVIDER_MAP : ProviderCatalog)
         (cnameTarget responseBody key : string) (sigs : list string),
    find (fun entry => JS.includes (JS.toLowerCase cnameTarget) (fst entry))
         FINGERPRINTS = Some (key, sigs) ->
    (forall sig, In sig sigs -> JS.includes responseBody sig = false) ->
    checkFingerprint FINGERPRINTS PROVIDER_MAP cnameTarget responseBody =
    Fingerprint.mk false SERVICE_PROTECTED.
Proof.
  intros FINGERPRINTS PROVIDER_MAP cnameTarget responseBody key sigs Hfirst Hnone.
  unfold checkFingerprint.
  rewrite (scopedPass_first _ _ responseBody Hfirst).
  apply firstSignature_none in Hnone. now rewrite Hnone.
Qed.

Lemma checkFingerprint_scoped_no_fallthrough_witness :
  find (fun entry => JS.includes (JS.toLowerCase "Docs.GitHub.io") (fst entry))
       Sample.fingerprints
  = Some ("github.io", ["There isn't a GitHub Pages site here."])
  /\ (forall sig, In sig ["There isn't a GitHub Pages site here."] ->
                  JS.includes Sample.s3ErrorPage sig = false)
  /\ JS.includes Sample.s3ErrorPage "NoSuchBucket" = true
  /\ checkFingerprint Sample.fingerprints Sample.providers
       "Docs.GitHub.io" Sample.s3ErrorPage
     = Fingerprint.mk false SERVICE_PROTECTED.
Proof.
  assert (Hnone : forall sig, In sig ["There isn't a GitHub Pages site here."] ->
                              JS.includes Sample.s3ErrorPage sig = false).
  { intros sig [<-|[]]. reflexivity. }
  split; [reflexivity|]. split; [exact Hnone|]. split; [reflexivity|].
  apply (@checkFingerprint_scoped_no_fallthrough Sample.fingerprints
           Sample.providers "Docs.GitHub.io" Sample.s3ErrorPage
           "github.io" ["There isn't a GitHub Pages site here."]).
  - reflexivity.
  - exact Hnone.
Defined.

(** C3 as the specification words it fails when the target contains two
    catalog keys: [media.s3.amazonaws.com] contains the key
    [s3.amazonaws.com], the body contains none of that key's signatures, and
    yet the answer is vulnerable, because the key [amazonaws.com] stands
    first in the catalog and its signature is in the body. *)
Lemma checkFingerprint_scoped_first_key_decides :
  In ("s3.amazonaws.com", ["The specified bucket does not exist"])
     Sample.overlappingFingerprints
  /\ JS.includes (JS.toLowerCase "media.s3.amazonaws.com") "s3.amazonaws.com" = true
  /\ (forall sig, In sig ["The specified bucket does not exist"] ->
                  JS.includes Sample.s3ErrorPage sig = false)
  /\ checkFingerprint Sample.overlappingFingerprints Sample.providers
       "media.s3.amazonaws.com" Sample.s3ErrorPage
     = Fingerprint.mk true "NoSuchBucket"
  /\ checkFingerprint Sample.overlappingFingerprints Sample.providers
       "media.s3.amazonaws.com" Sample.s3ErrorPage
     <> Fingerprint.mk false SERVICE_PROTECTED.
Proof.
  split; [right; left; reflexivity|]. split; [reflexivity|]. split.
  - intros sig [<-|[]]. reflexivity.
  - split; [reflexivity | discriminate].
Qed.








(** A fingerprint key that names a member of [Object.prototype] and has no
    entry in the provider catalog is annotated with that member: for the key
    [constructor], the text of the function [Object]. *)
Lemma checkFingerprint_fallback_inherited_member :
  checkFingerprint Sample.constructorFingerprints Sample.providers
    "assets.example.org" Sample.s3ErrorPage
  = Fingerprint.mk true
      "NoSuchBucket (matched function Object() { [native code] })".
Proof. reflexivity. Qed.

(** ** Input parsing *)

(** [new Set(domains)] keeps a value exactly when it is new. *)
Lemma setValues_In (domains seen : list string) (x : string) :
  In x (setValues seen domains) <-> In x domains /\ ~ In x seen.
Proof.
  revert seen. induction domains as [|d rest IH]; intros seen; simpl.
  - tauto.
  - destruct (JS.arrayIncludes seen d) eqn:Hd.
    + apply arrayIncludes_In in Hd. rewrite IH. split.
      * intros [Hin Hns]. auto.
      * intros [[<-|Hin] Hns]; [contradiction | auto].
    + apply arrayIncludes_not_In in Hd. simpl. rewrite IH. simpl. split.
      * intros [<-|[Hin Hns]]; auto.
      * intros [[<-|Hin] Hns]; auto.
        destruct (string_dec d x) as [->|Hne]; auto.
        right. split; auto. intros [Heq|Hs]; auto.
Qed.

Lemma setValues_NoDup (domains seen : list string) :
  NoDup (setValues seen domains).
Proof.
  revert seen. induction domains as [|d rest IH]; intros seen; simpl.
  - constructor.
  - destruct (JS.arrayIncludes seen d); [apply IH|].
    constructor; [|apply IH].
    rewrite setValues_In. intros [_ Hns]. apply Hns. now left.
Qed.

(** C8. The text of the specification's example parses to exactly
    [foo.example.com; bar.example.com]: its four lines are split, the header
    line is skipped, the loop pushes the three cleaned values (protocol,
    trailing slash and quotes gone), and the set keeps the first occurrence
    of each, in order. *)
Theorem parseDomainsFromText_example :
  splitLines Sample.headerText
  = [ "Subdomain"; "https://foo.example.com/";
      Sample.quote ++ "bar.example.com" ++ Sample.quote; "bar.example.com" ]
  /\ parseLoop 0 true (splitLines Sample.headerText)
     = [ "foo.example.com"; "bar.example.com"; "bar.example.com" ]
  /\ parseDomainsFromText Sample.headerText
     = [ "foo.example.com"; "bar.example.com" ].
Proof. repeat split; reflexivity. Qed.

(** C5 as the specification words it fails: two lines that differ in letter
    case only are both kept. *)
Lemma parseDomainsFromText_keeps_case_variants :
  parseDomainsFromText Sample.mixedCaseText
  = [ "Shop.Example.com"; "shop.example.com" ]
  /\ equalIgnoringCase "Shop.Example.com" "shop.example.com"
  /\ ~ (forall text i j a b,
          i <> j ->
          nth_error (parseDomainsFromText text) i = Some a ->
          nth_error (parseDomainsFromText text) j = Some b ->
          ~ equalIgnoringCase a b).
Proof.
  split; [reflexivity|]. split; [reflexivity|].
  intros H.
  apply (H Sample.mixedCaseText 0%nat 1%nat "Shop.Example.com" "shop.example.com");
    [discriminate | reflexivity | reflexivity | reflexivity].
Qed.

(** C5, as the code has it. The list that parsing produces is deduplicated
    by string equality, letter case included: no string occurs twice in it. *)
Theorem parseDomainsFromText_NoDup :
  forall text : string, NoDup (parseDomainsFromText text).
Proof. intros text. unfold parseDomainsFromText. apply setValues_NoDup. Qed.

(** The same, by positions: two different positions of the output hold two
    different strings. *)
Lemma parseDomainsFromText_distinct (text : string) (i j : nat) (a b : string) :
  i <> j ->
  nth_error (parseDomainsFromText text) i = Some a ->
  nth_error (parseDomainsFromText text) j = Some b ->
  a <> b.
Proof.
  intros Hij Ha Hb Hab. subst b.
  pose proof (parseDomainsFromText_NoDup text) as Hnd.
  rewrite NoDup_nth_error in Hnd.
  apply Hij, Hnd; [|congruence].
  apply nth_error_Some. congruence.
Qed.

Lemma parseLoop_In (lines : list string) (i : nat) (skipHeader : bool) (x : string) :
  In x (parseLoop i skipHeader lines) ->
  exists line, In line lines /\ parseLine line = Some x.
Proof.
  revert i. induction lines as [|line rest IH]; intros i; simpl; [tauto|].
  assert (Hrest : In x (parseLoop (S i) skipHeader rest) ->
                  exists l, (line = l \/ In l rest) /\ parseLine l = Some x).
  { intros Hin. destruct (IH _ Hin) as (l & Hl & Hp). exists l. auto. }
  destruct (Nat.eqb i 0 && skipHeader); [exact Hrest|].
  destruct (parseLine line) as [val|] eqn:Hp; [|exact Hrest].
  intros [<-|Hin]; [exists line; auto | auto].
Qed.

(** Every hostname that parsing produces is a scan target: it is not empty
    and it contains a dot. *)
Lemma parseDomainsFromText_targets (text host : string) :
  In host (parseDomainsFromText text) ->
  host <> "" /\ JS.includes host "." = true.
Proof.
  unfold parseDomainsFromText. rewrite setValues_In. intros [Hin _].
  apply parseLoop_In in Hin. destruct Hin as (line & _ & Hp).
  unfold parseLine in Hp.
  destruct (JS.truthy _ && JS.includes _ ".") eqn:Hc; [|discriminate].
  injection Hp as <-. apply andb_true_iff in Hc. destruct Hc as [Ht Hi].
  split; [|exact Hi]. intros Heq. rewrite Heq in Ht. discriminate.
Qed.

(** ** Name resolver *)

Lemma append_inj_left (s t u : string) : s ++ t = s ++ u -> t = u.
Proof.
  induction s as [|c s IH]; simpl; [tauto|]. intros [= H]. auto.
Qed.

Lemma append_empty_right (s : string) : s ++ "" = s.
Proof. induction s as [|c s IH]; simpl; [reflexivity | now rewrite IH]. Qed.

Lemma stripTrailing_dot (target : string) :
  JS.stripTrailing "." (target ++ ".") = target.
Proof.
  induction target as [|c rest IH]; [reflexivity|].
  simpl. rewrite IH. destruct rest; reflexivity.
Qed.

(** Whatever the network does, [dnsLookup] returns, and an NXDOMAIN outcome
    has an empty target. *)
Lemma dnsLookup_NXDOMAIN_target (net : Network) (subdomain : string) :
  Lookup.dnsStatus (dnsLookup net subdomain) = NXDOMAIN ->
  Lookup.cnameTarget (dnsLookup net subdomain) = "".
Proof.
  unfold dnsLookup, lookupA, noRecord, dnsError.
  repeat match goal with
         | |- context [match ?x with _ => _ end] => destruct x
         end; simpl; congruence.
Qed.

Lemma dnsLookup_cname_branch (net : Network) (subdomain : string)
      (data : DnsReply.t) (cnameRecord : DnsRecord.t) :
  resolve net subdomain TypeCNAME = inr data ->
  cnameAnswer data = Some cnameRecord ->
  let cname := JS.stripTrailing "." (DnsRecord.data cnameRecord) in
  dnsLookup net subdomain =
  Lookup.mk CNAME cname
    ("CNAME -> " ++ cname ++
     (if cnameResolves net cname then "" else NOTE_TARGET_NXDOMAIN)).
Proof. intros Hq Ha. unfold dnsLookup. now rewrite Hq, Ha. Qed.

(** The target of a CNAME answer is marked exactly when its A query is
    answered with status 3 or is not answered at all. *)
Lemma cnameResolves_false (net : Network) (cname : string) :
  cnameResolves net cname = false <->
  reportsNoSuchDomain net cname \/ exists err, resolve net cname TypeA = inl err.
Proof.
  unfold cnameResolves, reportsNoSuchDomain.
  destruct (resolve net cname TypeA) as [err|aData].
  - split; [intros _; right; now exists err | reflexivity].
  - rewrite negb_false_iff, Z.eqb_eq. split.
    + intros H. left. now exists aData.
    + intros [(aData' & [= <-] & H)|(err & [=])]. exact H.
Qed.

(** C6, as the code has it. When the CNAME query of a hostname is answered
    with a CNAME record, [dnsLookup] returns status CNAME and the record's
    data without its trailing dot as target, whatever the A query for that
    target does; the trail text is "CNAME -> target", followed by the
    " [CNAME target NXDOMAIN]" marker exactly when that A query either
    reports no such domain (status 3) or fails (throws: connection error,
    timeout, unreadable reply). *)
Theorem dnsLookup_dangling_cname :
  forall (net : Network) (subdomain : string)
         (data : DnsReply.t) (cnameRecord : DnsRecord.t),
    resolve net subdomain TypeCNAME = inr data ->
    cnameAnswer data = Some cnameRecord ->
    let outcome := dnsLookup net subdomain in
    let cname := JS.stripTrailing "." (DnsRecord.data cnameRecord) in
    let marked :=
      reportsNoSuchDomain net cname \/
      exists err, resolve net cname TypeA = inl err in
    Lookup.dnsStatus outcome = CNAME
    /\ Lookup.cnameTarget outcome = cname
    /\ (forall target, DnsRecord.data cnameRecord = target ++ "." ->
                       Lookup.cnameTarget outcome = target)
    /\ (marked <->
        Lookup.dnsLookupText outcome = "CNAME -> " ++ cname ++ NOTE_TARGET_NXDOMAIN)
    /\ (~ marked -> Lookup.dnsLookupText outcome = "CNAME -> " ++ cname).
Proof.
  intros net subdomain data cnameRecord Hq Ha outcome cname marked.
  subst outcome. rewrite (dnsLookup_cname_branch _ _ Hq Ha). fold cname.
  cbn [Lookup.dnsStatus Lookup.cnameTarget Lookup.dnsLookupText].
  assert (Hm : marked <-> cnameResolves net cname = false).
  { symmetry. apply cnameResolves_false. }
  split; [reflexivity|]. split; [reflexivity|]. split; [|split].
  - intros target Ht. subst cname. rewrite Ht. apply stripTrailing_dot.
  - rewrite Hm. destruct (cnameResolves net cname); split; try reflexivity.
    + discriminate.
    + intros Heq. apply append_inj_left, append_inj_left in Heq. discriminate.
  - intros Hn. destruct (cnameResolves net cname) eqn:Hr.
    + now rewrite append_empty_right.
    + exfalso. apply Hn, Hm. reflexivity.
Qed.

Lemma dnsLookup_dangling_cname_witness :
  let outcome := dnsLookup Sample.secondaryNoSuchDomain "shop.example.com" in
  Lookup.dnsStatus outcome = CNAME
  /\ Lookup.cnameTarget outcome = "ghost.example.net"
  /\ Lookup.dnsLookupText outcome = "CNAME -> ghost.example.net [CNAME target NXDOMAIN]".
Proof.
  pose proof (@dnsLookup_dangling_cname Sample.secondaryNoSuchDomain
                "shop.example.com"
                (DnsReply.mk 0 (Some [DnsRecord.mk 5 "ghost.example.net."]))
                (DnsRecord.mk 5 "ghost.example.net.") eq_refl eq_refl)
    as (Hs & Ht & _ & Hm & _).
  split; [exact Hs|]. split; [exact Ht|].
  apply (proj1 Hm). left. exists (DnsReply.mk 3 None). split; reflexivity.
Defined.

(** C6 as the specification words it fails in its last part: here the A
    query for the CNAME target times out, so nothing reports that there is no
    such domain, and the marker is appended all the same. *)
Lemma dnsLookup_marks_failed_check :
  let outcome := dnsLookup Sample.secondaryTimesOut "shop.example.com" in
  Lookup.dnsStatus outcome = CNAME
  /\ Lookup.cnameTarget outcome = "ghost.example.net"
  /\ ~ reportsNoSuchDomain Sample.secondaryTimesOut "ghost.example.net"
  /\ Lookup.dnsLookupText outcome
     = "CNAME -> ghost.example.net" ++ NOTE_TARGET_NXDOMAIN.
Proof.
  repeat split.
  intros (aData & Hq & _). discriminate.
Qed.

(** ** Availability probe *)

Section ProbeFacts.

Variable net : Network.
Variable subdomain : string.

Local Abbreviation https := (fetch net ("https://" ++ subdomain)).
Local Abbreviation http := (fetch net ("http://" ++ subdomain)).

(** The https attempt comes first, and its success ends the probe. *)
Lemma httpProbe_https_success (resp : Response.t) (text : string) :
  https = inr resp -> Response.text resp = inr text ->
  httpProbe net subdomain = fetched resp text.
Proof.
  intros Hf Ht. unfold httpProbe, probeLoop, tryAttempt.
  simpl in Hf |- *. now rewrite Hf, Ht.
Qed.

(** A timeout of the https request ends the probe: the http attempt is not
    made. *)
Lemma httpProbe_https_timeout (message : string) :
  https = inl (ErrorObject "AbortError" message) ->
  httpProbe net subdomain = Probe.mk 0 "" "Timeout" "".
Proof.
  intros Hf. unfold httpProbe, probeLoop, tryAttempt.
  simpl in Hf |- *. now rewrite Hf.
Qed.

(** Any other rejection of the https request leaves the [result] object as
    it was and hands over to the http attempt. *)
Lemma httpProbe_https_rejected (err : Thrown) :
  https = inl err -> isAbort err = false ->
  httpProbe net subdomain =
  match http with
  | inr resp =>
      match Response.text resp with
      | inr text => fetched resp text
      | inl err' =>
          if isAbort err' then Probe.mk (Response.status resp) "" "Timeout" ""
          else match err' with
               | ErrorObject _ _ =>
                   Probe.mk (Response.status resp) "" "Connection Failed" ""
               | OtherValue => Probe.mk (Response.status resp) "" "" ""
               end
      end
  | inl err' =>
      if isAbort err' then Probe.mk 0 "" "Timeout" ""
      else match err' with
           | ErrorObject _ _ => Probe.mk 0 "" "Connection Failed" ""
           | OtherValue => Probe.mk 0 "" "" ""
           end
  end.
Proof.
  intros Hf Ha.
  unfold httpProbe, probeLoop, tryAttempt. simpl in Hf |- *.
  rewrite Hf. clear Hf.
  assert (Hc : catchAttempt "https" err (Probe.mk 0 "" "" "")
               = (Probe.mk 0 "" "" "", false)).
  { destruct err as [name message|]; simpl in Ha |- *;
      [rewrite Ha|]; reflexivity. }
  rewrite Hc. clear Hc Ha.
  destruct (fetch net _) as [err'|resp].
  - destruct err' as [name' message'|]; simpl;
      [destruct (String.eqb name' "AbortError")|]; reflexivity.
  - simpl. destruct (Response.text resp) as [err'|text]; [|reflexivity].
    destruct err' as [name' message'|]; simpl;
      [destruct (String.eqb name' "AbortError")|]; reflexivity.
Qed.

(** When both requests are rejected by [Error] objects, as [fetch] rejects,
    the probe ends with status 0: on "Timeout" when the http request was
    aborted, on "Connection Failed" otherwise. *)
Lemma httpProbe_both_rejected (n1 m1 n2 m2 : string) :
  https = inl (ErrorObject n1 m1) -> n1 <> "AbortError" ->
  http = inl (ErrorObject n2 m2) ->
  httpProbe net subdomain =
  Probe.mk 0 "" (if String.eqb n2 "AbortError" then "Timeout"
                 else "Connection Failed") "".
Proof.
  intros H1 Hn H2. apply String.eqb_neq in Hn.
  rewrite (@httpProbe_https_rejected (ErrorObject n1 m1) H1 Hn).
  rewrite H2. simpl.
  now destruct (String.eqb n2 "AbortError").
Qed.

(** A body read that fails on the https attempt hands over to http like a
    rejected request, but with the status of the https response stored: a
    rejection of the http request then ends the probe with that status. *)
Lemma httpProbe_https_body_fails (resp : Response.t) (n1 m1 n2 m2 : string) :
  https = inr resp -> Response.text resp = inl (ErrorObject n1 m1) ->
  n1 <> "AbortError" ->
  http = inl (ErrorObject n2 m2) ->
  httpProbe net subdomain =
  Probe.mk (Response.status resp) ""
    (if String.eqb n2 "AbortError" then "Timeout" else "Connection Failed") "".
Proof.
  intros H1 Ht Hn H2. apply String.eqb_neq in Hn.
  unfold httpProbe, probeLoop, tryAttempt. simpl in H1, H2 |- *.
  rewrite H1, Ht. simpl. rewrite Hn. simpl. rewrite H2. simpl.
  now destruct (String.eqb n2 "AbortError").
Qed.

(** The probe ends with one of the three error kinds: each step of the loop
    keeps the kind it finds or stores one of the three. *)
Lemma tryAttempt_error_kind (url : string) (result r : Probe.t) (thrown : option Thrown) :
  tryAttempt net url result = (r, thrown) ->
  In (Probe.error result) ERROR_KINDS -> In (Probe.error r) ERROR_KINDS.
Proof.
  unfold tryAttempt. destruct (fetch net url) as [err|resp].
  - now intros [= <- <-].
  - destruct (Response.text resp) as [err|text]; intros [= <- <-]; simpl; auto.
Qed.

Lemma catchAttempt_error_kind (scheme : string) (err : Thrown) (result r : Probe.t)
      (returns : bool) :
  catchAttempt scheme err result = (r, returns) ->
  In (Probe.error result) ERROR_KINDS -> In (Probe.error r) ERROR_KINDS.
Proof.
  unfold catchAttempt. destruct err as [name message|].
  - destruct (String.eqb name "AbortError").
    + intros [= <- <-]. simpl. tauto.
    + destruct (String.eqb scheme "http"); intros [= <- <-]; simpl; tauto.
  - now intros [= <- <-].
Qed.

Lemma probeLoop_error_kind (schemes : list string) (result : Probe.t) :
  In (Probe.error result) ERROR_KINDS ->
  In (Probe.error (probeLoop net schemes subdomain result)) ERROR_KINDS.
Proof.
  revert result. induction schemes as [|scheme rest IH]; intros result Hin.
  - simpl. destruct (JS.truthy (Probe.error result)); [exact Hin | simpl; tauto].
  - cbn [probeLoop].
    destruct (tryAttempt net (scheme ++ "://" ++ subdomain) result)
      as [r [err|]] eqn:Htry;
      pose proof (tryAttempt_error_kind _ _ Htry Hin) as Hr; [|exact Hr].
    destruct (catchAttempt scheme err r) as [r' returns] eqn:Hcatch.
    pose proof (catchAttempt_error_kind _ _ _ Hcatch Hr) as Hr'.
    destruct returns; [exact Hr' | now apply IH].
Qed.

Lemma httpProbe_error_kinds :
  In (Probe.error (httpProbe net subdomain)) ERROR_KINDS.
Proof. apply probeLoop_error_kind. simpl. tauto. Qed.

End ProbeFacts.

(** C7 at its failing input. The https attempt stores the status of the
    response before it reads the body; when reading the body fails, the
    status stays in the [result] object, and the failure of the http attempt
    that follows ends the probe on "Connection Failed" (or on "Timeout") with
    status 200, not 0. The success path resets [result.error]; no failure
    path resets [result.status]. *)
Theorem httpProbe_keeps_stale_status :
  httpProbe Sample.bodyReadFails "app.example.com"
  = Probe.mk 200 "" "Connection Failed" ""
  /\ httpProbe Sample.bodyReadFailsThenTimeout "app.example.com"
     = Probe.mk 200 "" "Timeout" "".
Proof. split; reflexivity. Qed.

(** ** One pipeline run *)

Section ScanFacts.

Variable FINGERPRINTS : FingerprintCatalog.
Variable PROVIDER_MAP : ProviderCatalog.
Variable net : Network.
Variable subdomain : string.

Let result := scanSubdomain FINGERPRINTS PROVIDER_MAP net subdomain.
Let probe := httpProbe net subdomain.

Lemma orElse_not_empty (a b : string) : b <> "" -> JS.orElse a b <> "".
Proof. intros Hb. destruct a; [exact Hb | discriminate]. Qed.

Lemma scan_cname_not_empty : subdomain <> "" -> cname result <> "".
Proof. intros Hs. apply (orElse_not_empty _ Hs). Qed.

(** With an empty resolved target, every later stage works on the input
    hostname. *)
Lemma scan_on_hostname :
  Lookup.cnameTarget (dnsLookup net subdomain) = "" ->
  let fp := checkFingerprint FINGERPRINTS PROVIDER_MAP subdomain (Probe.body probe) in
  cname result = subdomain
  /\ provider result = identifyProvider PROVIDER_MAP subdomain
  /\ Verdict.mk (riskLevel result) (riskLabel result)
     = classifyRisk (dnsStatusString (dnsStatus result)) (Probe.status probe)
         (Fingerprint.matchedSignature fp) (Probe.error probe)
         (identifyProvider PROVIDER_MAP subdomain) subdomain
  /\ securityIssue result
     = determineSecurityIssue (dnsStatusString (dnsStatus result))
         (Probe.status probe) (Fingerprint.matchedSignature fp)
         (riskLevelString (riskLevel result)).
Proof.
  intros Ht. subst result probe. unfold scanSubdomain. simpl.
  rewrite Ht. simpl.
  repeat split.
  now destruct (classifyRisk _ _ _ _ _ _).
Qed.

End ScanFacts.

(** C9. For every hostname that is not empty, as every scan target is, the
    effective resolved name of its scan result is not empty. An NXDOMAIN
    outcome has an empty target, and on an empty target the effective name
    is the input hostname: the provider is identified on it, fingerprints
    are matched against it, and the classifier, its Google rules included,
    receives it. *)
Theorem scanSubdomain_effective_name :
  forall (FINGERPRINTS : FingerprintCatalog) (PROVIDER_MAP : ProviderCatalog)
         (net : Network) (subdomain : string),
    subdomain <> "" ->
    let result := scanSubdomain FINGERPRINTS PROVIDER_MAP net subdomain in
    let probe := httpProbe net subdomain in
    let fp := checkFingerprint FINGERPRINTS PROVIDER_MAP subdomain (Probe.body probe) in
    cname result <> ""
    /\ (dnsStatus result = NXDOMAIN ->
        Lookup.cnameTarget (dnsLookup net subdomain) = "")
    /\ (Lookup.cnameTarget (dnsLookup net subdomain) = "" ->
        cname result = subdomain
        /\ provider result = identifyProvider PROVIDER_MAP subdomain
        /\ Verdict.mk (riskLevel result) (riskLabel result)
           = classifyRisk (dnsStatusString (dnsStatus result)) (Probe.status probe)
               (Fingerprint.matchedSignature fp) (Probe.error probe)
               (identifyProvider PROVIDER_MAP subdomain) subdomain).
Proof.
  intros FINGERPRINTS PROVIDER_MAP net subdomain Hs result probe fp.
  split; [exact (scan_cname_not_empty FINGERPRINTS PROVIDER_MAP net Hs)|].
  split; [apply dnsLookup_NXDOMAIN_target|].
  intros Ht.
  destruct (scan_on_hostname FINGERPRINTS PROVIDER_MAP net subdomain Ht)
    as (Hc & Hp & Hv & _).
  auto.
Qed.

Lemma scanSubdomain_effective_name_witness :
  "retired.example.com" <> ""
  /\ cname (scanSubdomain Sample.fingerprints Sample.providers
              Sample.noSuchDomain "retired.example.com")
     <> "".
Proof.
  split; [discriminate|].
  apply (@scanSubdomain_effective_name Sample.fingerprints Sample.providers
           Sample.noSuchDomain "retired.example.com").
  discriminate.
Defined.

(** Every hostname that parsing hands to the scan has a scan result with an
    effective resolved name that is not empty. *)
Lemma scanSubdomain_parsed_name_not_empty
      (FINGERPRINTS : FingerprintCatalog) (PROVIDER_MAP : ProviderCatalog)
      (net : Network) (text host : string) :
  In host (parseDomainsFromText text) ->
  cname (scanSubdomain FINGERPRINTS PROVIDER_MAP net host) <> "".
Proof.
  intros Hin. apply scan_cname_not_empty.
  exact (proj1 (parseDomainsFromText_targets _ _ Hin)).
Qed.

(** ** The NXDOMAIN rule *)

Lemma classifyRisk_NXDOMAIN_rule (httpStatus : Z)
      (fingerprint httpError provider cnameTarget : string) :
  earlierRuleFires httpStatus fingerprint provider cnameTarget = false ->
  classifyRisk "NXDOMAIN" httpStatus fingerprint httpError provider cnameTarget
  = Verdict.mk LOW "No DNS Record - Not Exploitable".
Proof.
  unfold classifyRisk, earlierRuleFires, ruleGoogleMain, ruleGenericGoogle,
    ruleConfirmedTakeover, ruleRespondingTakeover, ruleDanglingPointer,
    ruleSuspiciousContent, isThirdParty.
  cbv zeta.
  destruct (JS.arrayIncludes GOOGLE_MAIN (cleanCname cnameTarget)),
    (String.eqb provider UNKNOWN_PROVIDER),
    (JS.includes (cleanCname cnameTarget) "google.com"),
    (isBroken httpStatus), (hasFingerprint fingerprint), (httpStatus =? 200)%Z;
    simpl; intros; try discriminate; reflexivity.
Qed.

Lemma classifyRisk_NXDOMAIN_preempted (httpStatus : Z)
      (fingerprint httpError provider cnameTarget : string) :
  earlierRuleFires httpStatus fingerprint provider cnameTarget = true ->
  Verdict.riskLabel
    (classifyRisk "NXDOMAIN" httpStatus fingerprint httpError provider cnameTarget)
  <> "No DNS Record - Not Exploitable".
Proof.
  unfold classifyRisk, earlierRuleFires, ruleGoogleMain, ruleGenericGoogle,
    ruleConfirmedTakeover, ruleRespondingTakeover, ruleDanglingPointer,
    ruleSuspiciousContent, isThirdParty.
  cbv zeta.
  destruct (JS.arrayIncludes GOOGLE_MAIN (cleanCname cnameTarget)),
    (String.eqb provider UNKNOWN_PROVIDER),
    (JS.includes (cleanCname cnameTarget) "google.com"),
    (isBroken httpStatus), (hasFingerprint fingerprint), (httpStatus =? 200)%Z;
    simpl; intros; discriminate.
Qed.

(** C1, as the code has it. For a hostname whose resolution yields NXDOMAIN,
    the classifier works on the hostname itself, and the scan result is LOW
    with label "No DNS Record - Not Exploitable" and security issue
    "None - NXDOMAIN" exactly when none of the rules that stand before the
    NXDOMAIN rule fires on the hostname: it is not a Google name (rules 1
    and 2), the probe is not broken with a recognised provider or with a
    fingerprint (rules 6, 8 and 9), and it is not a recognised provider
    answering 200 with a fingerprint (rule 7). *)
Theorem scanSubdomain_NXDOMAIN :
  forall (FINGERPRINTS : FingerprintCatalog) (PROVIDER_MAP : ProviderCatalog)
         (net : Network) (subdomain : string),
    let result := scanSubdomain FINGERPRINTS PROVIDER_MAP net subdomain in
    let probe := httpProbe net subdomain in
    let fingerprint :=
      Fingerprint.matchedSignature
        (checkFingerprint FINGERPRINTS PROVIDER_MAP subdomain (Probe.body probe)) in
    dnsStatus result = NXDOMAIN ->
    (earlierRuleFires (Probe.status probe) fingerprint
       (identifyProvider PROVIDER_MAP subdomain) subdomain = false
     <->
     riskLevel result = LOW
     /\ riskLabel result = "No DNS Record - Not Exploitable"
     /\ securityIssue result = "None - NXDOMAIN").
Proof.
  intros FINGERPRINTS PROVIDER_MAP net subdomain result probe fingerprint Hnx.
  pose proof (dnsLookup_NXDOMAIN_target net subdomain Hnx) as Ht.
  destruct (scan_on_hostname FINGERPRINTS PROVIDER_MAP net subdomain Ht)
    as (_ & _ & Hv & Hi).
  cbv zeta in Hv, Hi. subst result probe fingerprint.
  rewrite Hnx in Hv, Hi. change (dnsStatusString NXDOMAIN) with "NXDOMAIN" in Hv, Hi.
  split.
  - intros Hnone.
    rewrite (classifyRisk_NXDOMAIN_rule _ _ _ _ _ Hnone) in Hv.
    pose proof (f_equal Verdict.riskLevel Hv) as Hl.
    pose proof (f_equal Verdict.riskLabel Hv) as Hb.
    cbn [Verdict.riskLevel Verdict.riskLabel] in Hl, Hb.
    rewrite Hi, Hl. auto.
  - intros (_ & Hb & _).
    match goal with
    | |- ?e = false => destruct e eqn:He; [|reflexivity]
    end.
    exfalso.
    apply (classifyRisk_NXDOMAIN_preempted _ _
             (Probe.error (httpProbe net subdomain)) _ _ He).
    rewrite <- Hv. exact Hb.
Qed.

Lemma scanSubdomain_NXDOMAIN_witness :
  let result := scanSubdomain Sample.fingerprints Sample.providers
                  Sample.noSuchDomain "retired.example.com" in
  dnsStatus result = NXDOMAIN
  /\ riskLevel result = LOW
  /\ riskLabel result = "No DNS Record - Not Exploitable"
  /\ securityIssue result = "None - NXDOMAIN".
Proof.
  split; [reflexivity|].
  apply (@scanSubdomain_NXDOMAIN Sample.fingerprints Sample.providers
           Sample.noSuchDomain "retired.example.com"); reflexivity.
Defined.

(** C1 as the specification words it fails on hostnames that an earlier rule
    catches. A hostname under a provider's domain that does not resolve and
    does not answer is a dangling pointer, HIGH; a hostname that contains
    [google.com] and does not resolve is "Pointed to Generic Google". *)
Lemma scanSubdomain_NXDOMAIN_preempted :
  (let result := scanSubdomain Sample.fingerprints Sample.providers
                   Sample.noSuchDomain "gone.github.io" in
   dnsStatus result = NXDOMAIN
   /\ riskLevel result = HIGH
   /\ riskLabel result = "Dangling Pointer to 3rd Party (No Fingerprint)"
   /\ securityIssue result = "Dangling DNS Record")
  /\
  (let result := scanSubdomain Sample.fingerprints Sample.providers
                   Sample.noSuchDomain "notgoogle.com" in
   dnsStatus result = NXDOMAIN
   /\ riskLevel result = LOW
   /\ riskLabel result = "Pointed to Generic Google (Safe)"
   /\ securityIssue result = "None - NXDOMAIN").
Proof. repeat split. Qed.

(** * Further properties of the engine *)

(** ** Letter case *)

Lemma lowerChar_idempotent (c : ascii) : JS.lowerChar (JS.lowerChar c) = JS.lowerChar c.
Proof.
  destruct c as [b0 b1 b2 b3 b4 b5 b6 b7].
  destruct b0, b1, b2, b3, b4, b5, b6, b7; reflexivity.
Qed.

Lemma toLowerCase_idempotent (s : string) :
  JS.toLowerCase (JS.toLowerCase s) = JS.toLowerCase s.
Proof.
  induction s as [|c s IH]; simpl; [reflexivity|].
  now rewrite lowerChar_idempotent, IH.
Qed.

Lemma toLowerCase_app (s t : string) :
  JS.toLowerCase (s ++ t) = JS.toLowerCase s ++ JS.toLowerCase t.
Proof. induction s as [|c s IH]; simpl; [reflexivity | now rewrite IH]. Qed.

Lemma toLowerCase_length (s : string) : String.length (JS.toLowerCase s) = String.length s.
Proof. induction s as [|c s IH]; simpl; [reflexivity | now rewrite IH]. Qed.

Lemma append_inj_by_length (a a' b b' : string) :
  String.length a = String.length a' -> a ++ b = a' ++ b' -> a = a' /\ b = b'.
Proof.
  revert a'. induction a as [|c a IH]; intros [|c' a'] Hlen Heq;
    simpl in *; try discriminate.
  - auto.
  - injection Heq as -> Heq. injection Hlen as Hlen.
    destruct (IH a' Hlen Heq) as [-> ->]. auto.
Qed.

Lemma startsWith_split (s p : string) :
  JS.startsWith s p = true -> exists post, s = p ++ post.
Proof.
  unfold JS.startsWith. revert s. induction p as [|c p IH]; intros s H.
  - now exists s.
  - destruct s as [|d s]; simpl in H; [discriminate|].
    destruct (ascii_dec c d) as [->|Hne]; [|discriminate].
    destruct (IH s H) as [post ->]. now exists post.
Qed.

(** [s.includes(needle)] holds exactly when [needle] is a substring. *)
Lemma includes_split (s needle : string) :
  JS.includes s needle = true <-> exists pre post, s = pre ++ needle ++ post.
Proof.
  split.
  - induction s as [|c s IH]; cbn [JS.includes]; rewrite orb_true_iff;
      intros [H|H].
    + apply startsWith_split in H. destruct H as [post H]. now exists "", post.
    + discriminate.
    + apply startsWith_split in H. destruct H as [post H]. now exists "", post.
    + destruct (IH H) as (pre & post & ->). now exists (String c pre), post.
  - intros (pre & post & ->). induction pre as [|c pre IH].
    + assert (Hp : JS.startsWith (needle ++ post) needle = true).
      { unfold JS.startsWith. clear. induction needle as [|c n IH]; simpl.
        - now destruct post.
        - destruct (ascii_dec c c); [exact IH | contradiction]. }
      cbn [append]. revert Hp. generalize (needle ++ post). intros t Hp.
      destruct t; cbn [JS.includes]; now rewrite Hp.
    + cbn [append JS.includes]. rewrite IH. apply orb_true_r.
Qed.

Lemma includes_lowercase_needle (s needle : string) :
  JS.toLowerCase s = s -> JS.includes s needle = true ->
  JS.toLowerCase needle = needle.
Proof.
  intros Hs Hi. apply includes_split in Hi. destruct Hi as (pre & post & ->).
  rewrite !toLowerCase_app in Hs.
  apply append_inj_by_length in Hs; [|apply toLowerCase_length].
  destruct Hs as [_ Hs].
  apply append_inj_by_length in Hs; [|apply toLowerCase_length].
  exact (proj1 Hs).
Qed.

(** Hostnames that differ in letter case only are one hostname to the
    provider identifier, to the fingerprint matcher and to the classifier. *)
Theorem engine_ignores_target_case :
  forall (FINGERPRINTS : FingerprintCatalog) (PROVIDER_MAP : ProviderCatalog)
         (target1 target2 responseBody dnsStatus fingerprint httpError provider : string)
         (httpStatus : Z),
    equalIgnoringCase target1 target2 ->
    identifyProvider PROVIDER_MAP target1 = identifyProvider PROVIDER_MAP target2
    /\ checkFingerprint FINGERPRINTS PROVIDER_MAP target1 responseBody
       = checkFingerprint FINGERPRINTS PROVIDER_MAP target2 responseBody
    /\ classifyRisk dnsStatus httpStatus fingerprint httpError provider target1
       = classifyRisk dnsStatus httpStatus fingerprint httpError provider target2.
Proof.
  intros FINGERPRINTS PROVIDER_MAP target1 target2 responseBody dnsStatus
         fingerprint httpError provider httpStatus Heq.
  unfold equalIgnoringCase in Heq.
  unfold identifyProvider, checkFingerprint, classifyRisk, cleanCname.
  now rewrite Heq.
Qed.

Lemma engine_ignores_target_case_witness :
  equalIgnoringCase "Docs.GitHub.IO" "docs.github.io"
  /\ identifyProvider Sample.providers "Docs.GitHub.IO" = "GitHub Pages"
  /\ identifyProvider Sample.providers "Docs.GitHub.IO"
     = identifyProvider Sample.providers "docs.github.io".
Proof.
  split; [reflexivity|]. split; [reflexivity|].
  apply (@engine_ignores_target_case Sample.fingerprints Sample.providers
           "Docs.GitHub.IO" "docs.github.io" "" "CNAME" "" "" "GitHub Pages" 200).
  reflexivity.
Defined.

Lemma firstProvider_dead_entry (pre post : ProviderCatalog) (key name lower : string) :
  JS.includes lower key = false ->
  firstProvider (pre ++ (key, name) :: post)%list lower
  = firstProvider (pre ++ post)%list lower.
Proof.
  intros Hk. induction pre as [|[k n] pre IH]; simpl.
  - now rewrite Hk.
  - now rewrite IH.
Qed.

(** The catalogs are matched as they are written, against the lower-cased
    target: a key with a capital letter is contained in no target, so its
    entry never names a provider; the provider catalog identifies as it does
    without the entry. *)
Theorem capital_key_never_matches :
  forall (key : string),
    JS.toLowerCase key <> key ->
    (forall target, JS.includes (JS.toLowerCase target) key = false)
    /\ (forall (pre post : ProviderCatalog) (name target : string),
          identifyProvider (pre ++ (key, name) :: post)%list target
          = identifyProvider (pre ++ post)%list target).
Proof.
  intros key Hkey.
  assert (Hdead : forall target, JS.includes (JS.toLowerCase target) key = false).
  { intros target. destruct (JS.includes (JS.toLowerCase target) key) eqn:Hi;
      [|reflexivity].
    exfalso. apply Hkey.
    exact (@includes_lowercase_needle _ _ (toLowerCase_idempotent target) Hi). }
  split; [exact Hdead|].
  intros pre post name target. unfold identifyProvider.
  now rewrite (@firstProvider_dead_entry pre post key name _ (Hdead target)).
Qed.

Lemma capital_key_never_matches_witness :
  JS.toLowerCase "GitHub.io" <> "GitHub.io"
  /\ identifyProvider [("GitHub.io", "GitHub Pages")] "docs.GitHub.io"
     = UNKNOWN_PROVIDER.
Proof.
  split; [discriminate|].
  exact (proj2 (@capital_key_never_matches "GitHub.io" ltac:(discriminate))
           [] [] "GitHub Pages" "docs.GitHub.io").
Defined.

(** ** The decision table of the classifier *)

Lemma provider_known_iff (provider : string) :
  provider <> UNKNOWN_PROVIDER <-> String.eqb provider UNKNOWN_PROVIDER = false.
Proof. symmetry. apply String.eqb_neq. Qed.

Lemma broken_or_200_iff (httpStatus : Z) :
  (httpStatus = 0 \/ httpStatus >= 400 \/ httpStatus = 200)%Z <->
  isBroken httpStatus = true \/ (httpStatus =? 200)%Z = true.
Proof. unfold isBroken. lia. Qed.

Ltac classify_cases dnsStatus httpStatus fingerprint provider cnameTarget :=
  unfold classifyRisk, isThirdParty; cbv zeta;
  destruct (JS.arrayIncludes GOOGLE_MAIN (cleanCname cnameTarget)),
    (String.eqb provider UNKNOWN_PROVIDER),
    (JS.includes (cleanCname cnameTarget) "google.com"),
    (String.eqb dnsStatus "CNAME"), (String.eqb dnsStatus "A"),
    (String.eqb dnsStatus "NXDOMAIN"),
    (isBroken httpStatus), (hasFingerprint fingerprint), (httpStatus =? 200)%Z;
  simpl.

(** [classifyRisk] answers CRITICAL exactly when the resolved name is not
    one of the three Google names, the provider is recognised, the matched
    signature is a fingerprint, and the HTTP status is 0, at least 400, or
    200. An unknown provider is never CRITICAL, whatever the body holds. *)
Theorem classifyRisk_CRITICAL_iff :
  forall (dnsStatus : string) (httpStatus : Z)
         (fingerprint httpError provider cnameTarget : string),
    Verdict.riskLevel
      (classifyRisk dnsStatus httpStatus fingerprint httpError provider cnameTarget)
    = CRITICAL
    <->
    ~ In (cleanCname cnameTarget) GOOGLE_MAIN
    /\ provider <> UNKNOWN_PROVIDER
    /\ (fingerprint <> "" /\ fingerprint <> NO_KNOWN_SIGNATURE /\
        fingerprint <> SERVICE_PROTECTED)
    /\ (httpStatus = 0 \/ httpStatus >= 400 \/ httpStatus = 200)%Z.
Proof.
  intros dnsStatus httpStatus fingerprint httpError provider cnameTarget.
  rewrite <- arrayIncludes_not_In, hasFingerprint_true, provider_known_iff,
    broken_or_200_iff.
  classify_cases dnsStatus httpStatus fingerprint provider cnameTarget;
    intuition discriminate.
Qed.

(** [classifyRisk] answers HIGH exactly when the name is not one of the three
    Google names, the probe is broken, and either the provider is recognised
    and there is no fingerprint, or the provider is unknown, the name does not
    contain google.com, there is a fingerprint and the DNS status is neither
    CNAME nor A. *)
Theorem classifyRisk_HIGH_iff :
  forall (dnsStatus : string) (httpStatus : Z)
         (fingerprint httpError provider cnameTarget : string),
    Verdict.riskLevel
      (classifyRisk dnsStatus httpStatus fingerprint httpError provider cnameTarget)
    = HIGH
    <->
    ~ In (cleanCname cnameTarget) GOOGLE_MAIN
    /\ (httpStatus = 0 \/ httpStatus >= 400)%Z
    /\ ((provider <> UNKNOWN_PROVIDER /\ hasFingerprint fingerprint = false)
        \/ (provider = UNKNOWN_PROVIDER
            /\ JS.includes (cleanCname cnameTarget) "google.com" = false
            /\ hasFingerprint fingerprint = true
            /\ dnsStatus <> "CNAME" /\ dnsStatus <> "A")).
Proof.
  intros dnsStatus httpStatus fingerprint httpError provider cnameTarget.
  rewrite <- arrayIncludes_not_In, isBroken_true, provider_known_iff.
  rewrite <- (String.eqb_eq provider UNKNOWN_PROVIDER).
  rewrite <- (String.eqb_neq dnsStatus "CNAME"), <- (String.eqb_neq dnsStatus "A").
  classify_cases dnsStatus httpStatus fingerprint provider cnameTarget;
    intuition discriminate.
Qed.

(** [classifyRisk] answers MEDIUM exactly when the provider is unknown, the
    name does not contain google.com, the probe is broken and the DNS status
    is CNAME or A: with such a record and such a probe, a fingerprint in the
    body changes nothing. *)
Theorem classifyRisk_MEDIUM_iff :
  forall (dnsStatus : string) (httpStatus : Z)
         (fingerprint httpError provider cnameTarget : string),
    Verdict.riskLevel
      (classifyRisk dnsStatus httpStatus fingerprint httpError provider cnameTarget)
    = MEDIUM
    <->
    ~ In (cleanCname cnameTarget) GOOGLE_MAIN
    /\ provider = UNKNOWN_PROVIDER
    /\ JS.includes (cleanCname cnameTarget) "google.com" = false
    /\ (httpStatus = 0 \/ httpStatus >= 400)%Z
    /\ (dnsStatus = "CNAME" \/ dnsStatus = "A").
Proof.
  intros dnsStatus httpStatus fingerprint httpError provider cnameTarget.
  rewrite <- arrayIncludes_not_In, isBroken_true.
  rewrite <- (String.eqb_eq provider UNKNOWN_PROVIDER).
  rewrite <- (String.eqb_eq dnsStatus "CNAME"), <- (String.eqb_eq dnsStatus "A").
  classify_cases dnsStatus httpStatus fingerprint provider cnameTarget;
    intuition discriminate.
Qed.

(** On the statuses that [dnsLookup] returns, the "Suspicious Content" rule
    is reached with NXDOMAIN only: with a CNAME or an A record, a broken
    probe and an unknown provider, one of the two MEDIUM rules comes first. *)
Theorem suspicious_content_only_on_NXDOMAIN :
  forall (dnsStatus : DnsStatus) (httpStatus : Z)
         (fingerprint httpError provider cnameTarget : string),
    Verdict.riskLabel
      (classifyRisk (dnsStatusString dnsStatus) httpStatus fingerprint httpError
         provider cnameTarget)
    = "Suspicious Content (Fingerprint Found but Provider Unknown)" ->
    dnsStatus = NXDOMAIN.
Proof.
  intros dnsStatus httpStatus fingerprint httpError provider cnameTarget.
  destruct dnsStatus; [| |reflexivity];
    unfold classifyRisk, isThirdParty; cbv zeta;
    destruct (JS.arrayIncludes GOOGLE_MAIN (cleanCname cnameTarget)),
      (String.eqb provider UNKNOWN_PROVIDER),
      (JS.includes (cleanCname cnameTarget) "google.com"),
      (isBroken httpStatus), (hasFingerprint fingerprint), (httpStatus =? 200)%Z;
    simpl; discriminate.
Qed.

Lemma suspicious_content_only_on_NXDOMAIN_witness :
  Verdict.riskLabel
    (classifyRisk (dnsStatusString NXDOMAIN) 404 "NoSuchBucket (matched AWS S3)"
       "" UNKNOWN_PROVIDER "assets.example.org")
  = "Suspicious Content (Fingerprint Found but Provider Unknown)"
  /\ NXDOMAIN = NXDOMAIN.
Proof.
  split; [reflexivity|].
  apply (@suspicious_content_only_on_NXDOMAIN NXDOMAIN 404
           "NoSuchBucket (matched AWS S3)" "" UNKNOWN_PROVIDER "assets.example.org").
  reflexivity.
Defined.

Lemma google_main_includes (name : string) :
  In name GOOGLE_MAIN -> JS.includes name "google.com" = true.
Proof. intros [<-|[<-|[<-|[]]]]; reflexivity. Qed.

(** A CNAME or A record whose target no catalog names and that is not
    Google's, answered with HTTP 200, is INFO, "Active Subdomain - Verify
    Ownership"; its security issue is "None - Active Service" without a
    fingerprint in the body and "Potential Misconfiguration" with one. *)
Theorem active_subdomain_is_INFO :
  forall (dnsStatus : DnsStatus) (fingerprint httpError cnameTarget : string),
    dnsStatus <> NXDOMAIN ->
    JS.includes (cleanCname cnameTarget) "google.com" = false ->
    let verdict :=
      classifyRisk (dnsStatusString dnsStatus) 200 fingerprint httpError
        UNKNOWN_PROVIDER cnameTarget in
    verdict = Verdict.mk INFO "Active Subdomain - Verify Ownership"
    /\ determineSecurityIssue (dnsStatusString dnsStatus) 200 fingerprint
         (riskLevelString (Verdict.riskLevel verdict))
       = if hasFingerprint fingerprint then "Potential Misconfiguration"
         else "None - Active Service".
Proof.
  intros dnsStatus fingerprint httpError cnameTarget Hd Hg verdict.
  assert (Hm : JS.arrayIncludes GOOGLE_MAIN (cleanCname cnameTarget) = false).
  { apply arrayIncludes_not_In. intros Hin.
    apply google_main_includes in Hin. congruence. }
  assert (Hv : verdict = Verdict.mk INFO "Active Subdomain - Verify Ownership").
  { subst verdict. unfold classifyRisk. rewrite Hm, Hg. cbv zeta.
    destruct dnsStatus; [| |contradiction];
      destruct (hasFingerprint fingerprint); reflexivity. }
  split; [exact Hv|]. rewrite Hv.
  unfold determineSecurityIssue, hasFingerprint.
  destruct dnsStatus; [| |contradiction];
    destruct (JS.arrayIncludes NOT_A_FINGERPRINT fingerprint); reflexivity.
Qed.

Lemma active_subdomain_is_INFO_witness :
  A <> NXDOMAIN
  /\ JS.includes (cleanCname "203.0.113.7") "google.com" = false
  /\ classifyRisk (dnsStatusString A) 200 NO_KNOWN_SIGNATURE "" UNKNOWN_PROVIDER
       "203.0.113.7"
     = Verdict.mk INFO "Active Subdomain - Verify Ownership".
Proof.
  split; [discriminate|]. split; [reflexivity|].
  apply (@active_subdomain_is_INFO A NO_KNOWN_SIGNATURE "" "203.0.113.7");
    [discriminate | reflexivity].
Defined.

(** ** What the fingerprint matcher reports *)

Lemma scopedPass_some (entries : FingerprintCatalog) (lower responseBody : string)
      (r : Fingerprint.t) :
  scopedPass entries lower responseBody = Some r ->
  exists key sigs,
    In (key, sigs) entries /\ JS.includes lower key = true /\
    ((exists sig, In sig sigs /\ JS.includes responseBody sig = true /\
                  r = Fingerprint.mk true sig)
     \/ r = Fingerprint.mk false SERVICE_PROTECTED).
Proof.
  induction entries as [|[k s] rest IH]; simpl; [discriminate|].
  destruct (JS.includes lower k) eqn:Hk.
  - intros H. exists k, s. split; [now left|]. split; [exact Hk|].
    destruct (firstSignature s responseBody) as [hit|] eqn:Hs;
      injection H as <-.
    + left. exists hit. apply firstSignature_some in Hs. tauto.
    + now right.
  - intros H. destruct (IH H) as (key & sigs & Hin & Hrest).
    exists key, sigs. split; [now right | exact Hrest].
Qed.


Lemma hasFingerprint_is_vulnerable (FINGERPRINTS : FingerprintCatalog)
      (PROVIDER_MAP : ProviderCatalog) (cnameTarget responseBody : string) :
  let r := checkFingerprint FINGERPRINTS PROVIDER_MAP cnameTarget responseBody in
  hasFingerprint (Fingerprint.matchedSignature r) = true ->
  Fingerprint.isVulnerable r = true.
Proof.
  intros r Hfp. unfold r in *. clear r. unfold checkFingerprint in *.
  destruct (scopedPass FINGERPRINTS (JS.toLowerCase cnameTarget) responseBody)
    as [r|] eqn:Hs.
  - destruct (scopedPass_some _ _ _ Hs)
      as (key & sigs & Hin & _ & [(sig & Hsig & Hinc & ->)| ->]);
      [reflexivity | discriminate].
  - destruct (fallbackPass PROVIDER_MAP FINGERPRINTS responseBody) as [r|] eqn:Hf.
    + destruct (fallbackPass_some _ _ _ Hf)
        as (key & sigs & sig & Hin & Hsig & Hinc & ->). reflexivity.
    + discriminate.
Qed.

(** ** The scan result as a whole *)

Lemma determineSecurityIssue_by_level (dnsStatus : DnsStatus) (httpStatus : Z)
      (fingerprint : string) (level : RiskLevel) :
  let issue :=
    determineSecurityIssue (dnsStatusString dnsStatus) httpStatus fingerprint
      (riskLevelString level) in
  (issue = "Subdomain Takeover" <-> level = CRITICAL)
  /\ (issue = "Dangling DNS Record" <-> level = HIGH)
  /\ (issue = "DNS Hygiene Misconfiguration" <-> level = MEDIUM)
  /\ (issue = "None - NXDOMAIN" -> dnsStatus = NXDOMAIN)
  /\ (issue = "None - Active Service" ->
      dnsStatus <> NXDOMAIN /\ httpStatus = 200%Z /\
      hasFingerprint fingerprint = false).
Proof.
  intros issue. subst issue. unfold determineSecurityIssue, hasFingerprint.
  destruct (JS.arrayIncludes NOT_A_FINGERPRINT fingerprint),
    (httpStatus >=? 400)%Z, (httpStatus =? 0)%Z;
    destruct (httpStatus =? 200)%Z eqn:H200;
    destruct level, dnsStatus; simpl;
    repeat split; intros; try congruence;
    try (apply Z.eqb_eq; assumption).
Qed.

(** In every scan result the security issue and the risk level agree:
    "Subdomain Takeover" goes with CRITICAL, "Dangling DNS Record" with HIGH
    and "DNS Hygiene Misconfiguration" with MEDIUM, each both ways;
    "None - NXDOMAIN" is only given to an NXDOMAIN outcome and
    "None - Active Service" only to a resolved one. *)
Theorem scan_issue_agrees_with_level :
  forall (FINGERPRINTS : FingerprintCatalog) (PROVIDER_MAP : ProviderCatalog)
         (net : Network) (subdomain : string),
    let r := scanSubdomain FINGERPRINTS PROVIDER_MAP net subdomain in
    (securityIssue r = "Subdomain Takeover" <-> riskLevel r = CRITICAL)
    /\ (securityIssue r = "Dangling DNS Record" <-> riskLevel r = HIGH)
    /\ (securityIssue r = "DNS Hygiene Misconfiguration" <-> riskLevel r = MEDIUM)
    /\ (securityIssue r = "None - NXDOMAIN" -> dnsStatus r = NXDOMAIN)
    /\ (securityIssue r = "None - Active Service" -> dnsStatus r <> NXDOMAIN).
Proof.
  intros FINGERPRINTS PROVIDER_MAP net subdomain r.
  pose proof (determineSecurityIssue_by_level (dnsStatus r)
                (Probe.status (httpProbe net subdomain))
                (Fingerprint.matchedSignature
                   (checkFingerprint FINGERPRINTS PROVIDER_MAP (cname r)
                      (Probe.body (httpProbe net subdomain))))
                (riskLevel r)) as H.
  cbv zeta in H.
  change (determineSecurityIssue _ _ _ _) with (securityIssue r) in H.
  destruct H as (H1 & H2 & H3 & H4 & H5).
  tauto.
Qed.

Lemma classifyRisk_CRITICAL_needs (dnsStatus : string) (httpStatus : Z)
      (fingerprint httpError provider cnameTarget : string) :
  Verdict.riskLevel
    (classifyRisk dnsStatus httpStatus fingerprint httpError provider cnameTarget)
  = CRITICAL ->
  String.eqb provider UNKNOWN_PROVIDER = false
  /\ hasFingerprint fingerprint = true
  /\ (isBroken httpStatus = true \/ (httpStatus =? 200)%Z = true).
Proof.
  classify_cases dnsStatus httpStatus fingerprint provider cnameTarget;
    intuition discriminate.
Qed.

(** A scan result is CRITICAL only when the effective name belongs to a
    recognised provider, the fingerprint matcher reported a vulnerability on
    the probed body, and the probe answered 200, answered an error status, or
    did not answer. *)
Theorem scan_CRITICAL_needs_evidence :
  forall (FINGERPRINTS : FingerprintCatalog) (PROVIDER_MAP : ProviderCatalog)
         (net : Network) (subdomain : string),
    let r := scanSubdomain FINGERPRINTS PROVIDER_MAP net subdomain in
    let probe := httpProbe net subdomain in
    riskLevel r = CRITICAL ->
    provider r <> UNKNOWN_PROVIDER
    /\ provider r = identifyProvider PROVIDER_MAP (cname r)
    /\ Fingerprint.isVulnerable
         (checkFingerprint FINGERPRINTS PROVIDER_MAP (cname r) (Probe.body probe))
       = true
    /\ (Probe.status probe = 0 \/ Probe.status probe >= 400
        \/ Probe.status probe = 200)%Z.
Proof.
  intros FINGERPRINTS PROVIDER_MAP net subdomain r probe Hc.
  apply classifyRisk_CRITICAL_needs in Hc. destruct Hc as (Hp & Hf & Hh).
  split; [apply provider_known_iff; exact Hp|]. split; [reflexivity|].
  split; [apply hasFingerprint_is_vulnerable; exact Hf|].
  apply broken_or_200_iff. exact Hh.
Qed.

Lemma scan_CRITICAL_needs_evidence_witness :
  let net :=
    mkNetwork
      (fun _ qtype =>
         match qtype with
         | TypeCNAME =>
             inr (DnsReply.mk 0 (Some [DnsRecord.mk 5 "old-assets.s3.amazonaws.com."]))
         | TypeA => inr (DnsReply.mk 0 (Some [DnsRecord.mk 1 "198.51.100.4"]))
         end)
      (fun _ => inr (Response.mk 404 (Some "AmazonS3") (inr Sample.s3ErrorPage)))
      Sample.timestamp in
  let r := scanSubdomain Sample.fingerprints Sample.providers net "assets.example.com" in
  riskLevel r = CRITICAL /\ provider r = "AWS S3" /\ provider r <> UNKNOWN_PROVIDER.
Proof.
  intros net r. split; [reflexivity|]. split; [reflexivity|].
  apply (@scan_CRITICAL_needs_evidence Sample.fingerprints Sample.providers net
           "assets.example.com").
  reflexivity.
Defined.

(** The synthesized signature of a scan result is the provider, " - ", and
    a detail that is never empty: the fingerprint, the error kind, the HTTP
    status or "No Response". *)
Theorem scan_signature_shape :
  forall (FINGERPRINTS : FingerprintCatalog) (PROVIDER_MAP : ProviderCatalog)
         (net : Network) (subdomain : string),
    let r := scanSubdomain FINGERPRINTS PROVIDER_MAP net subdomain in
    exists detail,
      signature r = provider r ++ " - " ++ detail /\ detail <> "".
Proof.
  intros FINGERPRINTS PROVIDER_MAP net subdomain r. subst r.
  unfold scanSubdomain. cbn [signature provider].
  match goal with
  | |- context [if ?c then _ else _] => destruct c eqn:Hv
  end.
  - apply andb_true_iff in Hv. destruct Hv as [_ Hv].
    eexists. split; [reflexivity|]. intros Heq. rewrite Heq in Hv. discriminate.
  - match goal with
    | |- context [if ?c then _ else _] => destruct c eqn:He
    end.
    + apply andb_true_iff in He. destruct He as [He _].
      eexists. split; [reflexivity|]. intros Heq. rewrite Heq in He. discriminate.
    + match goal with
      | |- context [if ?c then _ else _] => destruct c
      end; eexists; (split; [reflexivity | discriminate]).
Qed.

(** ** What the resolver reports *)

Lemma concat_head (sep first : string) (rest : list string) :
  exists tail, String.concat sep (first :: rest) = first ++ tail.
Proof.
  destruct rest as [|second rest]; simpl.
  - exists "". now rewrite append_empty_right.
  - now eexists.
Qed.

(** The trail text of [dnsLookup] always tells the status and the target it
    returns: "CNAME -> target", with or without the marker, for a CNAME;
    "A -> " and the target first for an A record; and, with an empty target,
    one of the four no-record texts for NXDOMAIN. *)
Theorem dnsLookup_trail_tells_outcome :
  forall (net : Network) (subdomain : string),
    let outcome := dnsLookup net subdomain in
    let target := Lookup.cnameTarget outcome in
    let text := Lookup.dnsLookupText outcome in
    match Lookup.dnsStatus outcome with
    | CNAME =>
        text = "CNAME -> " ++ target \/
        text = "CNAME -> " ++ target ++ NOTE_TARGET_NXDOMAIN
    | A => exists others, text = "A -> " ++ target ++ others
    | NXDOMAIN =>
        target = "" /\
        (text = "NXDOMAIN" \/ text = "No DNS Answer" \/
         (exists status, text = "DNS Status: " ++ JS.numberToString status) \/
         (exists message, text = "DNS Error: " ++ message))
    end.
Proof.
  intros net subdomain. unfold dnsLookup.
  destruct (resolve net subdomain TypeCNAME) as [err|data].
  { simpl. split; [reflexivity|]. right. right. right. now eexists. }
  destruct (cnameAnswer data) as [cnameRecord|].
  { simpl. destruct (cnameResolves net _);
      [left; now rewrite append_empty_right | now right]. }
  unfold lookupA.
  destruct (resolve net subdomain TypeA) as [err|aData].
  { simpl. split; [reflexivity|]. right. right. right. now eexists. }
  assert (Hno : let o := noRecord aData in
                Lookup.dnsStatus o = NXDOMAIN /\ Lookup.cnameTarget o = "" /\
                (Lookup.dnsLookupText o = "No DNS Answer" \/
                 Lookup.dnsLookupText o
                 = "DNS Status: " ++ JS.numberToString (DnsReply.Status aData))).
  { unfold noRecord. destruct (DnsReply.Answer aData);
      [|destruct (DnsReply.Status aData =? 0)%Z]; simpl; auto. }
  cbv zeta in Hno. destruct Hno as (Hs & Ht & Hx).
  assert (Hnone : match Lookup.dnsStatus (noRecord aData) with
                  | CNAME =>
                      Lookup.dnsLookupText (noRecord aData)
                      = "CNAME -> " ++ Lookup.cnameTarget (noRecord aData) \/
                      Lookup.dnsLookupText (noRecord aData)
                      = "CNAME -> " ++ Lookup.cnameTarget (noRecord aData)
                        ++ NOTE_TARGET_NXDOMAIN
                  | A => exists others,
                      Lookup.dnsLookupText (noRecord aData)
                      = "A -> " ++ Lookup.cnameTarget (noRecord aData) ++ others
                  | NXDOMAIN =>
                      Lookup.cnameTarget (noRecord aData) = "" /\
                      (Lookup.dnsLookupText (noRecord aData) = "NXDOMAIN" \/
                       Lookup.dnsLookupText (noRecord aData) = "No DNS Answer" \/
                       (exists status,
                           Lookup.dnsLookupText (noRecord aData)
                           = "DNS Status: " ++ JS.numberToString status) \/
                       (exists message,
                           Lookup.dnsLookupText (noRecord aData)
                           = "DNS Error: " ++ message))
                  end).
  { rewrite Hs. split; [exact Ht|]. destruct Hx as [Hx|Hx];
      [right; left; exact Hx | right; right; left; eexists; exact Hx]. }
  destruct (DnsReply.Status aData =? 3)%Z.
  { simpl. split; [reflexivity|]. now left. }
  destruct (DnsReply.Answer aData) as [answer|]; [|exact Hnone].
  destruct (filter (isType 1) answer) as [|first rest].
  - destruct (find (isType 5) answer) as [cnameInA|]; [|exact Hnone].
    simpl. now left.
  - cbn [Lookup.dnsStatus Lookup.cnameTarget Lookup.dnsLookupText map].
    destruct (concat_head ", " (DnsRecord.data first) (map DnsRecord.data rest))
      as [tail Htail].
    exists tail. now rewrite Htail.
Qed.

(** The target that [dnsLookup] returns comes from the resolver: for an A
    outcome, it is the data of an A record (type 1) of the reply to the A
    query, whose status is not 3; for a CNAME outcome, it is the data,
    without one trailing dot, of a CNAME record (type 5) of the reply to the
    CNAME query or to the A query. *)
Theorem dnsLookup_target_from_answer :
  forall (net : Network) (subdomain : string),
    let outcome := dnsLookup net subdomain in
    match Lookup.dnsStatus outcome with
    | A =>
        exists aData answer record,
          resolve net subdomain TypeA = inr aData /\
          DnsReply.Status aData <> 3%Z /\
          DnsReply.Answer aData = Some answer /\ In record answer /\
          DnsRecord.type record = 1%Z /\
          Lookup.cnameTarget outcome = DnsRecord.data record
    | CNAME =>
        exists qtype reply answer record,
          resolve net subdomain qtype = inr reply /\
          DnsReply.Answer reply = Some answer /\ In record answer /\
          DnsRecord.type record = 5%Z /\
          Lookup.cnameTarget outcome = JS.stripTrailing "." (DnsRecord.data record)
    | NXDOMAIN => Lookup.cnameTarget outcome = ""
    end.
Proof.
  intros net subdomain. unfold dnsLookup.
  destruct (resolve net subdomain TypeCNAME) as [err|data] eqn:Hq1;
    [reflexivity|].
  destruct (cnameAnswer data) as [cnameRecord|] eqn:Hc.
  { unfold cnameAnswer in Hc. destruct (DnsReply.Answer data) as [answer|] eqn:Ha;
      [|discriminate].
    apply find_some in Hc. destruct Hc as [Hin Ht]. apply Z.eqb_eq in Ht.
    simpl. exists TypeCNAME, data, answer, cnameRecord. auto. }
  unfold lookupA.
  destruct (resolve net subdomain TypeA) as [err|aData] eqn:Hq2; [reflexivity|].
  assert (Hno : Lookup.dnsStatus (noRecord aData) = NXDOMAIN /\
                Lookup.cnameTarget (noRecord aData) = "").
  { unfold noRecord. destruct (DnsReply.Answer aData);
      [|destruct (DnsReply.Status aData =? 0)%Z]; simpl; auto. }
  destruct Hno as [Hs Ht].
  destruct (DnsReply.Status aData =? 3)%Z eqn:H3; [reflexivity|].
  apply Z.eqb_neq in H3.
  destruct (DnsReply.Answer aData) as [answer|] eqn:Ha;
    [|now rewrite Hs].
  destruct (filter (isType 1) answer) as [|first rest] eqn:Hf.
  - destruct (find (isType 5) answer) as [cnameInA|] eqn:H5;
      [|now rewrite Hs].
    apply find_some in H5. destruct H5 as [Hin H5]. apply Z.eqb_eq in H5.
    simpl. exists TypeA, aData, answer, cnameInA. auto.
  - assert (Hin : In first (filter (isType 1) answer)) by (rewrite Hf; now left).
    apply filter_In in Hin. destruct Hin as [Hin H1]. apply Z.eqb_eq in H1.
    simpl. exists aData, answer, first. auto 7.
Qed.

(** ** What the probe reports *)

Lemma substring_prefix_length (n : nat) (s : string) :
  (String.length (substring 0 n s) <= n)%nat.
Proof.
  revert s. induction n as [|n IH]; intros [|c s]; simpl; try lia.
  specialize (IH s). lia.
Qed.

Lemma probeLoop_outcome (net : Network) (schemes : list string)
      (subdomain : string) (result : Probe.t) :
  Probe.body result = "" -> Probe.serverHeader result = "" ->
  probeOutcomeOk (probeLoop net schemes subdomain result).
Proof.
  revert result. induction schemes as [|scheme rest IH]; intros result Hb Hs.
  - cbn [probeLoop]. destruct (JS.truthy (Probe.error result));
      unfold probeOutcomeOk; simpl; rewrite Hb, Hs; simpl; split; auto; lia.
  - cbn [probeLoop]. unfold tryAttempt.
    assert (Hcatch : forall err r,
               Probe.body r = "" -> Probe.serverHeader r = "" ->
               probeOutcomeOk
                 (let (r', returns) := catchAttempt scheme err r in
                  if returns then r' else probeLoop net rest subdomain r')).
    { intros err r Hrb Hrs. unfold catchAttempt.
      destruct err as [name message|].
      - destruct (String.eqb name "AbortError").
        + unfold probeOutcomeOk. simpl. rewrite Hrb, Hrs. simpl. split; auto; lia.
        + destruct (String.eqb scheme "http").
          * unfold probeOutcomeOk. simpl. rewrite Hrb, Hrs. simpl. split; auto; lia.
          * apply IH; assumption.
      - destruct (String.eqb scheme "http").
        + unfold probeOutcomeOk. rewrite Hrb, Hrs. simpl. split; auto; lia.
        + apply IH; assumption. }
    destruct (fetch net (scheme ++ "://" ++ subdomain)) as [err|resp].
    + apply Hcatch; assumption.
    + destruct (Response.text resp) as [err|text].
      * apply Hcatch; assumption.
      * unfold probeOutcomeOk. simpl. split; [|congruence].
        apply substring_prefix_length.
Qed.

(** Whatever the two requests do, the probe returns a body of at most 50,000
    characters and one of the three error kinds; and with an error kind that
    is not empty, the body and the server header are empty. *)
Theorem httpProbe_outcome_bounds :
  forall (net : Network) (subdomain : string),
    let result := httpProbe net subdomain in
    (N.of_nat (String.length (Probe.body result)) <= 50000)%N
    /\ In (Probe.error result) ERROR_KINDS
    /\ (Probe.error result <> "" ->
        Probe.body result = "" /\ Probe.serverHeader result = "").
Proof.
  intros net subdomain result.
  destruct (@probeLoop_outcome net ["https"; "http"] subdomain
              (Probe.mk 0 "" "" "") eq_refl eq_refl) as [Hlen Herr].
  fold (httpProbe net subdomain) in Hlen, Herr. fold result in Hlen, Herr.
  split; [|split; [apply httpProbe_error_kinds | exact Herr]].
  unfold BODY_LIMIT in Hlen. lia.
Qed.

(** When [fetch] rejects both requests with [Error] objects, the probe ends
    with status 0 and an empty body: on "Timeout" when the https request was
    aborted (the http request is then not made) or the http request was, and
    on "Connection Failed" otherwise. *)
Theorem httpProbe_both_requests_rejected :
  forall (net : Network) (subdomain n1 m1 n2 m2 : string),
    fetch net ("https://" ++ subdomain) = inl (ErrorObject n1 m1) ->
    fetch net ("http://" ++ subdomain) = inl (ErrorObject n2 m2) ->
    httpProbe net subdomain =
    Probe.mk 0 ""
      (if String.eqb n1 "AbortError" || String.eqb n2 "AbortError"
       then "Timeout" else "Connection Failed") "".
Proof.
  intros net subdomain n1 m1 n2 m2 H1 H2.
  destruct (String.eqb n1 "AbortError") eqn:Hn1.
  - apply String.eqb_eq in Hn1. subst n1.
    exact (@httpProbe_https_timeout net subdomain m1 H1).
  - apply String.eqb_neq in Hn1.
    exact (@httpProbe_both_rejected net subdomain n1 m1 n2 m2 H1 Hn1 H2).
Qed.

Lemma httpProbe_both_requests_rejected_witness :
  httpProbe Sample.noSuchDomain "retired.example.com"
  = Probe.mk 0 "" "Connection Failed" "".
Proof.
  exact (@httpProbe_both_requests_rejected Sample.noSuchDomain
           "retired.example.com" "TypeError" "fetch failed"
           "TypeError" "fetch failed" eq_refl eq_refl).
Defined.

(** When the https request is rejected by anything but a timeout and the
    http request is answered with a readable body, the probe reports the http
    response: its status, the first 50,000 characters of its body, its
    server header, and no error. *)
Theorem httpProbe_falls_back_to_http :
  forall (net : Network) (subdomain : string) (err : Thrown)
         (resp : Response.t) (text : string),
    fetch net ("https://" ++ subdomain) = inl err ->
    isAbort err = false ->
    fetch net ("http://" ++ subdomain) = inr resp ->
    Response.text resp = inr text ->
    httpProbe net subdomain =
    Probe.mk (Response.status resp) (substring 0 (N.to_nat 50000) text) ""
      (match Response.server resp with Some h => h | None => "" end).
Proof.
  intros net subdomain err resp text H1 Ha H2 Ht.
  rewrite (@httpProbe_https_rejected net subdomain err H1 Ha), H2, Ht.
  unfold fetched, sliceBody, BODY_LIMIT.
  destruct (Response.server resp) as [[|c h]|]; reflexivity.
Qed.

Lemma httpProbe_falls_back_to_http_witness :
  let net :=
    mkNetwork (fun _ _ => inr (DnsReply.mk 3 None))
      (fun url =>
         if JS.startsWith url "https://" then inl Sample.fetchFailed
         else inr (Response.mk 404 (Some "GitHub.com")
                     (inr "There isn't a GitHub Pages site here.")))
      Sample.timestamp in
  httpProbe net "docs.example.com"
  = Probe.mk 404 "There isn't a GitHub Pages site here." "" "GitHub.com".
Proof.
  intros net.
  exact (@httpProbe_falls_back_to_http net "docs.example.com" Sample.fetchFailed
           (Response.mk 404 (Some "GitHub.com")
              (inr "There isn't a GitHub Pages site here."))
           "There isn't a GitHub Pages site here."
           eq_refl eq_refl eq_refl eq_refl).
Defined.

(** ** What parsing produces *)

Section ParsedCharacters.

Local Abbreviation chars := list_ascii_of_string.

Lemma includes_char (s : string) (c : ascii) :
  JS.includes s (String c EmptyString) = true -> In c (chars s).
Proof.
  induction s as [|a s IH]; cbn [JS.includes]; rewrite orb_true_iff.
  - intros [H|H]; discriminate.
  - intros [H|H].
    + unfold JS.startsWith in H. simpl in H.
      destruct (ascii_dec c a) as [->|]; [now left | discriminate].
    + right. now apply IH.
Qed.

Lemma trimStart_chars (s : string) (c : ascii) :
  In c (chars (trimStart s)) -> In c (chars s).
Proof.
  induction s as [|a s IH]; simpl; [tauto|].
  destruct (isWhiteSpace a); simpl; tauto.
Qed.

Lemma trimEnd_chars (s : string) (c : ascii) :
  In c (chars (trimEnd s)) -> In c (chars s).
Proof.
  induction s as [|a s IH]; simpl; [tauto|].
  destruct (trimEnd s) as [|k kept].
  - destruct (isWhiteSpace a); simpl; tauto.
  - simpl in *. tauto.
Qed.

Lemma stripTrailingQuote_chars (s : string) (c : ascii) :
  In c (chars (stripTrailingQuote s)) -> In c (chars s).
Proof.
  induction s as [|a s IH]; simpl; [tauto|].
  destruct s as [|b s].
  - destruct (isQuote a); simpl; tauto.
  - cbn [chars In] in *. tauto.
Qed.

Lemma stripTrailing_chars (x : ascii) (s : string) (c : ascii) :
  In c (chars (JS.stripTrailing x s)) -> In c (chars s).
Proof.
  induction s as [|a s IH]; simpl; [tauto|].
  destruct s as [|b s].
  - destruct (Ascii.eqb a x); simpl; tauto.
  - cbn [chars In] in *. tauto.
Qed.

Lemma stripPrefix_chars (p s rest : string) (c : ascii) :
  JS.stripPrefix p s = Some rest -> In c (chars rest) -> In c (chars s).
Proof.
  revert s. induction p as [|a p IH]; intros s; simpl.
  - now intros [= <-].
  - destruct s as [|b s]; [discriminate|].
    destruct (Ascii.eqb a b); [|discriminate].
    intros H Hin. right. exact (IH s H Hin).
Qed.

Lemma stripProtocol_chars (s : string) (c : ascii) :
  In c (chars (stripProtocol s)) -> In c (chars s).
Proof.
  unfold stripProtocol.
  destruct (JS.stripPrefix "http://" s) as [rest|] eqn:H1.
  - exact (@stripPrefix_chars _ _ _ c H1).
  - destruct (JS.stripPrefix "https://" s) as [rest|] eqn:H2; [|tauto].
    exact (@stripPrefix_chars _ _ _ c H2).
Qed.

Lemma stripQuotes_chars (s : string) (c : ascii) :
  In c (chars (stripQuotes s)) -> In c (chars s).
Proof.
  destruct s as [|a s]; [simpl; tauto|]. unfold stripQuotes.
  destruct (isQuote a).
  - intros H. right. now apply stripTrailingQuote_chars.
  - apply stripTrailingQuote_chars.
Qed.

Lemma firstColumn_chars (line : string) (c : ascii) :
  In c (chars (firstColumn line)) -> In c (chars line) /\ c <> ","%char.
Proof.
  induction line as [|a line IH]; simpl; [tauto|].
  destruct (Ascii.eqb a ",") eqn:Ha; simpl; [tauto|].
  apply Ascii.eqb_neq in Ha.
  intros [<-|H]; [split; [now left | exact Ha]|].
  destruct (IH H). split; [now right | assumption].
Qed.

Lemma parseLine_chars (line host : string) (c : ascii) :
  parseLine line = Some host -> In c (chars host) ->
  In c (chars line) /\ c <> ","%char.
Proof.
  unfold parseLine.
  destruct (JS.truthy _ && JS.includes _ "."); [|discriminate].
  intros [= <-] H.
  apply stripTrailing_chars, stripProtocol_chars, stripQuotes_chars in H.
  unfold trim in H. apply trimEnd_chars, trimStart_chars in H.
  now apply firstColumn_chars.
Qed.

Lemma splitLines_no_line_feed (text line : string) :
  In line (splitLines text) -> ~ In LF (chars line).
Proof.
  revert line. induction text as [|c text IH]; intros line; simpl.
  - intros [<-|[]]. simpl. tauto.
  - destruct (Ascii.eqb c LF) eqn:Hc.
    + intros [<-|H]; [simpl; tauto | now apply IH].
    + destruct (Ascii.eqb c CR && JS.startsWith text (String LF "")).
      * apply IH.
      * apply Ascii.eqb_neq in Hc. unfold consHead.
        destruct (splitLines text) as [|l ls].
        -- intros [<-|[]]. simpl. intros [H|[]]. congruence.
        -- intros [<-|H].
           ++ simpl. intros [H|H]; [congruence|].
              exact (IH l (or_introl eq_refl) H).
           ++ apply IH. now right.
Qed.

End ParsedCharacters.

(** Every hostname that parsing produces is not empty, contains a dot, and
    contains neither a comma nor a line feed. *)
Theorem parseDomainsFromText_entries :
  forall (text host : string),
    In host (parseDomainsFromText text) ->
    host <> ""
    /\ JS.includes host "." = true
    /\ JS.includes host "," = false
    /\ JS.includes host Sample.newline = false.
Proof.
  intros text host Hin.
  destruct (parseDomainsFromText_targets _ _ Hin) as [Hne Hdot].
  split; [exact Hne|]. split; [exact Hdot|].
  unfold parseDomainsFromText in Hin. rewrite setValues_In in Hin.
  destruct Hin as [Hin _]. apply parseLoop_In in Hin.
  destruct Hin as (line & Hline & Hp).
  split.
  - destruct (JS.includes host ",") eqn:Hc; [|reflexivity].
    apply includes_char in Hc.
    destruct (@parseLine_chars _ _ _ Hp Hc) as [_ Hneq]. congruence.
  - destruct (JS.includes host Sample.newline) eqn:Hc; [|reflexivity].
    apply includes_char in Hc.
    destruct (@parseLine_chars _ _ _ Hp Hc) as [Hl _].
    exfalso. exact (@splitLines_no_line_feed _ _ Hline Hl).
Qed.

Lemma parseDomainsFromText_entries_witness :
  In "foo.example.com" (parseDomainsFromText Sample.headerText)
  /\ JS.includes "foo.example.com" "," = false.
Proof.
  assert (Hin : In "foo.example.com" (parseDomainsFromText Sample.headerText)).
  { vm_compute. now left. }
  split; [exact Hin|].
  exact (proj1 (proj2 (proj2 (@parseDomainsFromText_entries Sample.headerText
                                "foo.example.com" Hin)))).
Defined.

Lemma char_includes (s : string) (c : ascii) :
  In c (list_ascii_of_string s) -> JS.includes s (String c EmptyString) = true.
Proof.
  induction s as [|a s IH]; simpl; [tauto|].
  intros [->|H].
  - unfold JS.startsWith. simpl.
    destruct (ascii_dec c c); [|contradiction]. now destruct s.
  - rewrite (IH H). apply orb_true_r.
Qed.

Lemma no_char (s : string) (c : ascii) :
  JS.includes s (String c EmptyString) = false -> ~ In c (list_ascii_of_string s).
Proof. intros H Hin. apply char_includes in Hin. congruence. Qed.

Lemma prefix_empty (s : string) : prefix "" s = true.
Proof. now destruct s. Qed.

Lemma startsWith_line_feed_app (before rest : string) :
  JS.startsWith (before ++ String LF rest) (String LF "")
  = JS.startsWith (before ++ String LF "") (String LF "").
Proof.
  unfold JS.startsWith. destruct before as [|d before]; cbn [append prefix];
    destruct (ascii_dec LF _); rewrite ?prefix_empty; reflexivity.
Qed.

(** The lines of a text that a line feed ends do not depend on what follows
    the line feed. *)
Lemma splitLines_before_line_feed (before : string) :
  exists lines,
    lines <> [] /\
    forall rest, splitLines (before ++ String LF rest) = (lines ++ splitLines rest)%list.
Proof.
  induction before as [|c before (lines & Hne & IH)].
  - exists [""]. split; [discriminate|]. reflexivity.
  - cbn [append splitLines].
    destruct (Ascii.eqb c LF).
    + exists ("" :: lines). split; [discriminate|]. intros rest. now rewrite IH.
    + destruct (Ascii.eqb c CR
                && JS.startsWith (before ++ String LF "") (String LF "")) eqn:Hb.
      * exists lines. split; [exact Hne|]. intros rest.
        rewrite startsWith_line_feed_app, Hb. apply IH.
      * exists (consHead c lines). split.
        -- destruct lines; discriminate.
        -- intros rest. rewrite startsWith_line_feed_app, Hb, (IH rest).
           destruct lines; [contradiction | reflexivity].
Qed.

Lemma startsWith_char (c d : ascii) (s : string) :
  JS.startsWith (String d s) (String c "") = true <-> c = d.
Proof.
  unfold JS.startsWith. cbn [prefix].
  destruct (ascii_dec c d); rewrite ?prefix_empty; split; congruence.
Qed.

Lemma splitLines_single (line : string) :
  ~ In LF (list_ascii_of_string line) -> splitLines line = [line].
Proof.
  induction line as [|c line IH]; simpl; [reflexivity|].
  intros Hno. destruct (Ascii.eqb c LF) eqn:Hc.
  - apply Ascii.eqb_eq in Hc. tauto.
  - assert (Hs : JS.startsWith line (String LF "") = false).
    { destruct line as [|d line]; [reflexivity|].
      destruct (JS.startsWith (String d line) (String LF "")) eqn:Hs;
        [|reflexivity].
      apply startsWith_char in Hs. subst d. simpl in Hno. tauto. }
    rewrite Hs, andb_false_r, IH by tauto. reflexivity.
Qed.


(** Once past the first line, or without a header, the loop pushes the value
    of each line. *)
Lemma parseLoop_values (lines : list string) (i : nat) (skipHeader : bool) :
  Nat.eqb i 0 && skipHeader = false ->
  parseLoop i skipHeader lines
  = flat_map (fun line => match parseLine line with
                          | Some val => [val]
                          | None => []
                          end) lines.
Proof.
  revert i. induction lines as [|line rest IH]; intros i Hi; simpl; [reflexivity|].
  rewrite Hi. rewrite (IH (S i)) by reflexivity.
  now destruct (parseLine line).
Qed.

Lemma parseLoop_app (lines more : list string) (i : nat) (skipHeader : bool) :
  lines <> [] ->
  parseLoop i skipHeader (lines ++ more)
  = (parseLoop i skipHeader lines ++ parseLoop 1 false more)%list.
Proof.
  revert i. induction lines as [|line rest IH]; intros i Hne; [contradiction|].
  assert (Hrest : forall j, parseLoop (S j) skipHeader (rest ++ more)
                            = (parseLoop (S j) skipHeader rest
                               ++ parseLoop 1 false more)%list).
  { intros j. destruct rest as [|l2 rest'].
    - simpl. now rewrite !parseLoop_values by reflexivity.
    - apply IH. discriminate. }
  cbn [app parseLoop]. rewrite Hrest.
  destruct (Nat.eqb i 0 && skipHeader); [reflexivity|].
  now destruct (parseLine line).
Qed.

Lemma firstColumn_stops_at_comma (col extra : string) :
  ~ In ","%char (list_ascii_of_string col) ->
  firstColumn (col ++ String "," extra) = col /\ firstColumn col = col.
Proof.
  induction col as [|c col IH]; simpl; [auto|].
  intros Hno. destruct (Ascii.eqb c ",") eqn:Hc.
  - apply Ascii.eqb_eq in Hc. subst c. tauto.
  - destruct IH as [H1 H2]; [tauto|]. now rewrite H1, H2.
Qed.

Lemma chars_app_in (a b : string) (c : ascii) :
  In c (list_ascii_of_string (a ++ b)) ->
  In c (list_ascii_of_string a) \/ In c (list_ascii_of_string b).
Proof. induction a as [|d a IH]; simpl; tauto. Qed.

Lemma hd_app_nonempty (lines more : list string) :
  lines <> [] -> hd "" (lines ++ more) = hd "" lines.
Proof. destruct lines; [contradiction | reflexivity]. Qed.

Lemma append_assoc (a b c : string) : (a ++ b) ++ c = a ++ b ++ c.
Proof. induction a as [|d a IH]; simpl; [reflexivity | now rewrite IH]. Qed.

Lemma includes_subdomain (s : string) :
  JS.includes s "subdomain" = true -> JS.includes s "domain" = true.
Proof.
  intros H. apply includes_split in H. destruct H as (pre & post & ->).
  apply includes_split. exists (pre ++ "sub"), post.
  now rewrite append_assoc.
Qed.

Lemma splitLines_not_empty (text : string) : splitLines text <> [].
Proof.
  induction text as [|c text IH]; simpl; [discriminate|].
  destruct (Ascii.eqb c LF); [discriminate|].
  destruct (Ascii.eqb c CR && JS.startsWith text (String LF "")); [exact IH|].
  unfold consHead. destruct (splitLines text); discriminate.
Qed.

Lemma startsWith_line_feed_head (d : ascii) (s s' : string) :
  JS.startsWith (String d s) (String LF "")
  = JS.startsWith (String d s') (String LF "").
Proof.
  destruct (JS.startsWith (String d s) (String LF "")) eqn:H1;
    destruct (JS.startsWith (String d s') (String LF "")) eqn:H2; try reflexivity.
  - apply startsWith_char in H1. apply (startsWith_char LF d s') in H1. congruence.
  - apply startsWith_char in H2. apply (startsWith_char LF d s) in H2. congruence.
Qed.

(** The lines that follow the first line of a text stay the same when text
    without a line feed is put in front of it. *)
Lemma splitLines_after_prefix (s after : string) :
  ~ In LF (list_ascii_of_string s) ->
  exists line, splitLines (s ++ after) = line :: tl (splitLines after).
Proof.
  induction s as [|c s IH]; intros Hno.
  - pose proof (splitLines_not_empty after) as Hne. cbn [append].
    destruct (splitLines after) as [|l0 more]; [contradiction|]. now exists l0.
  - cbn [append splitLines]. simpl in Hno.
    destruct (Ascii.eqb c LF) eqn:Hc; [apply Ascii.eqb_eq in Hc; tauto|].
    destruct IH as [line IH]; [tauto|]. rewrite IH.
    destruct (Ascii.eqb c CR && JS.startsWith (s ++ after) (String LF ""));
      [now exists line | now exists (String c line)].
Qed.

Lemma splitLines_after_comma (extra after : string) :
  ~ In LF (list_ascii_of_string extra) ->
  exists line,
    splitLines (String "," (extra ++ after))
    = String "," line :: tl (splitLines after).
Proof.
  intros Hno. destruct (@splitLines_after_prefix extra after Hno) as [line H].
  exists line. cbn [splitLines]. rewrite H. reflexivity.
Qed.

Lemma Forall2_same_lines (lines : list string) :
  Forall2 (fun a b => firstColumn a = firstColumn b) lines lines.
Proof. induction lines; constructor; auto. Qed.

(** Two texts that differ in what stands between a comma and the end of its
    line have, line by line, the same first columns. *)
Lemma splitLines_same_first_columns (before extra1 extra2 after : string) :
  ~ In LF (list_ascii_of_string extra1) ->
  ~ In LF (list_ascii_of_string extra2) ->
  Forall2 (fun a b => firstColumn a = firstColumn b)
    (splitLines (before ++ String "," (extra1 ++ after)))
    (splitLines (before ++ String "," (extra2 ++ after))).
Proof.
  intros H1 H2. induction before as [|c before IH].
  - cbn [append].
    destruct (@splitLines_after_comma extra1 after H1) as [l1 ->].
    destruct (@splitLines_after_comma extra2 after H2) as [l2 ->].
    constructor; [reflexivity | apply Forall2_same_lines].
  - cbn [append splitLines].
    destruct (Ascii.eqb c LF); [constructor; [reflexivity | exact IH]|].
    assert (Hs : JS.startsWith (before ++ String "," (extra1 ++ after)) (String LF "")
                 = JS.startsWith (before ++ String "," (extra2 ++ after)) (String LF "")).
    { destruct before; cbn [append]; apply startsWith_line_feed_head. }
    rewrite Hs.
    destruct (Ascii.eqb c CR
              && JS.startsWith (before ++ String "," (extra2 ++ after)) (String LF ""));
      [exact IH|].
    inversion IH as [|a b la lb Hab Hrest]; cbn [consHead].
    + constructor; [reflexivity | constructor].
    + constructor; [|exact Hrest]. cbn [firstColumn].
      destruct (Ascii.eqb c ","); [reflexivity | now rewrite Hab].
Qed.

Lemma parseLine_first_column (a b : string) :
  firstColumn a = firstColumn b -> parseLine a = parseLine b.
Proof. intros H. unfold parseLine. now rewrite H. Qed.

Lemma parseLoop_same_first_columns (lines1 lines2 : list string) :
  Forall2 (fun a b => firstColumn a = firstColumn b) lines1 lines2 ->
  forall (i : nat) (skipHeader : bool),
    parseLoop i skipHeader lines1 = parseLoop i skipHeader lines2.
Proof.
  induction 1 as [|a b la lb Hab _ IH]; intros i skipHeader; [reflexivity|].
  cbn [parseLoop]. now rewrite (@parseLine_first_column a b Hab), !IH.
Qed.

(** The first line of a text does not depend on what follows its first line
    feed. *)
Lemma first_line_before_line_feed (head tail1 tail2 : string) :
  JS.includes head Sample.newline = true ->
  hd "" (splitLines (head ++ tail1)) = hd "" (splitLines (head ++ tail2)).
Proof.
  intros H. apply includes_split in H. destruct H as (pre & post & ->).
  destruct (splitLines_before_line_feed pre) as (lines & Hne & Hsplit).
  rewrite !append_assoc. change (Sample.newline ++ ?x) with (String LF x).
  cbn [append]. rewrite !Hsplit. now rewrite !hd_app_nonempty.
Qed.

(** On any line but the first, what stands between a comma and the end of
    the line never reaches the output: any text without a line feed can take
    its place, on the last line as on any line before it. *)
Theorem only_first_column_counts :
  forall (head extra1 extra2 rest : string),
    JS.includes head Sample.newline = true ->
    JS.includes extra1 Sample.newline = false ->
    JS.includes extra2 Sample.newline = false ->
    parseDomainsFromText (head ++ "," ++ extra1 ++ rest)
    = parseDomainsFromText (head ++ "," ++ extra2 ++ rest).
Proof.
  intros head extra1 extra2 rest Hhead H1 H2.
  apply no_char in H1, H2.
  unfold parseDomainsFromText.
  rewrite (@first_line_before_line_feed head ("," ++ extra1 ++ rest) ("," ++ extra2 ++ rest) Hhead).
  change ("," ++ ?x) with (String "," x).
  now rewrite (@parseLoop_same_first_columns _ _
                 (@splitLines_same_first_columns head extra1 extra2 rest H1 H2)).
Qed.

Lemma only_first_column_counts_witness :
  parseDomainsFromText
    (("Subdomain,Owner" ++ Sample.newline ++ "shop.example.com")
     ++ "," ++ "web team"
     ++ (Sample.newline ++ "mail.example.com,ops"))
  = ["shop.example.com"; "mail.example.com"].
Proof.
  rewrite (@only_first_column_counts
             ("Subdomain,Owner" ++ Sample.newline ++ "shop.example.com")
             "web team" "" (Sample.newline ++ "mail.example.com,ops"));
    reflexivity.
Defined.



(** * Properties of the dashboard and of the export *)

(** ** Counting by risk level *)

Lemma riskLevelEqb_eq (a b : RiskLevel) : riskLevelEqb a b = true <-> a = b.
Proof. destruct a, b; simpl; split; congruence. Qed.

Lemma riskLevelEqb_refl (a : RiskLevel) : riskLevelEqb a a = true.
Proof. now destruct a. Qed.

Lemma fold_counts (results : list ScanResult) (counts : RiskCounts) (level : RiskLevel) :
  fold_left (fun c r => increment c (riskLevel r)) results counts level
  = (counts level + cardCount results level)%nat.
Proof.
  revert counts. induction results as [|r rest IH]; intros counts; simpl.
  - unfold cardCount. simpl. lia.
  - rewrite IH. unfold cardCount, increment. simpl.
    destruct (riskLevel r), level; simpl; lia.
Qed.

Lemma donutCounts_cardCount (results : list ScanResult) (level : RiskLevel) :
  donutCounts results level = cardCount results level.
Proof. unfold donutCounts. now rewrite fold_counts. Qed.

Lemma cardCount_total (results : list ScanResult) :
  (cardCount results CRITICAL + cardCount results HIGH + cardCount results MEDIUM
   + cardCount results INFO + cardCount results LOW)%nat
  = List.length results.
Proof.
  unfold cardCount. induction results as [|r rest IH]; simpl; [reflexivity|].
  destruct (riskLevel r); simpl; lia.
Qed.

Lemma list_sum_positive_filter (T : Type) (f : T -> nat) (l : list T) :
  list_sum (map f (filter (fun x => (0 <? f x)%nat) l)) = list_sum (map f l).
Proof.
  induction l as [|x l IH]; simpl; [reflexivity|].
  destruct (0 <? f x)%nat eqn:Hx; simpl; rewrite IH; [reflexivity|].
  apply Nat.ltb_ge in Hx. lia.
Qed.

(** The slices of the donut account for every result once: their values add
    up to the number of results, each value is positive and is the number of
    results of the slice's level, and the levels are those that occur, in the
    order CRITICAL, HIGH, MEDIUM, INFO, LOW. *)
Theorem donut_accounts_for_every_result :
  forall results : list ScanResult,
    let data := donutData results in
    list_sum (map DonutSlice.value data) = List.length results
    /\ (forall slice, In slice data ->
          (0 < DonutSlice.value slice)%nat
          /\ DonutSlice.value slice
             = List.length (filter (fun r => riskLevelEqb (riskLevel r)
                                               (DonutSlice.level slice)) results)
          /\ DonutSlice.name slice
             = RiskConfig.label (RISK_CONFIG (DonutSlice.level slice)))
    /\ map DonutSlice.level data
       = filter (fun level =>
                   existsb (fun r => riskLevelEqb (riskLevel r) level) results)
           RISK_ORDER.
Proof.
  intros results data. subst data. unfold donutData. cbv zeta.
  split; [|split].
  - rewrite map_map. cbn [DonutSlice.value].
    rewrite (list_sum_positive_filter (donutCounts results)).
    unfold RISK_ORDER. simpl. rewrite !donutCounts_cardCount.
    pose proof (cardCount_total results). lia.
  - intros slice Hin. apply in_map_iff in Hin.
    destruct Hin as (level & <- & Hin). apply filter_In in Hin.
    destruct Hin as [_ Hpos]. apply Nat.ltb_lt in Hpos. cbn.
    rewrite donutCounts_cardCount in *. auto.
  - rewrite map_map. cbn [DonutSlice.level]. rewrite map_id.
    apply filter_ext. intros level. rewrite donutCounts_cardCount.
    unfold cardCount. induction results as [|r rest IH]; [reflexivity|].
    simpl. destruct (riskLevelEqb (riskLevel r) level); simpl; [reflexivity|].
    exact IH.
Qed.

(** The five level cards add up to the total card, and each card shows the
    count that the donut uses for that level. *)
Theorem stats_cards_add_up :
  forall results : list ScanResult,
    let counts := statsCounts results in
    StatsCounts.TOTAL counts
    = (StatsCounts.CRITICAL counts + StatsCounts.HIGH counts
       + StatsCounts.MEDIUM counts + StatsCounts.INFO counts
       + StatsCounts.LOW counts)%nat
    /\ StatsCounts.CRITICAL counts = donutCounts results CRITICAL
    /\ StatsCounts.HIGH counts = donutCounts results HIGH
    /\ StatsCounts.MEDIUM counts = donutCounts results MEDIUM
    /\ StatsCounts.INFO counts = donutCounts results INFO
    /\ StatsCounts.LOW counts = donutCounts results LOW.
Proof.
  intros results counts. subst counts. unfold statsCounts. simpl.
  rewrite !donutCounts_cardCount. pose proof (cardCount_total results).
  repeat split; lia.
Qed.

(** ** Selections and filter sets *)

Section ToggleFacts.

Variable T : Type.
Variable eqb : T -> T -> bool.
Hypothesis eqb_eq : forall x y, eqb x y = true <-> x = y.

Lemma eqb_same (x : T) : eqb x x = true.
Proof. now apply eqb_eq. Qed.

Lemma eqb_differ (x y : T) : x <> y -> eqb x y = false.
Proof.
  intros H. destruct (eqb x y) eqn:E; [|reflexivity]. apply eqb_eq in E. tauto.
Qed.

Lemma setHas_In (s : list T) (x : T) : setHas eqb s x = true <-> In x s.
Proof.
  unfold setHas. rewrite existsb_exists. split.
  - intros (y & Hy & E). apply eqb_eq in E. now subst.
  - intros H. exists x. split; [exact H | apply eqb_same].
Qed.

Lemma toggle_In (x y : T) (prev : list T) :
  In y (toggle eqb x prev) <-> (if eqb x y then ~ In x prev else In y prev).
Proof.
  unfold toggle, setAdd, setDelete.
  destruct (setHas eqb prev x) eqn:Hx.
  - apply setHas_In in Hx. rewrite filter_In, negb_true_iff.
    destruct (eqb x y) eqn:E.
    + apply eqb_eq in E. subst y. split; [intros [_ H]; discriminate | tauto].
    + tauto.
  - assert (Hnx : ~ In x prev).
    { intros H. apply setHas_In in H. congruence. }
    rewrite in_app_iff. simpl. destruct (eqb x y) eqn:E.
    + apply eqb_eq in E. subst y. tauto.
    + split; [intros [H|[H|[]]]; [exact H|] | tauto].
      subst y. rewrite eqb_same in E. discriminate.
Qed.

Lemma toggle_NoDup (x : T) (prev : list T) :
  NoDup prev -> NoDup (toggle eqb x prev).
Proof.
  intros Hnd. unfold toggle, setAdd, setDelete.
  destruct (setHas eqb prev x) eqn:Hx.
  - now apply NoDup_filter.
  - apply NoDup_app; [exact Hnd | constructor; [tauto | constructor] |].
    intros y Hy [<-|[]]. apply setHas_In in Hy. congruence.
Qed.

End ToggleFacts.

(** Toggling a value in a filter set or in the row selection flips the
    membership of that value and of no other, keeps the set free of
    duplicates, and done twice gives back a set with the same members. *)
Theorem toggle_flips_one_member :
  forall (T : Type) (eqb : T -> T -> bool),
    (forall x y, eqb x y = true <-> x = y) ->
    forall (x : T) (prev : list T),
      (In x (toggle eqb x prev) <-> ~ In x prev)
      /\ (forall y, y <> x -> (In y (toggle eqb x prev) <-> In y prev))
      /\ (NoDup prev -> NoDup (toggle eqb x prev))
      /\ (forall y, In y (toggle eqb x (toggle eqb x prev)) <-> In y prev).
Proof.
  intros T eqb Heq x prev.
  assert (Hflip : In x (toggle eqb x prev) <-> ~ In x prev).
  { rewrite (@toggle_In T eqb Heq). now rewrite (@eqb_same T eqb Heq). }
  assert (Hother : forall s y, y <> x -> (In y (toggle eqb x s) <-> In y s)).
  { intros s y Hne. rewrite (@toggle_In T eqb Heq).
    rewrite (@eqb_differ T eqb Heq); [tauto | congruence]. }
  split; [exact Hflip|]. split; [exact (Hother prev)|].
  split; [apply (@toggle_NoDup T eqb Heq)|].
  intros y. rewrite (@toggle_In T eqb Heq). destruct (eqb x y) eqn:E.
  - apply Heq in E. subst y. rewrite Hflip.
    destruct (setHas eqb prev x) eqn:Hx.
    + apply (@setHas_In T eqb Heq) in Hx. tauto.
    + assert (~ In x prev); [|tauto].
      intros H. apply (@setHas_In T eqb Heq) in H. congruence.
  - apply Hother. intros ->. rewrite (@eqb_same T eqb Heq) in E. discriminate.
Qed.

Lemma toggle_flips_one_member_witness :
  In "HIGH" (toggle String.eqb "HIGH" ["CRITICAL"])
  /\ ~ In "HIGH" (toggle String.eqb "HIGH" (toggle String.eqb "HIGH" ["CRITICAL"])).
Proof.
  destruct (@toggle_flips_one_member string String.eqb String.eqb_eq
              "HIGH" ["CRITICAL"]) as (H1 & _ & _ & H4).
  split.
  - apply H1. simpl. intuition discriminate.
  - rewrite H4. simpl. intuition discriminate.
Defined.

Lemma setValues_NoDup_same (domains seen : list string) :
  NoDup domains -> (forall d, In d domains -> ~ In d seen) ->
  setValues seen domains = domains.
Proof.
  revert seen. induction domains as [|d rest IH]; intros seen Hnd Hs; simpl;
    [reflexivity|].
  inversion Hnd as [|? ? Hd Hrest]; subst.
  rewrite (proj2 (arrayIncludes_not_In seen d)) by (apply Hs; now left).
  f_equal. apply IH; [exact Hrest|].
  intros x Hx [<-|Hin]; [tauto|]. apply (Hs x); [now right | exact Hin].
Qed.

(** With rows of distinct subdomains and a selection taken from them, the
    select-all box clears the selection when every row is selected and there
    is a row, and selects every row, in row order, otherwise. *)
Theorem handleToggleAll_selects_or_clears :
  forall (results : list ScanResult) (prev : list string),
    NoDup (map subdomain results) ->
    NoDup prev ->
    incl prev (map subdomain results) ->
    (incl (map subdomain results) prev -> results <> [] ->
     handleToggleAll results prev = [])
    /\ (~ incl (map subdomain results) prev \/ results = [] ->
        handleToggleAll results prev = map subdomain results).
Proof.
  intros results prev Hrows Hprev Hincl.
  assert (Hlen : List.length (map subdomain results) = List.length results)
    by apply length_map.
  unfold handleToggleAll. split.
  - intros Hall Hne.
    assert (Heq : List.length prev = List.length results).
    { rewrite <- Hlen. apply Nat.le_antisymm; now apply NoDup_incl_length. }
    rewrite Heq, Nat.eqb_refl. destruct results; [contradiction | reflexivity].
  - intros Hcase.
    assert (Hb : Nat.eqb (List.length prev) (List.length results)
                 && (0 <? List.length results)%nat = false).
    { destruct Hcase as [Hmiss| ->]; [|apply andb_false_r].
      apply andb_false_iff. left. apply Nat.eqb_neq. intros Heq. apply Hmiss.
      apply NoDup_length_incl; [exact Hprev | | exact Hincl].
      rewrite Hlen. lia. }
    rewrite Hb. apply setValues_NoDup_same; [exact Hrows | tauto].
Qed.

Lemma handleToggleAll_selects_or_clears_witness :
  let rows :=
    [ scanSubdomain Sample.fingerprints Sample.providers Sample.noSuchDomain
        "gone.github.io";
      scanSubdomain Sample.fingerprints Sample.providers Sample.noSuchDomain
        "retired.example.com" ] in
  handleToggleAll rows ["gone.github.io"] = ["gone.github.io"; "retired.example.com"]
  /\ handleToggleAll rows ["gone.github.io"; "retired.example.com"] = [].
Proof.
  intros rows.
  assert (Hrows : NoDup (map subdomain rows)).
  { simpl. repeat constructor; simpl; intuition discriminate. }
  split.
  - apply (proj2 (@handleToggleAll_selects_or_clears rows ["gone.github.io"] Hrows
                    ltac:(repeat constructor; simpl; tauto)
                    ltac:(intros x [<-|[]]; simpl; tauto))).
    left. intros H. specialize (H "retired.example.com").
    simpl in H. intuition discriminate.
  - apply (proj1 (@handleToggleAll_selects_or_clears rows
                    ["gone.github.io"; "retired.example.com"] Hrows
                    ltac:(repeat constructor; simpl; intuition discriminate)
                    ltac:(intros x Hx; exact Hx)));
      [intros x Hx; exact Hx | discriminate].
Defined.

(** ** Sorting *)

Section SortFacts.

Variable T : Type.
Variable cmp : T -> T -> Z.

Lemma insertSorted_perm (x : T) (l : list T) :
  Permutation (insertSorted cmp x l) (x :: l).
Proof.
  induction l as [|y l IH]; simpl; [reflexivity|].
  destruct (cmp x y <=? 0)%Z; [reflexivity|].
  rewrite IH. apply perm_swap.
Qed.

Lemma arraySort_perm (l : list T) : Permutation (arraySort cmp l) l.
Proof.
  induction l as [|x l IH]; simpl; [reflexivity|].
  rewrite insertSorted_perm. now constructor.
Qed.

(** Elements that the comparator never puts in the wrong order with each
    other keep the order they had: the sort is stable. *)
Lemma insertSorted_filter (p : T -> bool) (x : T) (l : list T) :
  (forall y, (cmp x y > 0)%Z -> p x = true -> p y = true -> False) ->
  filter p (insertSorted cmp x l) = filter p (x :: l).
Proof.
  intros Hp. induction l as [|y l IH]; [reflexivity|].
  cbn [insertSorted]. destruct (cmp x y <=? 0)%Z eqn:Hc; [reflexivity|].
  apply Z.leb_gt in Hc. cbn [filter] in *. rewrite IH.
  destruct (p x) eqn:Hx, (p y) eqn:Hy; try reflexivity.
  exfalso. apply (Hp y); auto; lia.
Qed.

Lemma arraySort_filter (p : T -> bool) (l : list T) :
  (forall x y, (cmp x y > 0)%Z -> p x = true -> p y = true -> False) ->
  filter p (arraySort cmp l) = filter p l.
Proof.
  intros Hp. induction l as [|x l IH]; [reflexivity|].
  cbn [arraySort fold_right]. fold (arraySort cmp l).
  rewrite insertSorted_filter by apply Hp.
  cbn [filter]. now rewrite IH.
Qed.

Variable le : T -> T -> Prop.
Hypothesis le_of_cmp : forall x y, (cmp x y <= 0)%Z -> le x y.
Hypothesis le_of_not_cmp : forall x y, (cmp x y > 0)%Z -> le y x.
Hypothesis le_trans : forall x y z, le x y -> le y z -> le x z.

Lemma insertSorted_sorted (x : T) (l : list T) :
  Sorted le l -> Sorted le (insertSorted cmp x l).
Proof.
  induction l as [|y l IH]; intros Hs; simpl.
  - repeat constructor.
  - destruct (cmp x y <=? 0)%Z eqn:Hc.
    + apply Z.leb_le in Hc. constructor; [exact Hs|]. constructor. now apply le_of_cmp.
    + apply Z.leb_gt in Hc. inversion Hs as [|? ? Hl Hhd]; subst.
      constructor; [now apply IH|].
      destruct l as [|z l]; simpl.
      * constructor. apply le_of_not_cmp. lia.
      * destruct (cmp x z <=? 0)%Z.
        -- constructor. apply le_of_not_cmp. lia.
        -- inversion Hhd; subst. now constructor.
Qed.

Lemma arraySort_sorted (l : list T) : StronglySorted le (arraySort cmp l).
Proof.
  apply Sorted_StronglySorted; [exact le_trans|].
  induction l as [|x l IH]; simpl; [constructor|].
  now apply insertSorted_sorted.
Qed.

End SortFacts.

(** ** The evidence table *)

Lemma filterRows_In (results : list ScanResult) (search : string)
      (riskFilters : list RiskLevel) (issueFilters : list string) (r : ScanResult) :
  In r (filterRows results search riskFilters issueFilters) <->
  In r results
  /\ (search = "" \/ matchesSearch (JS.toLowerCase search) r = true)
  /\ (riskFilters = [] \/ In (riskLevel r) riskFilters)
  /\ (issueFilters = [] \/ In (securityIssue r) issueFilters).
Proof.
  unfold filterRows. cbv zeta.
  assert (Hs : forall l, In r (if JS.truthy search
                               then filter (matchesSearch (JS.toLowerCase search)) l
                               else l)
                         <-> In r l /\ (search = "" \/
                                        matchesSearch (JS.toLowerCase search) r = true)).
  { intros l. destruct search as [|c s]; simpl JS.truthy; cbv iota.
    - tauto.
    - rewrite filter_In. intuition discriminate. }
  assert (Hr : forall l, In r (if (0 <? List.length riskFilters)%nat
                               then filter (fun r => setHas riskLevelEqb riskFilters
                                                       (riskLevel r)) l
                               else l)
                         <-> In r l /\ (riskFilters = [] \/ In (riskLevel r) riskFilters)).
  { intros l. destruct riskFilters as [|f fs]; cbn [List.length Nat.ltb Nat.leb].
    - tauto.
    - rewrite filter_In, (@setHas_In RiskLevel riskLevelEqb riskLevelEqb_eq).
      intuition discriminate. }
  assert (Hi : forall l, In r (if (0 <? List.length issueFilters)%nat
                               then filter (fun r => setHas String.eqb issueFilters
                                                       (securityIssue r)) l
                               else l)
                         <-> In r l /\ (issueFilters = [] \/
                                        In (securityIssue r) issueFilters)).
  { intros l. destruct issueFilters as [|f fs]; cbn [List.length Nat.ltb Nat.leb].
    - tauto.
    - rewrite filter_In, (@setHas_In string String.eqb String.eqb_eq).
      intuition discriminate. }
  rewrite Hi, Hr, Hs. tauto.
Qed.

(** The table shows the rows that pass the search box and the two filter
    sets, each as often as it occurs in the results, and no other row; with
    an empty search and empty filter sets it shows every result. This holds
    for every sort key, direction and collation. *)
Theorem evidence_table_shows_matching_rows :
  forall (localeCompare : string -> string -> Z) (results : list ScanResult)
         (search : string) (riskFilters : list RiskLevel)
         (issueFilters : list string) (sortKey : SortKey) (sortDir : SortDir),
    let rows :=
      filtered localeCompare results search riskFilters issueFilters sortKey sortDir in
    Permutation rows (filterRows results search riskFilters issueFilters)
    /\ (forall r,
          In r rows <->
          In r results
          /\ (search = "" \/ matchesSearch (JS.toLowerCase search) r = true)
          /\ (riskFilters = [] \/ In (riskLevel r) riskFilters)
          /\ (issueFilters = [] \/ In (securityIssue r) issueFilters))
    /\ (search = "" -> riskFilters = [] -> issueFilters = [] ->
        Permutation rows results).
Proof.
  intros localeCompare results search riskFilters issueFilters sortKey sortDir rows.
  assert (Hperm : Permutation rows
                    (filterRows results search riskFilters issueFilters)).
  { apply arraySort_perm. }
  split; [exact Hperm|]. split.
  - intros r. rewrite <- filterRows_In. split; apply Permutation_in;
      [exact Hperm | symmetry; exact Hperm].
  - intros -> -> ->. exact Hperm.
Qed.

(** Sorted by risk, ascending: the more severe level comes first, and rows
    of one level stay in the order they have in the results. Descending,
    the order of the levels is reversed, and rows of one level still keep
    their order. *)
Theorem evidence_table_sorted_by_risk :
  forall (localeCompare : string -> string -> Z) (results : list ScanResult)
         (search : string) (riskFilters : list RiskLevel)
         (issueFilters : list string),
    let rank r := RISK_SORT_ORDER (riskLevel r) in
    let shown := filterRows results search riskFilters issueFilters in
    let rows dir :=
      filtered localeCompare results search riskFilters issueFilters KeyRiskLevel dir in
    StronglySorted (fun a b => (rank a <= rank b)%Z) (rows Asc)
    /\ StronglySorted (fun a b => (rank b <= rank a)%Z) (rows Desc)
    /\ (forall dir level,
          filter (fun r => riskLevelEqb (riskLevel r) level) (rows dir)
          = filter (fun r => riskLevelEqb (riskLevel r) level) shown).
Proof.
  intros localeCompare results search riskFilters issueFilters rank shown rows.
  subst rows rank. cbv beta. unfold filtered. split; [|split].
  - apply arraySort_sorted; unfold compareRows; intros; lia.
  - apply arraySort_sorted; unfold compareRows; intros; lia.
  - intros dir level. apply arraySort_filter.
    intros x y Hc Hx Hy. apply riskLevelEqb_eq in Hx, Hy.
    unfold compareRows in Hc. rewrite Hx, Hy in Hc. destruct dir; lia.
Qed.

(** ** The provider chart *)

Lemma length_filter_snoc (f : ScanResult -> bool) (seen : list ScanResult)
      (r : ScanResult) :
  List.length (filter f (seen ++ [r]))
  = (List.length (filter f seen) + if f r then 1 else 0)%nat.
Proof.
  rewrite filter_app, length_app. simpl. now destruct (f r).
Qed.

Lemma barCounts_other (seen : list ScanResult) (r : ScanResult) (e : Bar.t) :
  provider r <> Bar.provider e ->
  barCounts seen e -> barCounts (seen ++ [r]) e.
Proof.
  intros Hne (Hu & Hpos & Hc & Hl). apply String.eqb_neq in Hne.
  split; [exact Hu|]. split; [exact Hpos|]. split.
  - rewrite length_filter_snoc, Hne. lia.
  - intros level. rewrite length_filter_snoc, Hne. simpl. rewrite Hl. lia.
Qed.

Lemma barsHave_In (bars : list Bar.t) (p : string) :
  barsHave bars p = true <-> In p (map Bar.provider bars).
Proof.
  unfold barsHave. rewrite existsb_exists, in_map_iff. split.
  - intros (e & He & Heq). apply String.eqb_eq in Heq. now exists e.
  - intros (e & Heq & He). exists e. split; [exact He|]. now apply String.eqb_eq.
Qed.

Lemma bumpBar_providers (bars : list Bar.t) (p : string) (level : RiskLevel) :
  map Bar.provider (bumpBar bars p level) = map Bar.provider bars.
Proof.
  induction bars as [|e rest IH]; simpl; [reflexivity|].
  destruct (String.eqb (Bar.provider e) p); simpl; [reflexivity | now rewrite IH].
Qed.

Lemma bumpBar_counts (seen : list ScanResult) (r : ScanResult) (bars : list Bar.t) :
  NoDup (map Bar.provider bars) ->
  Forall (barCounts seen) bars ->
  Forall (barCounts (seen ++ [r])) (bumpBar bars (provider r) (riskLevel r)).
Proof.
  induction bars as [|e rest IH]; intros Hnd Hall; simpl; [constructor|].
  inversion Hnd as [|? ? Hnotin Hrest]; subst.
  inversion Hall as [|? ? He Hall']; subst.
  destruct (String.eqb (Bar.provider e) (provider r)) eqn:Hp.
  - apply String.eqb_eq in Hp. constructor.
    + destruct He as (Hu & Hpos & Hc & Hl). split; [exact Hu|].
      cbn [Bar.provider Bar.count Bar.riskCounts]. split; [lia|]. split.
      * rewrite length_filter_snoc, Hc, <- Hp, String.eqb_refl. lia.
      * intros level. rewrite length_filter_snoc, <- Hp, String.eqb_refl.
        unfold increment. rewrite Hl. cbn [andb].
        destruct (riskLevel r), level; simpl; lia.
    + rewrite Forall_forall in *. intros e' Hin. apply barCounts_other; [|auto].
      intros Heq. apply Hnotin. rewrite Hp, Heq. now apply in_map.
  - apply String.eqb_neq in Hp. constructor.
    + apply barCounts_other; [congruence | exact He].
    + now apply IH.
Qed.

Lemma unseen_provider_count (seen : list ScanResult) (bars : list Bar.t)
      (p : string) (f : ScanResult -> bool) :
  (forall r, In r seen -> provider r <> UNKNOWN_PROVIDER ->
             In (provider r) (map Bar.provider bars)) ->
  p <> UNKNOWN_PROVIDER -> ~ In p (map Bar.provider bars) ->
  List.length (filter (fun x => String.eqb (provider x) p && f x) seen) = 0%nat.
Proof.
  intros Hcov Hu Hnew.
  destruct (filter _ seen) as [|x xs] eqn:Hf; [reflexivity|]. exfalso.
  assert (Hx : In x (filter (fun x => String.eqb (provider x) p && f x) seen))
    by (rewrite Hf; now left).
  apply filter_In in Hx. destruct Hx as [Hx Hpx].
  apply andb_true_iff in Hpx. destruct Hpx as [Hpx _].
  apply String.eqb_eq in Hpx.
  apply Hnew. rewrite <- Hpx. apply Hcov; [exact Hx | congruence].
Qed.

Lemma addToBars_counts (seen : list ScanResult) (r : ScanResult) (bars : list Bar.t) :
  barsCount seen bars -> barsCount (seen ++ [r]) (addToBars bars r).
Proof.
  intros (Hnd & Hall & Hcov). unfold addToBars.
  destruct (String.eqb (provider r) UNKNOWN_PROVIDER) eqn:Hu.
  - apply String.eqb_eq in Hu. split; [exact Hnd|]. split.
    + rewrite Forall_forall in *. intros e He. apply barCounts_other; [|auto].
      destruct (Hall e He) as (Hne & _). congruence.
    + intros r' Hin Hk. apply in_app_or in Hin.
      destruct Hin as [Hin|[<-|[]]]; [auto | congruence].
  - apply String.eqb_neq in Hu.
    destruct (barsHave bars (provider r)) eqn:Hh.
    + split; [now rewrite bumpBar_providers|]. split; [now apply bumpBar_counts|].
      intros r' Hin Hk. rewrite bumpBar_providers. apply in_app_or in Hin.
      destruct Hin as [Hin|[<-|[]]]; [auto | now apply barsHave_In].
    + assert (Hnew : ~ In (provider r) (map Bar.provider bars)).
      { intros H. apply barsHave_In in H. congruence. }
      split; [|split].
      * rewrite map_app. simpl. apply NoDup_app; [exact Hnd | | ].
        -- constructor; [tauto | constructor].
        -- intros p Hp [<-|[]]. tauto.
      * apply Forall_app. split.
        -- rewrite Forall_forall in *. intros e He. apply barCounts_other; [|auto].
           intros Heq. apply Hnew. rewrite Heq. now apply in_map.
        -- constructor; [|constructor].
           split; [exact Hu|]. cbn [Bar.provider Bar.count Bar.riskCounts].
           split; [lia|]. split.
           ++ rewrite length_filter_snoc, String.eqb_refl.
              pose proof (@unseen_provider_count seen bars (provider r)
                            (fun _ => true) Hcov Hu Hnew) as H0.
              rewrite (filter_ext _ (fun x => String.eqb (provider x) (provider r)))
                in H0 by (intros; apply andb_true_r).
              lia.
           ++ intros level. rewrite length_filter_snoc, String.eqb_refl.
              rewrite (@unseen_provider_count seen bars (provider r)
                         (fun x => riskLevelEqb (riskLevel x) level) Hcov Hu Hnew).
              unfold increment, noCounts. cbn [andb].
              destruct (riskLevel r), level; reflexivity.
      * intros r' Hin Hk. rewrite map_app, in_app_iff. apply in_app_or in Hin.
        destruct Hin as [Hin|[<-|[]]]; [left; auto | right; now left].
Qed.

Lemma fold_addToBars_counts (results seen : list ScanResult) (bars : list Bar.t) :
  barsCount seen bars ->
  barsCount (seen ++ results) (fold_left addToBars results bars).
Proof.
  revert seen bars. induction results as [|r rest IH]; intros seen bars H; simpl.
  - now rewrite app_nil_r.
  - replace (seen ++ r :: rest)%list with ((seen ++ [r]) ++ rest)%list
      by now rewrite <- app_assoc.
    apply IH. now apply addToBars_counts.
Qed.

Lemma setWorstRisk_same (e : Bar.t) :
  Bar.provider (setWorstRisk e) = Bar.provider e
  /\ Bar.count (setWorstRisk e) = Bar.count e
  /\ Bar.riskCounts (setWorstRisk e) = Bar.riskCounts e.
Proof.
  unfold setWorstRisk. now destruct (find _ RISK_ORDER).
Qed.

Lemma setWorstRisk_worst (e : Bar.t) (level : RiskLevel) :
  (0 < Bar.riskCounts e level)%nat ->
  (0 < Bar.riskCounts e (Bar.worstRisk (setWorstRisk e)))%nat
  /\ forall l, (0 < Bar.riskCounts e l)%nat ->
               (RISK_SORT_ORDER (Bar.worstRisk (setWorstRisk e)) <= RISK_SORT_ORDER l)%Z.
Proof.
  intros Hpos. unfold setWorstRisk, RISK_ORDER. cbn [find].
  destruct (0 <? Bar.riskCounts e CRITICAL)%nat eqn:H1;
    [|destruct (0 <? Bar.riskCounts e HIGH)%nat eqn:H2;
      [|destruct (0 <? Bar.riskCounts e MEDIUM)%nat eqn:H3;
        [|destruct (0 <? Bar.riskCounts e INFO)%nat eqn:H4;
          [|destruct (0 <? Bar.riskCounts e LOW)%nat eqn:H5]]]];
    cbn [Bar.worstRisk];
    rewrite ?Nat.ltb_lt, ?Nat.ltb_ge in *;
    try (split; [assumption|]; intros l Hl; destruct l; simpl; lia).
  exfalso. destruct level; lia.
Qed.

Lemma positive_filter_has (f : ScanResult -> bool) (l : list ScanResult) :
  (0 < List.length (filter f l))%nat <-> exists r, In r l /\ f r = true.
Proof.
  split.
  - destruct (filter f l) as [|r rest] eqn:Hf; simpl; [lia|]. intros _.
    exists r. apply filter_In. rewrite Hf. now left.
  - intros (r & Hin & Hr). assert (H : In r (filter f l)) by now apply filter_In.
    destruct (filter f l); [contradiction | simpl; lia].
Qed.

Lemma indexOf_RISK_ORDER (level : RiskLevel) :
  indexOf RISK_ORDER level = RISK_SORT_ORDER level.
Proof. now destruct level. Qed.

Lemma RISK_SORT_ORDER_inj (a b : RiskLevel) :
  RISK_SORT_ORDER a = RISK_SORT_ORDER b -> a = b.
Proof. destruct a, b; simpl; intros H; congruence || discriminate. Qed.

Lemma StronglySorted_firstn (T : Type) (R : T -> T -> Prop) (n : nat) (l : list T) :
  StronglySorted R l -> StronglySorted R (firstn n l).
Proof.
  revert l. induction n as [|n IH]; intros l Hs; [constructor|].
  destruct l as [|x l]; [constructor|]. inversion Hs as [|? ? Hl Hall]; subst.
  simpl. constructor; [now apply IH|].
  rewrite Forall_forall in *. intros y Hy. apply Hall.
  rewrite <- (firstn_skipn n l). apply in_or_app. now left.
Qed.

Lemma compareBars_cases (a b : Bar.t) :
  ((compareBars a b <= 0)%Z -> barBefore a b)
  /\ ((compareBars a b > 0)%Z -> barBefore b a).
Proof.
  unfold compareBars, barBefore. rewrite !indexOf_RISK_ORDER.
  destruct (RISK_SORT_ORDER (Bar.worstRisk a) =? RISK_SORT_ORDER (Bar.worstRisk b))%Z
    eqn:He; cbn [negb].
  - apply Z.eqb_eq in He. pose proof (RISK_SORT_ORDER_inj _ _ He) as Hw.
    split; intros H; right; (split; [congruence | lia]).
  - apply Z.eqb_neq in He. split; intros H; left; lia.
Qed.

Lemma barBefore_trans (a b c : Bar.t) :
  barBefore a b -> barBefore b c -> barBefore a c.
Proof.
  unfold barBefore. intros [H1|[H1 H1']] [H2|[H2 H2']].
  - left. lia.
  - left. rewrite <- H2. exact H1.
  - left. rewrite H1. exact H2.
  - right. split; [congruence | lia].
Qed.

(** The provider chart has at most ten bars, one provider to a bar, and none
    for "Unknown Provider". A bar counts the results of its provider, its
    worst risk is the most severe level among them, and the bars are ordered
    by worst risk, the more severe first, and by count, the larger first,
    within one worst risk. *)
Theorem provider_chart_bars :
  forall results : list ScanResult,
    let data := providerData results in
    (List.length data <= 10)%nat
    /\ NoDup (map Bar.provider data)
    /\ (forall e, In e data ->
          Bar.provider e <> UNKNOWN_PROVIDER
          /\ (0 < Bar.count e)%nat
          /\ Bar.count e
             = List.length
                 (filter (fun r => String.eqb (provider r) (Bar.provider e)) results)
          /\ (exists r, In r results /\ provider r = Bar.provider e
                        /\ riskLevel r = Bar.worstRisk e)
          /\ (forall r, In r results -> provider r = Bar.provider e ->
                        (RISK_SORT_ORDER (Bar.worstRisk e)
                         <= RISK_SORT_ORDER (riskLevel r))%Z))
    /\ StronglySorted barBefore data.
Proof.
  intros results data. subst data. unfold providerData.
  assert (Hinv : barsCount results (fold_left addToBars results [])).
  { apply (@fold_addToBars_counts results [] []).
    split; [constructor | split; [constructor | intros r []]]. }
  destruct Hinv as (Hnd & Hall & Hcov).
  assert (Hprov : map Bar.provider (collectBars results)
                  = map Bar.provider (fold_left addToBars results [])).
  { unfold collectBars. rewrite map_map. apply map_ext.
    intros e. apply setWorstRisk_same. }
  pose proof (arraySort_perm compareBars (collectBars results)) as Hperm.
  split; [apply firstn_le_length|]. split; [|split].
  - rewrite <- firstn_map.
    assert (Hs : NoDup (map Bar.provider (arraySort compareBars (collectBars results)))).
    { apply (Permutation_NoDup (l := map Bar.provider (collectBars results)));
        [apply Permutation_map; symmetry; exact Hperm | now rewrite Hprov]. }
    rewrite <- (firstn_skipn 10 (map Bar.provider _)) in Hs.
    exact (NoDup_app_remove_r _ _ Hs).
  - intros e' Hin.
    assert (Hin' : In e' (collectBars results)).
    { apply (Permutation_in _ Hperm).
      rewrite <- (firstn_skipn 10 (arraySort _ _)). apply in_or_app. now left. }
    unfold collectBars in Hin'. apply in_map_iff in Hin'.
    destruct Hin' as (e & <- & He).
    rewrite Forall_forall in Hall. destruct (Hall e He) as (Hu & Hpos & Hc & Hl).
    destruct (setWorstRisk_same e) as (Hsp & Hsc & _). rewrite Hsp, Hsc.
    split; [exact Hu|]. split; [exact Hpos|]. split; [exact Hc|].
    assert (Hsome : exists r, In r results /\ provider r = Bar.provider e).
    { rewrite Hc in Hpos. apply positive_filter_has in Hpos.
      destruct Hpos as (r & Hr & Hp). apply String.eqb_eq in Hp. now exists r. }
    destruct Hsome as (r0 & Hr0 & Hp0).
    assert (Hlevel : forall r, In r results -> provider r = Bar.provider e ->
                               (0 < Bar.riskCounts e (riskLevel r))%nat).
    { intros r Hr Hp. rewrite Hl. apply positive_filter_has. exists r.
      split; [exact Hr|]. rewrite Hp, String.eqb_refl. apply riskLevelEqb_refl. }
    destruct (@setWorstRisk_worst e _ (Hlevel r0 Hr0 Hp0)) as [Hw Hmin].
    split.
    + rewrite Hl in Hw. apply positive_filter_has in Hw.
      destruct Hw as (r & Hr & Hf). apply andb_true_iff in Hf.
      destruct Hf as [Hf1 Hf2]. apply String.eqb_eq in Hf1.
      apply riskLevelEqb_eq in Hf2. now exists r.
    + intros r Hr Hp. apply Hmin. now apply Hlevel.
  - apply StronglySorted_firstn.
    apply (@arraySort_sorted Bar.t compareBars barBefore).
    + intros x y. apply compareBars_cases.
    + intros x y. apply compareBars_cases.
    + apply barBefore_trans.
Qed.

(** ** The detail drawer, on scan results *)

Lemma includes_app_right (s t needle : string) :
  JS.includes t needle = true -> JS.includes (s ++ t) needle = true.
Proof.
  intros H. apply includes_split in H. destruct H as (pre & post & ->).
  apply includes_split. exists (s ++ pre), post. now rewrite append_assoc.
Qed.

Lemma startsWith_mismatch (c d : ascii) (s m : string) :
  c <> d -> JS.startsWith (String d s) (String c m) = false.
Proof.
  intros Hne. unfold JS.startsWith. cbn [prefix].
  destruct (ascii_dec c d); [contradiction | reflexivity].
Qed.

Lemma includes_after_arrow (target : string) :
  JS.includes ("CNAME -> " ++ target) MARKER_SOUGHT
  = JS.includes target MARKER_SOUGHT.
Proof.
  unfold MARKER_SOUGHT.
  repeat (cbn [append JS.includes];
          rewrite startsWith_mismatch by discriminate; cbn [orb]).
  reflexivity.
Qed.

(** When the CNAME query names a target and the check of that target is
    answered with status 3 or fails, the drawer explains the scan result as a
    dangling CNAME, naming the effective resolved name. *)
Theorem drawer_explains_dangling_cname :
  forall (FINGERPRINTS : FingerprintCatalog) (PROVIDER_MAP : ProviderCatalog)
         (net : Network) (subdomain : string)
         (data : DnsReply.t) (cnameRecord : DnsRecord.t),
    resolve net subdomain TypeCNAME = inr data ->
    cnameAnswer data = Some cnameRecord ->
    (reportsNoSuchDomain net (JS.stripTrailing "." (DnsRecord.data cnameRecord))
     \/ exists err,
          resolve net (JS.stripTrailing "." (DnsRecord.data cnameRecord)) TypeA
          = inl err) ->
    let result := scanSubdomain FINGERPRINTS PROVIDER_MAP net subdomain in
    getDnsExplanation result
    = "The subdomain has a CNAME record pointing to " ++ QUOTE ++ cname result
      ++ QUOTE
      ++ ", but the CNAME target does not resolve (NXDOMAIN). This is a dangling CNAME.".
Proof.
  intros FINGERPRINTS PROVIDER_MAP net subdomain data cnameRecord Hq Ha Hm result.
  apply cnameResolves_false in Hm.
  pose proof (dnsLookup_cname_branch _ _ Hq Ha) as Hl. cbv zeta in Hl.
  rewrite Hm in Hl.
  unfold getDnsExplanation. subst result. unfold scanSubdomain.
  cbn [dnsStatus dnsLookupResult cname]. rewrite Hl.
  cbn [Lookup.dnsStatus Lookup.dnsLookupText Lookup.cnameTarget].
  rewrite <- append_assoc.
  rewrite includes_app_right; reflexivity.
Qed.

Lemma drawer_explains_dangling_cname_witness :
  getDnsExplanation
    (scanSubdomain Sample.fingerprints Sample.providers Sample.secondaryTimesOut
       "shop.example.com")
  = "The subdomain has a CNAME record pointing to " ++ QUOTE ++ "ghost.example.net"
    ++ QUOTE
    ++ ", but the CNAME target does not resolve (NXDOMAIN). This is a dangling CNAME.".
Proof.
  apply (@drawer_explains_dangling_cname Sample.fingerprints Sample.providers
           Sample.secondaryTimesOut "shop.example.com"
           (DnsReply.mk 0 (Some [DnsRecord.mk 5 "ghost.example.net."]))
           (DnsRecord.mk 5 "ghost.example.net.") eq_refl eq_refl).
  right. now eexists.
Defined.

(** A CNAME that only the reply to the A query names is reported without any
    check of its target, and the drawer then says that the target resolves
    successfully (as long as the target does not itself contain the marker
    text). *)
Theorem drawer_vouches_for_unchecked_cname :
  forall (FINGERPRINTS : FingerprintCatalog) (PROVIDER_MAP : ProviderCatalog)
         (net : Network) (subdomain : string)
         (data aData : DnsReply.t) (answer : list DnsRecord.t)
         (cnameInA : DnsRecord.t),
    resolve net subdomain TypeCNAME = inr data ->
    cnameAnswer data = None ->
    resolve net subdomain TypeA = inr aData ->
    DnsReply.Status aData <> 3%Z ->
    DnsReply.Answer aData = Some answer ->
    filter (isType 1) answer = [] ->
    find (isType 5) answer = Some cnameInA ->
    JS.includes (JS.stripTrailing "." (DnsRecord.data cnameInA)) MARKER_SOUGHT = false ->
    let result := scanSubdomain FINGERPRINTS PROVIDER_MAP net subdomain in
    dnsStatus result = CNAME
    /\ dnsLookupResult result
       = "CNAME -> " ++ JS.stripTrailing "." (DnsRecord.data cnameInA)
    /\ getDnsExplanation result
       = "The subdomain has a CNAME record pointing to " ++ QUOTE ++ cname result
         ++ QUOTE ++ ". The CNAME target resolves successfully.".
Proof.
  intros FINGERPRINTS PROVIDER_MAP net subdomain data aData answer cnameInA
         Hq Hc Hq2 H3 Ha Hf H5 Hclean result.
  assert (Hl : dnsLookup net subdomain
               = Lookup.mk CNAME (JS.stripTrailing "." (DnsRecord.data cnameInA))
                   ("CNAME -> " ++ JS.stripTrailing "." (DnsRecord.data cnameInA))).
  { unfold dnsLookup, lookupA. rewrite Hq, Hc, Hq2.
    apply Z.eqb_neq in H3. now rewrite H3, Ha, Hf, H5. }
  unfold getDnsExplanation. subst result. unfold scanSubdomain.
  cbn [dnsStatus dnsLookupResult cname]. rewrite Hl.
  cbn [Lookup.dnsStatus Lookup.dnsLookupText Lookup.cnameTarget].
  rewrite includes_after_arrow, Hclean. auto.
Qed.

Lemma drawer_vouches_for_unchecked_cname_witness :
  let net :=
    mkNetwork
      (fun _ qtype =>
         match qtype with
         | TypeCNAME => inr (DnsReply.mk 0 None)
         | TypeA => inr (DnsReply.mk 0 (Some [DnsRecord.mk 5 "ghost.example.net."]))
         end)
      (fun _ => inl Sample.fetchFailed) Sample.timestamp in
  getDnsExplanation
    (scanSubdomain Sample.fingerprints Sample.providers net "shop.example.com")
  = "The subdomain has a CNAME record pointing to " ++ QUOTE ++ "ghost.example.net"
    ++ QUOTE ++ ". The CNAME target resolves successfully.".
Proof.
  intros net.
  apply (@drawer_vouches_for_unchecked_cname Sample.fingerprints Sample.providers
           net "shop.example.com" (DnsReply.mk 0 None)
           (DnsReply.mk 0 (Some [DnsRecord.mk 5 "ghost.example.net."]))
           [DnsRecord.mk 5 "ghost.example.net."]
           (DnsRecord.mk 5 "ghost.example.net.")
           eq_refl eq_refl eq_refl ltac:(discriminate) eq_refl eq_refl eq_refl eq_refl).
Defined.

(** ** The CSV export *)

Lemma readCsvRow_value (val rest current : string) (done : list string) :
  readCsvRow (replaceAllChar DQUOTE (QUOTE ++ QUOTE) val ++ String DQUOTE rest)
    InValue current done
  = readCsvRow rest AfterQuote (current ++ val) done.
Proof.
  revert current. induction val as [|c val IH]; intros current.
  - cbn [replaceAllChar append readCsvRow]. rewrite Ascii.eqb_refl.
    now rewrite append_empty_right.
  - cbn [replaceAllChar]. destruct (Ascii.eqb c DQUOTE) eqn:Hc.
    + apply Ascii.eqb_eq in Hc. subst c.
      change ((QUOTE ++ QUOTE) ++ ?x) with (String DQUOTE (String DQUOTE x)).
      cbn [append readCsvRow]. rewrite !Ascii.eqb_refl. rewrite IH.
      now rewrite append_assoc.
    + cbn [append readCsvRow]. rewrite Hc, IH. now rewrite append_assoc.
Qed.

Lemma readCsvRow_cell (val rest : string) (done : list string) :
  readCsvRow (csvCell val ++ rest) AtValueStart "" done
  = readCsvRow rest AfterQuote val done.
Proof.
  unfold csvCell. change (QUOTE ++ ?x) with (String DQUOTE x).
  cbn [append readCsvRow]. rewrite Ascii.eqb_refl.
  rewrite append_assoc. change (QUOTE ++ rest) with (String DQUOTE rest).
  now rewrite readCsvRow_value.
Qed.

Lemma readCsvRow_row (vals done : list string) :
  vals <> [] ->
  readCsvRow (csvRow vals) AtValueStart "" done = Some (done ++ vals)%list.
Proof.
  revert done. induction vals as [|v rest IH]; intros done Hne; [contradiction|].
  unfold csvRow. cbn [map String.concat].
  destruct rest as [|v2 rest].
  - cbn [map]. rewrite <- (append_empty_right (csvCell v)), readCsvRow_cell.
    reflexivity.
  - cbn [map]. rewrite readCsvRow_cell.
    change ("," ++ ?x) with (String ","%char x). cbn [readCsvRow].
    assert (Hq : Ascii.eqb ","%char DQUOTE = false) by reflexivity.
    rewrite Hq, Ascii.eqb_refl.
    change (String.concat "," (csvCell v2 :: map csvCell rest))
      with (csvRow (v2 :: rest)).
    rewrite IH by discriminate. now rewrite <- app_assoc.
Qed.

(** The export keeps values apart: two lists of values that give the same
    CSV row are the same list, whatever commas, quotes or line feeds the
    values hold. A row is read back, quote by quote, to its values. *)
Theorem csvRow_injective :
  forall vals1 vals2 : list string,
    csvRow vals1 = csvRow vals2 -> vals1 = vals2.
Proof.
  assert (Hread : forall vals, readCsvRow (csvRow vals) AtValueStart "" [] = Some vals).
  { intros [|v rest]; [reflexivity|]. now rewrite readCsvRow_row. }
  intros vals1 vals2 Heq.
  pose proof (Hread vals1) as H1. rewrite Heq, Hread in H1. congruence.
Qed.

Lemma csvRow_injective_witness :
  csvRow ["a,b"; "c"] = csvRow ["a,b"; "c"] /\ csvRow ["a,b"; "c"] <> csvRow ["a"; "b,c"].
Proof.
  split; [reflexivity|]. intros H.
  apply (@csvRow_injective ["a,b"; "c"] ["a"; "b,c"]) in H. discriminate.
Defined.

(** Every line that [generateCsv] writes for a result reads back to the
    twelve fields of that result. *)
Theorem generateCsv_row_reads_back :
  forall r : ScanResult,
    readCsvRow (csvRow (csvFields r)) AtValueStart "" [] = Some (csvFields r)
    /\ List.length (csvFields r) = List.length CSV_HEADERS.
Proof.
  intros r. split; [|reflexivity].
  now rewrite readCsvRow_row.
Qed.

(** ** The cleanup plan *)


(** ** The generators of the catalog files *)

Lemma replaceAllChar_app (c : ascii) (by_ s t : string) :
  replaceAllChar c by_ (s ++ t) = replaceAllChar c by_ s ++ replaceAllChar c by_ t.
Proof.
  induction s as [|a s IH]; simpl; [reflexivity|].
  destruct (Ascii.eqb a c); rewrite IH; [now rewrite append_assoc | reflexivity].
Qed.

Lemma readTsLiteral_escapeTs (v rest : string) :
  readTsLiteral (escapeTs v ++ rest) false = v ++ readTsLiteral rest false.
Proof.
  unfold escapeTs. induction v as [|c v IH]; [reflexivity|].
  cbn [replaceAllChar].
  destruct (Ascii.eqb c BACKSLASH) eqn:Hb.
  - apply Ascii.eqb_eq in Hb. subst c.
    rewrite replaceAllChar_app.
    change (replaceAllChar DQUOTE (String BACKSLASH QUOTE)
              (String BACKSLASH (String BACKSLASH "")))
      with (String BACKSLASH (String BACKSLASH "")).
    cbn [append readTsLiteral]. rewrite Ascii.eqb_refl. now rewrite IH.
  - cbn [replaceAllChar]. destruct (Ascii.eqb c DQUOTE) eqn:Hq.
    + apply Ascii.eqb_eq in Hq. subst c.
      change (String BACKSLASH QUOTE ++ ?x)
        with (String BACKSLASH (String DQUOTE x)).
      cbn [append readTsLiteral]. rewrite Ascii.eqb_refl. now rewrite IH.
    + cbn [append readTsLiteral]. rewrite Hb. now rewrite IH.
Qed.

(** The escaping of a catalog value in the generated file loses nothing:
    read with a backslash standing for the character after it, the escaped
    text is the value, and two values with the same escaped text are the same
    value. *)
Theorem escapeTs_reads_back :
  forall v : string,
    readTsLiteral (escapeTs v) false = v
    /\ forall w, escapeTs v = escapeTs w -> v = w.
Proof.
  assert (Hread : forall v, readTsLiteral (escapeTs v) false = v).
  { intros v. rewrite <- (append_empty_right (escapeTs v)), readTsLiteral_escapeTs.
    apply append_empty_right. }
  intros v. split; [apply Hread|].
  intros w Heq. rewrite <- (Hread v), Heq. apply Hread.
Qed.

(** ** Which lines are scanned *)


(** The hostnames that parsing produces are the values of the lines of the
    text, the first line left out when it contains "domain" in any letter
    case (which a line containing "subdomain" does): every line that cleans
    to a hostname is scanned, and nothing else is. *)
Theorem parseDomainsFromText_scans_every_line :
  forall (text host : string),
    let lines := splitLines text in
    let isHeader := JS.includes (JS.toLowerCase (hd "" lines)) "domain" in
    In host (parseDomainsFromText text)
    <->
    exists line,
      In line (if isHeader then tl lines else lines)
      /\ parseLine line = Some host.
Proof.
  intros text host lines isHeader. unfold parseDomainsFromText. fold lines.
  rewrite setValues_In.
  assert (Hskip : JS.includes (JS.toLowerCase (hd "" lines)) "subdomain"
                  || JS.includes (JS.toLowerCase (hd "" lines)) "domain"
                  = isHeader).
  { subst isHeader.
    destruct (JS.includes (JS.toLowerCase (hd "" lines)) "subdomain") eqn:Hs;
      [|reflexivity].
    now rewrite (includes_subdomain _ Hs). }
  rewrite Hskip.
  assert (Hvalues : forall ls,
             In host (flat_map (fun line => match parseLine line with
                                            | Some val => [val]
                                            | None => []
                                            end) ls)
             <-> exists line, In line ls /\ parseLine line = Some host).
  { intros ls. rewrite in_flat_map. split; intros (line & Hin & Hp); exists line;
      (split; [exact Hin|]).
    - destruct (parseLine line); simpl in Hp; [|contradiction].
      destruct Hp as [->|[]]. reflexivity.
    - rewrite Hp. now left. }
  destruct isHeader.
  - destruct lines as [|first rest] eqn:Hl;
      [exfalso; exact (splitLines_not_empty text Hl)|].
    cbn [parseLoop Nat.eqb andb tl].
    rewrite parseLoop_values by reflexivity. rewrite Hvalues. tauto.
  - rewrite parseLoop_values by apply andb_false_r. rewrite Hvalues. tauto.
Qed.

(** ** Reading the result stream *)

Lemma splitNewline_not_empty (s : string) : splitNewline s <> [].
Proof.
  induction s as [|c s IH]; simpl; [discriminate|].
  destruct (Ascii.eqb c LF); [discriminate|].
  unfold consHead. destruct (splitNewline s); discriminate.
Qed.

Lemma removelast_consHead (c : ascii) (l : list string) :
  l <> [] ->
  match removelast l with
  | [] => removelast (consHead c l) = [] /\ last (consHead c l) "" = String c (last l "")
  | _ => removelast (consHead c l) = consHead c (removelast l)
         /\ last (consHead c l) "" = last l ""
  end.
Proof.
  destruct l as [|l0 [|l1 ls]]; [contradiction | simpl; auto |].
  intros _. cbn [removelast consHead last]. auto.
Qed.

Lemma splitNewline_cons (c : ascii) (s : string) :
  Ascii.eqb c LF = false -> splitNewline (String c s) = consHead c (splitNewline s).
Proof. intros H. simpl. now rewrite H. Qed.

(** What a chunk adds to the lines of the buffer: the lines already ended
    stay, and the last, unended line goes on. *)
Lemma splitNewline_app (a c : string) :
  splitNewline (a ++ c)
  = (removelast (splitNewline a) ++ splitNewline (last (splitNewline a) "" ++ c))%list.
Proof.
  induction a as [|x a IH]; [reflexivity|].
  cbn [append splitNewline]. destruct (Ascii.eqb x LF) eqn:Hx.
  - pose proof (splitNewline_not_empty a) as Hne.
    rewrite IH. destruct (splitNewline a) as [|l0 ls]; [contradiction|].
    reflexivity.
  - rewrite IH.
    pose proof (@removelast_consHead x (splitNewline a) (splitNewline_not_empty a)) as Hr.
    destruct (removelast (splitNewline a)) as [|r0 rs].
    + destruct Hr as [-> ->]. cbn [app append].
      now rewrite splitNewline_cons.
    + destruct Hr as [-> ->]. reflexivity.
Qed.

Lemma removelast_last_app (l m : list string) :
  m <> [] ->
  removelast (l ++ m) = (l ++ removelast m)%list /\ last (l ++ m) "" = last m "".
Proof.
  intros Hm. split; [now apply removelast_app|].
  induction l as [|x l IH]; [reflexivity|].
  cbn [app last]. destruct (l ++ m)%list eqn:E; [|exact IH].
  apply app_eq_nil in E. tauto.
Qed.

Lemma orElse_empty (s : string) : JS.orElse s "" = s.
Proof. now destruct s. Qed.

Lemma readChunk_twice (parseJson : string -> option StreamEvent)
      (state : Page.t * string) (c1 c2 : string) :
  readChunk parseJson (readChunk parseJson state c1) c2
  = readChunk parseJson state (c1 ++ c2).
Proof.
  destruct state as [page buffer]. unfold readChunk.
  rewrite !orElse_empty, <- append_assoc.
  rewrite (splitNewline_app (buffer ++ c1) c2).
  destruct (removelast_last_app (removelast (splitNewline (buffer ++ c1)))
              (splitNewline_not_empty (last (splitNewline (buffer ++ c1)) "" ++ c2)))
    as [-> ->].
  now rewrite fold_left_app.
Qed.

Lemma readChunks_join (parseJson : string -> option StreamEvent)
      (chunks : list string) (state : Page.t * string) (first : string) :
  fold_left (readChunk parseJson) (first :: chunks) state
  = readChunk parseJson state (String.concat "" (first :: chunks)).
Proof.
  revert state first. induction chunks as [|second rest IH]; intros state first.
  - reflexivity.
  - specialize (IH (readChunk parseJson state first) second).
    cbn [fold_left] in IH. cbn [fold_left]. rewrite IH.
    rewrite readChunk_twice. reflexivity.
Qed.

(** How the stream is cut into chunks does not matter: the results, the
    progress and the unread rest of the buffer are those of the whole text
    read as one chunk. *)
Theorem readStream_ignores_chunking :
  forall (parseJson : string -> option StreamEvent) (chunks : list string),
    readStream parseJson chunks = readStream parseJson [String.concat "" chunks].
Proof.
  intros parseJson [|first rest]; [reflexivity|].
  unfold readStream. now rewrite readChunks_join.
Qed.

Lemma splitNewline_single (tail : string) :
  JS.includes tail Sample.newline = false -> splitNewline tail = [tail].
Proof.
  intros H. apply no_char in H.
  induction tail as [|c tail IH]; simpl; [reflexivity|].
  destruct (Ascii.eqb c LF) eqn:Hc.
  - apply Ascii.eqb_eq in Hc. subst c. simpl in H. tauto.
  - rewrite IH by (simpl in H; tauto). reflexivity.
Qed.

Lemma splitNewline_snoc (s : string) :
  splitNewline (s ++ String LF "") = (splitNewline s ++ [""])%list.
Proof.
  induction s as [|c s IH]; [reflexivity|].
  cbn [append splitNewline]. destruct (Ascii.eqb c LF).
  - now rewrite IH.
  - rewrite IH. pose proof (splitNewline_not_empty s) as Hne.
    destruct (splitNewline s); [contradiction | reflexivity].
Qed.

(** The loop handles a line only once its line feed has arrived: what
    follows the last line feed of the stream stays in the buffer and is never
    handled, so a last event without a line feed is lost. *)
Theorem readStream_drops_unended_line :
  forall (parseJson : string -> option StreamEvent) (head tail : string),
    JS.includes tail Sample.newline = false ->
    readStream parseJson [head ++ Sample.newline ++ tail]
    = (fst (readStream parseJson [head ++ Sample.newline]), tail).
Proof.
  intros parseJson head tail Htail.
  assert (H2 : readStream parseJson [head ++ Sample.newline ++ tail]
               = readChunk parseJson (readStream parseJson [head ++ Sample.newline]) tail).
  { unfold readStream. cbn [fold_left]. rewrite readChunk_twice.
    now rewrite append_assoc. }
  rewrite H2. clear H2.
  assert (Hb : snd (readStream parseJson [head ++ Sample.newline]) = "").
  { unfold readStream. cbn [fold_left]. unfold readChunk.
    rewrite orElse_empty. cbn [append snd].
    change (Sample.newline) with (String LF "").
    rewrite splitNewline_snoc. apply last_last. }
  destruct (readStream parseJson [head ++ Sample.newline]) as [page buffer].
  cbn [fst snd] in *. subst buffer. unfold readChunk.
  cbn [append]. rewrite (@splitNewline_single tail Htail). cbn [removelast last fold_left]. now rewrite orElse_empty.
Qed.

Lemma readStream_drops_unended_line_witness :
  readStream (fun line => if String.eqb line "init" then Some (EventInit 2) else None)
    ["init" ++ Sample.newline ++ "init"]
  = (Page.mk [] (Some (Progress.mk 0 (Some 2%Z))), "init").
Proof.
  rewrite (@readStream_drops_unended_line
             (fun line => if String.eqb line "init" then Some (EventInit 2) else None)
             "init" "init"); reflexivity.
Defined.
